(** * Attendance reconciliation of the check-in form (helpers.py, current.py, checkin.py)

    A shallow embedding of the data functions of the check-in/check-out
    tracker: the pandas frames are lists of typed rows, the spreadsheet
    reads go through a small state-and-exception monad that logs every
    read, and the pandas operations the code calls ([sort_values],
    [drop_duplicates], [isin], [melt], [dropna]) are list functions. *)

From Stdlib Require Import List String Ascii Bool Arith NArith ZArith Lia.
From Stdlib Require Import Sorted Permutation.
Import ListNotations.
Open Scope string_scope.
Open Scope nat_scope.
Set Warnings "-abstract-large-number".

(** ** Exceptions *)

(** The exceptions the data functions can raise.  [ParserError] is what
    [pd.to_datetime] raises on a string it cannot read; [OverflowError] is
    what [datetime + timedelta] raises past year 9999. *)
Inductive exn : Type :=
| ValueError (msg : string)
| OverflowError (msg : string)
| ParserError (text : string).

Definition result (A : Type) : Type := (exn + A)%type.

(** helpers.py, lines 220 and 335: [raise ValueError('date_end must be later
    than date_start')], the error the specification calls InvalidRange. *)
Definition InvalidRange : exn :=
  ValueError "date_end must be later than date_start".

(** ** The pandas operations used by the code, on lists of rows *)

Section FrameOps.
Context {A : Type}.

(** [df.sort_values(by=...)], ascending: a sort by the comparison [leb] of
    the [by] columns that keeps rows with equal keys in their order.
    pandas sorts by several columns in this way (a lexsort).  For a single
    column its default kind is numpy's quicksort, which may reorder rows
    with equal keys: [get_students_df_by] leaves the sort open and
    [quicksort_by_SubmitTime] is that quicksort. *)
Section Sort.
Variable leb : A -> A -> bool.

Fixpoint insert_row (x : A) (l : list A) : list A :=
  match l with
  | [] => [x]
  | y :: r => if leb x y then x :: l else y :: insert_row x r
  end.

Fixpoint sort_values (l : list A) : list A :=
  match l with
  | [] => []
  | x :: r => insert_row x (sort_values r)
  end.
End Sort.

(** [df.drop_duplicates(subset=..., keep=...)]: [key] reads the [subset]
    columns of a row. *)
Section Dedup.
Context {K : Type}.
Variable key_eqb : K -> K -> bool.
Variable key : A -> K.

Definition key_mem (k : K) (ks : list K) : bool := existsb (key_eqb k) ks.

(** keep='first': a row is dropped when its key occurred in an earlier
    row ([seen] holds the keys met so far). *)
Fixpoint drop_duplicates_from (seen : list K) (l : list A) : list A :=
  match l with
  | [] => []
  | x :: r =>
      if key_mem (key x) seen then drop_duplicates_from seen r
      else x :: drop_duplicates_from (key x :: seen) r
  end.

Definition drop_duplicates_first (l : list A) : list A :=
  drop_duplicates_from [] l.

(** keep='last': a row is dropped when its key occurs in a later row. *)
Fixpoint drop_duplicates_last (l : list A) : list A :=
  match l with
  | [] => []
  | x :: r =>
      if key_mem (key x) (map key r) then drop_duplicates_last r
      else x :: drop_duplicates_last r
  end.
End Dedup.
End FrameOps.

(** [series.isin(values)] on a column of strings. *)
Definition isin (values : list string) (s : string) : bool :=
  existsb (String.eqb s) values.

(** Equality of [subset] keys, which are lists of string cells. *)
Fixpoint cells_eqb (a b : list string) : bool :=
  match a, b with
  | [], [] => true
  | x :: a', y :: b' => String.eqb x y && cells_eqb a' b'
  | _, _ => false
  end.

(** Lexicographic comparison of the [by] columns of two rows, as
    [sort_values(by=[c1; c2; ...])] orders them. *)
Fixpoint cells_compare (a b : list string) : comparison :=
  match a, b with
  | [], [] => Eq
  | [], _ :: _ => Lt
  | _ :: _, [] => Gt
  | x :: a', y :: b' =>
      match String.compare x y with
      | Eq => cells_compare a' b'
      | c => c
      end
  end.

Definition cells_leb (a b : list string) : bool :=
  match cells_compare a b with Gt => false | _ => true end.

(** ** Dates and times *)

(** A naive [datetime.datetime]. *)
Record datetime : Type := mk_datetime {
  year : nat; month : nat; day : nat;
  hour : nat; minute : nat; second : nat; microsecond : nat
}.

Definition datetime_fields (d : datetime) : list nat :=
  [year d; month d; day d; hour d; minute d; second d; microsecond d].

Fixpoint nats_compare (a b : list nat) : comparison :=
  match a, b with
  | [], [] => Eq
  | [], _ :: _ => Lt
  | _ :: _, [] => Gt
  | x :: a', y :: b' =>
      match Nat.compare x y with
      | Eq => nats_compare a' b'
      | c => c
      end
  end.

(** [a < b] and [a <= b] on datetimes: field by field, year first. *)
Definition datetime_ltb (a b : datetime) : bool :=
  match nats_compare (datetime_fields a) (datetime_fields b) with
  | Lt => true
  | _ => false
  end.

Definition datetime_leb (a b : datetime) : bool :=
  match nats_compare (datetime_fields a) (datetime_fields b) with
  | Gt => false
  | _ => true
  end.

Definition is_leap (y : nat) : bool :=
  (y mod 4 =? 0) && (negb (y mod 100 =? 0) || (y mod 400 =? 0)).

Definition days_in_month (y m : nat) : nat :=
  match m with
  | 2 => if is_leap y then 29 else 28
  | 4 | 6 | 9 | 11 => 30
  | _ => 31
  end.

(** [d + datetime.timedelta(days=1)]; past 9999-12-31 Python raises
    OverflowError. *)
Definition add_one_day (d : datetime) : result datetime :=
  if day d <? days_in_month (year d) (month d) then
    inr (mk_datetime (year d) (month d) (S (day d))
                     (hour d) (minute d) (second d) (microsecond d))
  else if month d <? 12 then
    inr (mk_datetime (year d) (S (month d)) 1
                     (hour d) (minute d) (second d) (microsecond d))
  else if year d <? 9999 then
    inr (mk_datetime (S (year d)) 1 1
                     (hour d) (minute d) (second d) (microsecond d))
  else inl (OverflowError "date value out of range").

(** Decimal digits, for [strftime]. *)
Definition digit (n : nat) : ascii := ascii_of_nat (48 + n mod 10).

Definition two_digits (n : nat) (rest : string) : string :=
  String (digit (n / 10)) (String (digit n) rest).

Definition four_digits (n : nat) (rest : string) : string :=
  String (digit (n / 1000)) (String (digit (n / 100)) (two_digits n rest)).

(** [%Y] of [datetime.strftime]: the year in decimal.  The C library of
    Linux does not pad it, so a year below 1000 takes fewer than four
    characters ('999-01-01'); from 1000 on it takes four. *)
Definition year_text (y : nat) (rest : string) : string :=
  if y <? 10 then String (digit y) rest
  else if y <? 100 then two_digits y rest
  else if y <? 1000 then String (digit (y / 100)) (two_digits y rest)
  else four_digits y rest.

(** [d.strftime('%Y-%m-%d')] *)
Definition strftime_Ymd (d : datetime) : string :=
  year_text (year d) (String "-" (two_digits (month d)
    (String "-" (two_digits (day d) "")))).

(** [t.strftime('%H:%M:%S')], as checkin.py writes SubmitTime (line 287). *)
Definition strftime_HMS (d : datetime) : string :=
  two_digits (hour d) (String ":" (two_digits (minute d)
    (String ":" (two_digits (second d) "")))).

(** ** Time periods *)

(** helpers.py, lines 13-18. *)
Inductive TimePeriod : Type := MORNING | AFTERNOON.

Definition TimePeriod_eqb (a b : TimePeriod) : bool :=
  match a, b with
  | MORNING, MORNING | AFTERNOON, AFTERNOON => true
  | _, _ => false
  end.

(** checkin.py, lines 11-15 (and current.py, lines 57-61): the period of a
    timestamp. *)
Definition time_period (current_time : datetime) : TimePeriod :=
  if hour current_time <? 9 then MORNING else AFTERNOON.

(** helpers.py, lines 179-182: the mask selecting the rows of a period from
    the hour of the parsed SubmitTime. *)
Definition period_mask (p : TimePeriod) (t : datetime) : bool :=
  match p with
  | MORNING => hour t <? 9
  | AFTERNOON => 9 <=? hour t
  end.

(** ** The worksheets *)

(** A cell of a frame: [None] is pandas' NaN, which is how an empty
    spreadsheet cell is read (checkin.py, line 123, tests the OverrideTime
    it read with [pd.isna]). *)
Definition cell : Type := option string.

(** A row of the 'checkins' or 'checkouts' worksheet; the columns are the
    ones checkin.py writes (lines 309-317).  Only OverrideTime is ever left
    empty by the writer (lines 289-291). *)
Record Event : Type := mk_Event {
  SubmitTime : string;
  SubmitDate : string;
  OverrideTime : cell;
  FullName : string;
  LastName : string;
  FirstName : string;
  Grade : string
}.

(** A row of the corrections form, 'Form Responses 1', as the sheet holds
    it: every cell is text, possibly empty.  The named fields are the
    columns helpers.py relies on (lines 347-382), under the sheet's own
    headers; [raw_others] holds the cells of the remaining columns, in the
    order of the sheet's [other_columns]. *)
Record RawCorrection : Type := mk_RawCorrection {
  raw_Timestamp : string;        (* 'Timestamp' *)
  raw_EmailAddress : string;     (* 'Email Address' *)
  raw_ChooseGrade : string;      (* 'Choose Grade of Student' *)
  raw_ActionChoice : string;     (* 'Checkin, Checkout, or Remove?' *)
  raw_AdditionalNotes : string;  (* 'Additional Notes' *)
  raw_Date : string;             (* 'Date' *)
  raw_Time : string;             (* 'Time' *)
  raw_Session : string;          (* 'Session' *)
  raw_others : list string
}.

Record CorrectionsSheet : Type := mk_CorrectionsSheet {
  other_columns : list string;
  responses : list RawCorrection
}.

(** The two event logs, and the worksheets a read can name. *)
Inductive EventLog : Type :=
| checkins
| checkouts.

Inductive Worksheet : Type :=
| event_log (log : EventLog)
| form_responses.

(** What the functions see of the outside: the three logs, the clock that
    [datetime.datetime.today()] reads, and the list of the reads done so
    far (latest first). *)
Record Store : Type := mk_Store {
  sheet_checkins : list Event;
  sheet_checkouts : list Event;
  sheet_corrections : CorrectionsSheet;
  clock : datetime;
  reads : list Worksheet
}.

(** ** The monad of the data functions: a store and exceptions *)

Definition M (A : Type) : Type := Store -> result A * Store.

Definition ret {A : Type} (a : A) : M A := fun s => (inr a, s).

Definition bind {A B : Type} (m : M A) (k : A -> M B) : M B :=
  fun s =>
    match m s with
    | (inr a, s') => k a s'
    | (inl e, s') => (inl e, s')
    end.

Definition raise {A : Type} (e : exn) : M A := fun s => (inl e, s).

Definition lift {A : Type} (r : result A) : M A := fun s => (r, s).

Notation "x <- m ;; k" := (bind m (fun x => k))
  (at level 61, m at next level, right associativity).
Notation "m ;;; k" := (bind m (fun _ => k))
  (at level 61, right associativity).

(** The store once worksheet [w] has been read. *)
Definition after_read (w : Worksheet) (s : Store) : Store :=
  mk_Store (sheet_checkins s) (sheet_checkouts s)
           (sheet_corrections s) (clock s) (w :: reads s).

Definition log_read (w : Worksheet) : M unit :=
  fun s => (inr tt, after_read w s).

(** The rows of an event log. *)
Definition worksheet_rows (s : Store) (w : EventLog) : list Event :=
  match w with
  | checkins => sheet_checkins s
  | checkouts => sheet_checkouts s
  end.

(** [datetime.datetime.today()] *)
Definition today : M datetime := fun s => (inr (clock s), s).

(** [conn.read(worksheet=..., ttl=0)] on one of the two event logs. *)
Definition read_events (w : EventLog) : M (list Event) :=
  log_read (event_log w) ;;;
  fun s => (inr (worksheet_rows s w), s).

(** Python's truth value of an optional string ([if date:]) and of an
    optional list ([if students:]). *)
Definition truthy_str (o : option string) : bool :=
  match o with
  | Some (String _ _) => true
  | _ => false
  end.

Definition truthy_list {A : Type} (o : option (list A)) : bool :=
  match o with
  | Some (_ :: _) => true
  | _ => false
  end.

Definition is_some {A : Type} (o : option A) : bool :=
  match o with Some _ => true | None => false end.

(** ** current.py: the students present right now *)

(** current.py, lines 74-81:
    [df_checkedin[~(df_checkedin['FullName'].isin(df_checkedout['FullName']))]] *)
Definition df_current (df_checkedin df_checkedout : list Event) : list Event :=
  filter (fun e => negb (isin (map FullName df_checkedout) (FullName e)))
         df_checkedin.

(** ** helpers.py: the reconciler *)

(** A row of the frame [get_attendance] returns, in its [order_of_columns]
    (helpers.py, lines 266-275). *)
Record AttendanceRow : Type := mk_AttendanceRow {
  att_LastName : string;
  att_FirstName : string;
  att_Action : string;
  att_SubmitDate : string;
  att_SubmitTime : string;
  att_OverrideTime : cell;
  att_Grade : string
}.

(** [df[order_of_columns]] on a log row that carries its 'Action' column. *)
Definition order_of_columns (r : Event * string) : AttendanceRow :=
  let (e, action) := r in
  mk_AttendanceRow (LastName e) (FirstName e) action (SubmitDate e)
                   (SubmitTime e) (OverrideTime e) (Grade e).

(** The [by] and [subset] columns of the three frames. *)
Definition by_SubmitTime (a b : Event) : bool :=
  String.leb (SubmitTime a) (SubmitTime b).

Definition subset_FullName_SubmitDate (e : Event) : list string :=
  [FullName e; SubmitDate e].

Definition by_name_date_time (r : Event * string) : list string :=
  let e := fst r in [LastName e; FirstName e; SubmitDate e; SubmitTime e].

Definition subset_name_date_action (r : AttendanceRow) : list string :=
  [att_LastName r; att_FirstName r; att_SubmitDate r; att_Action r].

(** *** The frames of [get_corrections] *)

(** [conn.read]: an empty cell of the sheet is read as NaN. *)
Definition read_cell (s : string) : cell :=
  match s with
  | EmptyString => None
  | _ => Some s
  end.

(** A row of [df_corrections], with its [id_cols] (helpers.py, lines
    373-382) under the names [column_renames] gives them.  [T] is what the
    'Date' and 'Time' columns hold: cells as read, datetimes once
    [pd.to_datetime] has run. *)
Record Correction (T : Type) : Type := mk_Correction {
  cor_Timestamp : cell;
  cor_SubmittedBy : cell;
  cor_Grade : cell;
  cor_Session : cell;
  cor_Action : cell;
  cor_Date : T;
  cor_Time : T;
  cor_Notes : cell;
  cor_others : list cell
}.
Arguments mk_Correction {T}.
Arguments cor_Timestamp {T}.
Arguments cor_SubmittedBy {T}.
Arguments cor_Grade {T}.
Arguments cor_Session {T}.
Arguments cor_Action {T}.
Arguments cor_Date {T}.
Arguments cor_Time {T}.
Arguments cor_Notes {T}.
Arguments cor_others {T}.

(** The frame read from 'Form Responses 1': the headers of the columns
    outside [id_cols], and the rows. *)
Record CorrectionsFrame : Type := mk_CorrectionsFrame {
  frame_columns : list string;
  frame_rows : list (Correction cell)
}.

Definition read_correction (r : RawCorrection) : Correction cell :=
  mk_Correction (read_cell (raw_Timestamp r)) (read_cell (raw_EmailAddress r))
                (read_cell (raw_ChooseGrade r)) (read_cell (raw_Session r))
                (read_cell (raw_ActionChoice r)) (read_cell (raw_Date r))
                (read_cell (raw_Time r)) (read_cell (raw_AdditionalNotes r))
                (map read_cell (raw_others r)).

(** The frame pandas makes of the corrections sheet. *)
Definition corrections_frame (s : Store) : CorrectionsFrame :=
  mk_CorrectionsFrame (other_columns (sheet_corrections s))
                      (map read_correction (responses (sheet_corrections s))).

(** [conn.read(worksheet='Form Responses 1', ttl=0)] *)
Definition read_corrections : M CorrectionsFrame :=
  log_read form_responses ;;;
  fun s => (inr (corrections_frame s), s).

(** helpers.py, lines 347-353. *)
Definition column_renames : list (string * string) :=
  [ ("Choose Grade of Student", "Grade");
    ("Email Address", "SubmittedBy");
    ("Checkin, Checkout, or Remove?", "Action");
    ("StudentName", "FullName");
    ("Additional Notes", "Notes") ].

(** [df.rename(columns=column_renames)] on one header. *)
Definition rename (renames : list (string * string)) (col : string) : string :=
  match find (fun kv => String.eqb (fst kv) col) renames with
  | Some kv => snd kv
  | None => col
  end.

(** helpers.py, lines 373-382. *)
Definition id_cols : list string :=
  [ "Timestamp"; "SubmittedBy"; "Grade"; "Session";
    "Action"; "Date"; "Time"; "Notes" ].

(** Python's [sub in s] on strings. *)
Fixpoint contains (sub s : string) : bool :=
  String.prefix sub s
  || match s with
     | EmptyString => false
     | String _ rest => contains sub rest
     end.

(** helpers.py, lines 385-388: the columns to melt, each with its position
    among the frame's other columns. *)
Definition student_cols (columns : list string) : list (nat * string) :=
  filter (fun jc => contains "Choose Student (Grade" (snd jc))
         (combine (seq 0 (List.length columns)) columns).

(** A row of the melted frame: the [id_vars] of the row it comes from, the
    header of the melted column and the cell it held. *)
Record Melted : Type := mk_Melted {
  melted_ids : Correction (option datetime);
  melted_variable : string;
  melted_FullName : cell
}.

(** A row of the frame [get_corrections] returns, in its [final_colums]
    (helpers.py, lines 409-419); [T] is again what 'Date' and 'Time' hold. *)
Record CorrectionRecord (T : Type) : Type := mk_CorrectionRecord {
  rec_SubmittedBy : cell;
  rec_Timestamp : cell;
  rec_FullName : cell;
  rec_Date : T;
  rec_Session : cell;
  rec_Time : T;
  rec_Action : cell;
  rec_Grade : cell;
  rec_Notes : cell
}.
Arguments mk_CorrectionRecord {T}.
Arguments rec_SubmittedBy {T}.
Arguments rec_Timestamp {T}.
Arguments rec_FullName {T}.
Arguments rec_Date {T}.
Arguments rec_Session {T}.
Arguments rec_Time {T}.
Arguments rec_Action {T}.
Arguments rec_Grade {T}.
Arguments rec_Notes {T}.

(** [pd.melt(frame, id_vars=id_cols, value_vars=student_cols,
    value_name='FullName')]: one block of rows per melted column, each block
    in the order of the frame's rows.  pandas (2.0 and later) refuses a
    [value_name] that is already a column of the frame; earlier versions
    warn and melt all the same. *)
Definition melt (columns : list string)
    (df : list (Correction (option datetime))) : result (list Melted) :=
  if existsb (String.eqb "FullName") (id_cols ++ columns)%list
  then inl (ValueError
    "value_name (FullName) cannot match an element in the DataFrame columns.")
  else inr (flat_map
              (fun jc => map (fun r => mk_Melted r (snd jc)
                                         (nth (fst jc) (cor_others r) None))
                             df)
              (student_cols columns)).

(** [df[final_colums]] *)
Definition final_colums (m : Melted) : CorrectionRecord (option datetime) :=
  let r := melted_ids m in
  mk_CorrectionRecord (cor_SubmittedBy r) (cor_Timestamp r) (melted_FullName m)
                      (cor_Date r) (cor_Session r) (cor_Time r)
                      (cor_Action r) (cor_Grade r) (cor_Notes r).

(** Ascending order of a column with missing values: NaN and NaT last. *)
Definition option_compare {A : Type} (cmp : A -> A -> comparison)
    (a b : option A) : comparison :=
  match a, b with
  | Some x, Some y => cmp x y
  | Some _, None => Lt
  | None, Some _ => Gt
  | None, None => Eq
  end.

Definition datetime_compare (a b : datetime) : comparison :=
  nats_compare (datetime_fields a) (datetime_fields b).

Definition then_by (c later : comparison) : comparison :=
  match c with
  | Eq => later
  | _ => c
  end.

(** The order of [sort_values(by=['Date'; 'FullName'; 'Session'; 'Time'])]
    (helpers.py, lines 421-429). *)
Definition by_Date_FullName_Session_Time
    (a b : CorrectionRecord (option datetime)) : bool :=
  match then_by (option_compare datetime_compare (rec_Date a) (rec_Date b))
       (then_by (option_compare String.compare (rec_FullName a) (rec_FullName b))
       (then_by (option_compare String.compare (rec_Session a) (rec_Session b))
                (option_compare datetime_compare (rec_Time a) (rec_Time b))))
  with
  | Gt => false
  | _ => true
  end.

(** [strftime('%m/%d/%Y')] and [strftime('%H:%M')] *)
Definition strftime_mdY (d : datetime) : string :=
  two_digits (month d) (String "/" (two_digits (day d)
    (String "/" (four_digits (year d) "")))).

Definition strftime_HM (d : datetime) : string :=
  two_digits (hour d) (String ":" (two_digits (minute d) "")).

(** helpers.py, lines 431-438: the display form of a returned row. *)
Definition display (r : CorrectionRecord (option datetime))
    : CorrectionRecord cell :=
  mk_CorrectionRecord (rec_SubmittedBy r) (rec_Timestamp r) (rec_FullName r)
                      (option_map strftime_mdY (rec_Date r)) (rec_Session r)
                      (option_map strftime_HM (rec_Time r))
                      (rec_Action r) (rec_Grade r) (rec_Notes r).

(** The Timestamp pandas makes of [d.strftime('%Y-%m-%d')] when a datetime
    column is compared with that string: the day of [d] at midnight. *)
Definition midnight (d : datetime) : datetime :=
  mk_datetime (year d) (month d) (day d) 0 0 0 0.

(** *** Rows on their way to a log *)

(** The values a cell of [df_new_checkins] holds (checkin.py, lines
    282-292): text, [None], a [datetime.time] of whole seconds from the
    time input, or a float NaN. *)
Inductive value : Type :=
| PyNone
| PyNaN
| PyStr (s : string)
| PyTime (h m s : nat).

(** [str(value)] *)
Definition str (v : value) : string :=
  match v with
  | PyNone => "None"
  | PyNaN => "nan"
  | PyStr s => s
  | PyTime h m s => two_digits h (String ":" (two_digits m
                      (String ":" (two_digits s ""))))
  end.

(** helpers.py, lines 62-84, on [df.values.tolist()]. *)
Definition dataframe_to_list (data : list (list value)) : list (list string) :=
  map (fun row =>
         map (fun value => match value with
                           | PyNone => ""
                           | _ => str value
                           end) row)
      data.

Section Reconciler.

(** [pd.to_datetime] on one string of a column, [None] when pandas
    raises.  The reader belongs to pandas, so the development takes it as
    a parameter: every statement holds whatever formats it accepts. *)
Variable to_datetime : string -> option datetime.

(** The first string of a column that [pd.to_datetime] refuses. *)
Definition first_unparsed (col : list string) : option string :=
  find (fun s => negb (is_some (to_datetime s))) col.

(** helpers.py, lines 179-182, on one row:
    [pd.to_datetime(df['SubmitTime']).dt.hour < 9] (or [>= 9]). *)
Definition in_period (p : TimePeriod) (e : Event) : bool :=
  match to_datetime (SubmitTime e) with
  | Some t => period_mask p t
  | None => false
  end.

(** helpers.py, lines 173-194: what [get_students] does with the frame it
    read. *)
Definition get_students_df (df : list Event) (time_period : TimePeriod)
    (date : option string) : result (list Event) :=
  (* Filter only the date specified *)
  let df :=
    match date with
    | Some d => if truthy_str date
                then filter (fun e => String.eqb (SubmitDate e) d) df
                else df
    | None => df
    end in
  (* Filter by time period *)
  match first_unparsed (map SubmitTime df) with
  | Some s => inl (ParserError s)
  | None =>
      let df := filter (in_period time_period) df in
      (* Remove duplicate names (keeping the time first entered) *)
      let df := sort_values by_SubmitTime df in
      inr (drop_duplicates_first cells_eqb subset_FullName_SubmitDate df)
  end.

(** helpers.py, lines 150-194; [conn] and [worksheet] together name one of
    the two event logs. *)
Definition get_students (worksheet : EventLog) (time_period : TimePeriod)
    (date : option string) : M (list Event) :=
  df <- read_events worksheet ;;
  lift (get_students_df df time_period date).

(** helpers.py, lines 110-148. *)
Definition get_checked_in_students (date : string)
    (time_period : TimePeriod) : M (list Event) :=
  get_students checkins time_period (Some date).

Definition get_checked_out_students (date : string)
    (time_period : TimePeriod) : M (list Event) :=
  get_students checkouts time_period (Some date).

(** helpers.py, lines 231-290: what [get_attendance] does with the two
    frames it read. *)
Definition get_attendance_df (df_checkins df_checkouts : list Event)
    (students : option (list string)) (date_start date_end : datetime)
    (drop_duplicates : bool) : list AttendanceRow :=
  let df_checkins := map (fun e => (e, "checkin")) df_checkins in
  let df_checkouts := map (fun e => (e, "checkout")) df_checkouts in
  (* Combine data from checkins & checkouts *)
  let df := (df_checkins ++ df_checkouts)%list in
  (* Filter only the date specified (convert to string first) *)
  let df :=
    filter (fun r =>
              String.leb (strftime_Ymd date_start) (SubmitDate (fst r))
              && String.leb (SubmitDate (fst r)) (strftime_Ymd date_end))
           df in
  (* Filter only students (using all if not given) *)
  let df :=
    match students with
    | Some names => if truthy_list students
                    then filter (fun r => isin names (FullName (fst r))) df
                    else df
    | None => df
    end in
  let df :=
    sort_values (fun a b => cells_leb (by_name_date_time a)
                                      (by_name_date_time b)) df in
  let df := map order_of_columns df in
  if drop_duplicates
  then drop_duplicates_last cells_eqb subset_name_date_action df
  else df.

(** helpers.py, lines 196-290. *)
Definition get_attendance (students : option (list string))
    (date_start date_end : option datetime) (drop_duplicates : bool)
    : M (list AttendanceRow) :=
  (* Default dates available *)
  date_start <- match date_start with
                | None => today
                | Some d => ret d
                end ;;
  date_end <- match date_end with
              | None => lift (add_one_day date_start)
              | Some d => ret d
              end ;;
  (* Check that date_end is later than start *)
  if datetime_ltb date_end date_start then raise InvalidRange
  else
    df_checkins <- read_events checkins ;;
    df_checkouts <- read_events checkouts ;;
    ret (get_attendance_df df_checkins df_checkouts students
                           date_start date_end drop_duplicates).


(** *** Corrections *)

(** helpers.py, lines 359-364, on one cell: NaN is read as NaT. *)
Definition to_datetime_cell (c : cell) : option datetime :=
  match c with
  | Some s => to_datetime s
  | None => None
  end.

(** The first cell of a column that [pd.to_datetime] refuses. *)
Definition first_unparsed_cell (col : list cell) : option string :=
  first_unparsed (flat_map (fun c => match c with
                                     | Some s => [s]
                                     | None => []
                                     end) col).

Definition with_datetimes (r : Correction cell)
    : Correction (option datetime) :=
  mk_Correction (cor_Timestamp r) (cor_SubmittedBy r) (cor_Grade r)
                (cor_Session r) (cor_Action r)
                (to_datetime_cell (cor_Date r))
                (to_datetime_cell (cor_Time r))
                (cor_Notes r) (cor_others r).

(** helpers.py, lines 366-370: NaT compares false on both sides. *)
Definition in_date_range (date_start date_end : datetime)
    (r : Correction (option datetime)) : bool :=
  match cor_Date r with
  | Some d => datetime_leb (midnight date_start) d
              && datetime_leb d (midnight date_end)
  | None => false
  end.

(** helpers.py, lines 403-406 *)
Definition student_filter (students : option (list string))
    (m : Melted) : bool :=
  match students with
  | Some names =>
      if truthy_list students
      then match melted_FullName m with
           | Some n => isin names n
           | None => false
           end
      else true
  | None => true
  end.

(** helpers.py, lines 346-440: what [get_corrections] does with the frame
    it read. *)
Definition get_corrections_df (df_corrections : CorrectionsFrame)
    (students : option (list string)) (date_start date_end : datetime)
    : result (list (CorrectionRecord cell)) :=
  (* Rename Columns (defined from original source) *)
  let columns := map (rename column_renames) (frame_columns df_corrections) in
  let rows := frame_rows df_corrections in
  (* Convert to datetime (makes it possible to query against) *)
  match first_unparsed_cell (map cor_Date rows) with
  | Some s => inl (ParserError s)
  | None =>
  match first_unparsed_cell (map cor_Time rows) with
  | Some s => inl (ParserError s)
  | None =>
      let df_corrections := map with_datetimes rows in
      (* Filter only the date specified (convert to string first) *)
      let df_corrections_filtered :=
        filter (in_date_range date_start date_end) df_corrections in
      (* Melt/transform the DataFrame *)
      match melt columns df_corrections_filtered with
      | inl e => inl e
      | inr df_corrections_melted =>
          (* Remove rows where 'FullName' is empty (created by melt) *)
          let df_corrections_melted :=
            filter (fun m => is_some (melted_FullName m))
                   df_corrections_melted in
          (* Filter only students (using all if not given) *)
          let df_corrections_melted :=
            filter (student_filter students) df_corrections_melted in
          let df_corrections_final :=
            map final_colums df_corrections_melted in
          let df_corrections_final :=
            sort_values by_Date_FullName_Session_Time df_corrections_final in
          inr (map display df_corrections_final)
      end
  end
  end.

(** helpers.py, lines 312-440. *)
Definition get_corrections (students : option (list string))
    (date_start date_end : option datetime)
    : M (list (CorrectionRecord cell)) :=
  (* Default dates available *)
  date_start <- match date_start with
                | None => today
                | Some d => ret d
                end ;;
  date_end <- match date_end with
              | None => lift (add_one_day date_start)
              | Some d => ret d
              end ;;
  (* Check that date_end is later than start *)
  if datetime_ltb date_end date_start then raise InvalidRange
  else
    df_corrections <- read_corrections ;;
    lift (get_corrections_df df_corrections students date_start date_end).

End Reconciler.

(** ** A reader for the examples *)

(** The two formats the application itself writes, [strftime('%H:%M:%S')]
    (checkin.py, line 287) and [strftime('%Y-%m-%d')] (line 288).  This
    reader stands for [pd.to_datetime] wherever an example needs one; a
    time alone gets the date 1900-01-01, as [datetime.strptime] gives it. *)
Definition digit_value (c : ascii) : option nat :=
  let n := nat_of_ascii c in
  if (48 <=? n) && (n <=? 57) then Some (n - 48) else None.

Fixpoint read_digits (acc : nat) (s : string) : option nat :=
  match s with
  | EmptyString => Some acc
  | String c rest =>
      match digit_value c with
      | Some d => read_digits (10 * acc + d) rest
      | None => None
      end
  end.

Definition read_field (start len : nat) (s : string) : option nat :=
  read_digits 0 (String.substring start len s).

Definition separator_at (i : nat) (sep : ascii) (s : string) : bool :=
  match String.get i s with
  | Some c => Ascii.eqb c sep
  | None => false
  end.

Definition strptime_HMS (s : string) : option datetime :=
  if (String.length s =? 8) && separator_at 2 ":" s && separator_at 5 ":" s
  then match read_field 0 2 s, read_field 3 2 s, read_field 6 2 s with
       | Some h, Some m, Some sec =>
           if (h <? 24) && (m <? 60) && (sec <? 60)
           then Some (mk_datetime 1900 1 1 h m sec 0)
           else None
       | _, _, _ => None
       end
  else None.

Definition strptime_Ymd (s : string) : option datetime :=
  if (String.length s =? 10) && separator_at 4 "-" s && separator_at 7 "-" s
  then match read_field 0 4 s, read_field 5 2 s, read_field 8 2 s with
       | Some y, Some m, Some d =>
           if (1 <=? y) && (1 <=? m) && (m <=? 12)
              && (1 <=? d) && (d <=? days_in_month y m)
           then Some (mk_datetime y m d 0 0 0 0)
           else None
       | _, _, _ => None
       end
  else None.

Definition read_iso (s : string) : option datetime :=
  match strptime_HMS s with
  | Some t => Some t
  | None => strptime_Ymd s
  end.

(** ** Vocabulary of the statements *)

(** The same log with its OverrideTime column rewritten. *)
Definition with_OverrideTime (f : Event -> cell) (e : Event) : Event :=
  mk_Event (SubmitTime e) (SubmitDate e) (f e) (FullName e)
           (LastName e) (FirstName e) (Grade e).

(** The result and the final store of a run. *)
Definition outcome {A : Type} (m : M A) (s : Store) : result A := fst (m s).
Definition final_store {A : Type} (m : M A) (s : Store) : Store := snd (m s).

(** The rows [get_students] keeps at its date filter (helpers.py, lines
    174-175). *)
Definition rows_of_date (date : option string) (df : list Event) : list Event :=
  match date with
  | Some d => if truthy_str date
              then filter (fun e => String.eqb (SubmitDate e) d) df
              else df
  | None => df
  end.

(** The [by] columns of [get_attendance] on a returned row. *)
Definition att_by (r : AttendanceRow) : list string :=
  [att_LastName r; att_FirstName r; att_SubmitDate r; att_SubmitTime r].

(** What every [datetime.datetime] of Python satisfies: its constructor
    refuses any other value. *)
Definition python_datetime (d : datetime) : Prop :=
  1 <= year d <= 9999 /\ 1 <= month d <= 12
  /\ 1 <= day d <= days_in_month (year d) (month d)
  /\ hour d < 24 /\ minute d < 60 /\ second d < 60
  /\ microsecond d < 1000 * 1000.

(** The day number of a date, [date.toordinal()], written as Python's
    datetime module computes it ([_ymd2ord]): the days before the year, the
    days before the month from a table, one more after February of a leap
    year, and the day.  [d + timedelta(days=1)] is, by its definition, the
    datetime of the next day number with the time of day of [d]. *)
Definition days_before_year (y : nat) : nat :=
  let y := y - 1 in y * 365 + y / 4 - y / 100 + y / 400.

Definition days_before_month (y m : nat) : nat :=
  nth m [0; 0; 31; 59; 90; 120; 151; 181; 212; 243; 273; 304; 334] 0
  + (if (2 <? m) && is_leap y then 1 else 0).

Definition toordinal (d : datetime) : nat :=
  days_before_year (year d) + days_before_month (year d) (month d) + day d.

Definition same_time_of_day (a b : datetime) : Prop :=
  hour a = hour b /\ minute a = minute b /\ second a = second b
  /\ microsecond a = microsecond b.

(** 9999-12-31, the last day a [datetime] can hold. *)
Definition last_day (d : datetime) : Prop :=
  year d = 9999 /\ month d = 12 /\ day d = 31.

(** ** Sample data *)

Definition jane (submit_time : string) : Event :=
  mk_Event submit_time "2024-09-05" None "Jane Doe" "Doe" "Jane" "3".

(** Two check-ins of the same student on the same morning, the later one
    entered first in the log. *)
Definition two_checkins : list Event := [jane "08:45:00"; jane "08:10:00"].

Definition checkin_of (full_name : string) : Event :=
  mk_Event "08:10:00" "2024-09-05" None full_name "" full_name "3".

Definition no_corrections : CorrectionsSheet := mk_CorrectionsSheet [] [].

(** A store whose check-in log holds [two_checkins], read at 08:50 on
    2024-09-05. *)
Definition sample_store : Store :=
  mk_Store two_checkins [] no_corrections
           (mk_datetime 2024 9 5 8 50 0 0) [].

Definition sept (d : nat) : datetime := mk_datetime 2024 9 d 0 0 0 0.

(** *** What the specification asks of the corrections *)

(** The students a response selected: the non-empty cells of its
    "Choose Student (Grade N)" columns, in the order of the columns. *)
Definition selected_students {T : Type} (columns : list string)
    (r : Correction T) : list string :=
  flat_map (fun jc => match nth (fst jc) (cor_others r) None with
                      | Some n => [n]
                      | None => []
                      end)
           (student_cols columns).

(** The [students] argument as a test on a name: everyone when it is
    omitted or empty. *)
Definition student_wanted (students : option (list string)) (n : string)
    : bool :=
  match students with
  | Some names => if truthy_list students then isin names n else true
  | None => true
  end.

(** One record for each selected (and wanted) student of a response, with
    the shared columns of the response. *)
Definition records_of_response (columns : list string)
    (students : option (list string)) (r : Correction (option datetime))
    : list (CorrectionRecord (option datetime)) :=
  map (fun n => mk_CorrectionRecord (cor_SubmittedBy r) (cor_Timestamp r)
                  (Some n) (cor_Date r) (cor_Session r) (cor_Time r)
                  (cor_Action r) (cor_Grade r) (cor_Notes r))
      (filter (student_wanted students) (selected_students columns r)).

(** A response of 2024-09-05 that selects Jane Doe in the Grade 3 column
    and leaves the Grade 4 column empty. *)
Definition jane_correction : RawCorrection :=
  mk_RawCorrection "9/5/2024 9:12:44" "teacher@example.org" "3" "checkin" ""
                   "2024-09-05" "08:30:00" "Morning" ["Jane Doe"; ""].

Definition sample_corrections : CorrectionsSheet :=
  mk_CorrectionsSheet ["Choose Student (Grade 3)"; "Choose Student (Grade 4)"]
                      [jane_correction].

Definition corrections_store : Store :=
  mk_Store [] [] sample_corrections (mk_datetime 2024 9 5 8 50 0 0) [].

(** A store whose three logs hold no row. *)
Definition empty_store (columns : list string) (now : datetime) : Store :=
  mk_Store [] [] (mk_CorrectionsSheet columns []) now [].

(** What [dataframe_to_list] must make of a cell. *)
Definition cleaned (v : value) (s : string) : Prop :=
  (v = PyNone /\ s = EmptyString) \/ (v <> PyNone /\ s = str v).

(** The cells of a row of [df_new_checkins] in its column order
    (checkin.py, lines 282-318); [override] is [None] or the time chosen. *)
Definition new_checkin_row (submit_time submit_date : string)
    (override : value) (full_name last_name first_name grade : string)
    : list value :=
  [PyStr submit_time; PyStr submit_date; override; PyStr full_name;
   PyStr last_name; PyStr first_name; PyStr grade].

(** The order of the two characters [two_digits] writes. *)
Definition two_digits_compare (a b : nat) : comparison :=
  match Ascii.compare (digit (a / 10)) (digit (b / 10)) with
  | Eq => Ascii.compare (digit a) (digit b)
  | c => c
  end.

(** ** More of helpers.py and checkin.py *)

(** The exceptions of lookups, of integer arithmetic and of names that
    are not bound. *)
Inductive runtime_error : Type :=
| IndexError (msg : string)
| KeyError (key : string)
| ZeroDivisionError (msg : string)
| NameError (name : string).

(** *** The roster and [format_student_name] *)

(** A row of the roster worksheet; Grade is the text [str] gives of it. *)
Record Student : Type := mk_Student {
  st_FullName : string;
  st_FirstName : string;
  st_LastName : string;
  st_Grade : string
}.

(** [names[names['FullName'] == full_name]] *)
Definition roster_rows (names : list Student) (full_name : string)
    : list Student :=
  filter (fun st => String.eqb (st_FullName st) full_name) names.

(** helpers.py, lines 292-310: [.values[0]] raises IndexError on a frame
    without rows. *)
Definition format_student_name (full_name : string) (names : list Student)
    : runtime_error + string :=
  match roster_rows names full_name with
  | [] => inl (IndexError "index 0 is out of bounds for axis 0 with size 0")
  | value :: _ => inr (st_FullName value ++ " (" ++ st_Grade value ++ ")")
  end.

(** *** checkin.py: the three columns of a group of names *)

(** checkin.py, lines 101 and 159. *)
Definition n_cols : Z := 3.

(** checkin.py, lines 106 and 164:
    [names_per_col = (n_names_in_group + n_cols - 1) // n_cols] *)
Definition names_per_col (n_names_in_group : nat) : Z :=
  ((Z.of_nat n_names_in_group + n_cols - 1) / n_cols)%Z.

(** checkin.py, lines 107-112 and 165-170: the loop over
    [enumerate(filtered_names['FullName'])], from [index] on, with the
    [col_index] reached so far; each name comes out with the position in
    [cols] of the column [cols[col_index]] it is drawn in.  [%] raises on a
    zero divisor, and [cols[col_index]] outside [-n_cols, n_cols). *)
Fixpoint place_names (per_col index col_index : Z) (names : list string)
    : runtime_error + list (Z * string) :=
  match names with
  | [] => inr []
  | name :: rest =>
      if (per_col =? 0)%Z
      then inl (ZeroDivisionError "integer modulo by zero")
      else
        let col_index :=
          if (index mod per_col =? 0)%Z then (col_index + 1)%Z
          else col_index in
        if ((col_index <? - n_cols) || (n_cols <=? col_index))%Z
        then inl (IndexError "list index out of range")
        else
          let col := if (col_index <? 0)%Z then (col_index + n_cols)%Z
                     else col_index in
          match place_names per_col (index + 1)%Z col_index rest with
          | inl e => inl e
          | inr placed => inr ((col, name) :: placed)
          end
  end.

Definition columns_of_group (filtered_names : list string)
    : runtime_error + list (Z * string) :=
  place_names (names_per_col (List.length filtered_names)) 0%Z (-1)%Z
              filtered_names.

(** checkin.py, lines 222-229: the minute the override time input starts
    from, [(now.minute // time_inc_minute) * time_inc_minute]. *)
Definition time_inc_minute : nat := 10.

Definition override_minute (now : datetime) : nat :=
  (minute now / time_inc_minute) * time_inc_minute.

(** *** The check boxes in [st.session_state] *)

(** The entries of [st.session_state] that hold the value of a check box,
    in the order of their insertion. *)
Definition session_state : Type := list (string * bool).

(** [st.session_state.get(key)] *)
Fixpoint dict_get (st : session_state) (key : string) : option bool :=
  match st with
  | [] => None
  | (k, v) :: rest => if String.eqb k key then Some v else dict_get rest key
  end.

(** [st.session_state[key] = value]: the entry is replaced where it is, or
    added at the end. *)
Fixpoint dict_set (st : session_state) (key : string) (v : bool)
    : session_state :=
  match st with
  | [] => [(key, v)]
  | (k, v') :: rest =>
      if String.eqb k key then (k, v) :: rest
      else (k, v') :: dict_set rest key v
  end.

Fixpoint drop_chars (n : nat) (s : string) : string :=
  match n, s with
  | S n', String _ rest => drop_chars n' rest
  | _, _ => s
  end.

(** The text before and the text after the first occurrence of [sep]. *)
Fixpoint split_at_first (sep s : string) : option (string * string) :=
  if String.prefix sep s
  then Some (EmptyString, drop_chars (String.length sep) s)
  else match s with
       | EmptyString => None
       | String c rest =>
           match split_at_first sep rest with
           | Some (before, after) => Some (String c before, after)
           | None => None
           end
       end.

(** [s.split(sep, maxsplit=1)] *)
Definition split_once (sep s : string) : list string :=
  match split_at_first sep s with
  | Some (before, after) => [before; after]
  | None => [s]
  end.

(** [s.replace(old, new, 1)] *)
Definition replace_first (old new s : string) : string :=
  match split_at_first old s with
  | Some (before, after) => before ++ new ++ after
  | None => s
  end.

(** helpers.py, lines 442-471, up to [st.rerun()], which ends the run of
    the script on every path that reaches it. *)
Definition sync_main_state (main_key widget_key : string)
    (st : session_state) : runtime_error + session_state :=
  match dict_get st widget_key with
  | None => inl (KeyError widget_key)
  | Some new_value =>
      let st := dict_set st main_key new_value in
      if String.prefix "status-" main_key
      then
        let name := replace_first "status-" "" main_key in
        let grades_key := "check_by_grades_" ++ name in
        let lastname_key := "check_by_lastname_" ++ name in
        let st := dict_set st grades_key new_value in
        inr (dict_set st lastname_key new_value)
      else inr st
  end.

(** checkin.py, lines 237-241: the names of the checked students. *)
Fixpoint full_names (st : session_state) : runtime_error + list string :=
  match st with
  | [] => inr []
  | (state, checked) :: rest =>
      if String.prefix "status-" state && checked
      then match nth_error (split_once "-" state) 1 with
           | None => inl (IndexError "list index out of range")
           | Some name =>
               match full_names rest with
               | inl e => inl e
               | inr names => inr (name :: names)
               end
           end
      else full_names rest
  end.

(** checkin.py, lines 263-267: on a submission the status of every
    submitted name is set back to [False]. *)
Definition reset_submitted (names : list string) (st : session_state)
    : session_state :=
  fold_left (fun st name =>
               match dict_get st ("status-" ++ name) with
               | Some _ => dict_set st ("status-" ++ name) false
               | None => st
               end)
            names st.

(** *** Appending to a log, and the submission of checkin.py *)

(** A row of text cells of the 'checkins' or 'checkouts' sheet, read back
    as a row of the frame: the cells by position, in the columns of
    checkin.py, lines 309-317; a cell that is not there is empty, and an
    empty OverrideTime is NaN. *)
Definition event_of_row (row : list string) : Event :=
  mk_Event (nth 0 row EmptyString) (nth 1 row EmptyString)
           (read_cell (nth 2 row EmptyString)) (nth 3 row EmptyString)
           (nth 4 row EmptyString) (nth 5 row EmptyString)
           (nth 6 row EmptyString).

(** helpers.py, lines 86-108: [sh.append_rows(values=data)] on one of the
    two event logs. *)
Definition append_data_to_sheet (data : list (list string))
    (worksheet : EventLog) : M unit :=
  fun s =>
    (inr tt,
     match worksheet with
     | checkins =>
         mk_Store (sheet_checkins s ++ map event_of_row data)%list
                  (sheet_checkouts s) (sheet_corrections s) (clock s)
                  (reads s)
     | checkouts =>
         mk_Store (sheet_checkins s)
                  (sheet_checkouts s ++ map event_of_row data)%list
                  (sheet_corrections s) (clock s) (reads s)
     end).

(** checkin.py, lines 282-292: the [student_data] of one checked student. *)
Record student_data : Type := mk_student_data {
  sd_FullName : string;
  sd_FirstName : string;
  sd_LastName : string;
  sd_Grade : string;
  sd_SubmitTime : string;
  sd_SubmitDate : string;
  sd_OverrideTime : value
}.

(** checkin.py, lines 275-292: [all_names] maps the names that can be
    checked in to whether their box is checked; [info[...].values[0]] raises
    IndexError for a name the roster does not hold. *)
Fixpoint new_checkins_data (all_names : list (string * bool))
    (names : list Student) (submit_time current_time : datetime)
    (is_override : bool) (override_checkin_time : value)
    : runtime_error + list student_data :=
  match all_names with
  | [] => inr []
  | (full_name, checkedin) :: rest =>
      if negb checkedin
      then new_checkins_data rest names submit_time current_time
                             is_override override_checkin_time
      else
        match roster_rows names full_name with
        | [] =>
            inl (IndexError "index 0 is out of bounds for axis 0 with size 0")
        | info :: _ =>
            match new_checkins_data rest names submit_time current_time
                                    is_override override_checkin_time with
            | inl e => inl e
            | inr data =>
                inr (mk_student_data full_name (st_FirstName info)
                       (st_LastName info) (st_Grade info)
                       (strftime_HMS submit_time) (strftime_Ymd current_time)
                       (if negb is_override then PyNone
                        else override_checkin_time)
                     :: data)
            end
        end
  end.

(** [df.sort_values(by=..., ascending=False)]: pandas reverses the frame,
    sorts it ascending and reverses the result. *)
Definition sort_values_descending {A : Type} (leb : A -> A -> bool)
    (l : list A) : list A :=
  rev (sort_values leb (rev l)).

(** checkin.py, lines 296-318: the frame of the new check-ins, sorted and
    in the order of columns of the log, as [df.values.tolist()] gives it. *)
Definition df_new_checkins (data : list student_data) : list (list value) :=
  map (fun d => new_checkin_row (sd_SubmitTime d) (sd_SubmitDate d)
                  (sd_OverrideTime d) (sd_FullName d) (sd_LastName d)
                  (sd_FirstName d) (sd_Grade d))
      (sort_values_descending
         (fun a b => String.leb (sd_SubmitTime a) (sd_SubmitTime b)) data).

(** checkin.py, lines 262-348, for what the submission does to the log: the
    rows are appended when there are any, and [df_new_checkins], which is
    bound only then, is read at line 344 on every path; a run that gets
    that far ends in [st.rerun()]. *)
Definition submit_checkins (all_names : list (string * bool))
    (names : list Student) (submit_time current_time : datetime)
    (is_override : bool) (override_checkin_time : value)
    (s : Store) : (runtime_error + unit) * Store :=
  match new_checkins_data all_names names submit_time current_time
                          is_override override_checkin_time with
  | inl e => (inl e, s)
  | inr [] => (inl (NameError "df_new_checkins"), s)
  | inr data =>
      (inr tt,
       snd (append_data_to_sheet (dataframe_to_list (df_new_checkins data))
                                 checkins s))
  end.

(** checkin.py, line 64:
    [n_current_students = len(df_already_checkedin) - len(df_already_checkedout)] *)
Definition n_current_students (df_already_checkedin df_already_checkedout
    : list Event) : Z :=
  (Z.of_nat (List.length df_already_checkedin)
   - Z.of_nat (List.length df_already_checkedout))%Z.

(** The cell an OverrideTime is read back as, once [dataframe_to_list] has
    written it: NaN for [None]. *)
Definition override_cell (v : value) : cell :=
  match v with
  | PyNone => None
  | _ => read_cell (str v)
  end.

(** The row of the log a [student_data] comes back as. *)
Definition event_of_data (d : student_data) : Event :=
  mk_Event (sd_SubmitTime d) (sd_SubmitDate d)
           (override_cell (sd_OverrideTime d)) (sd_FullName d)
           (sd_LastName d) (sd_FirstName d) (sd_Grade d).

(** *** checkin.py: the frames cached in the session state *)

(** The entries of [st.session_state] the check-in page keeps between runs
    (checkin.py, lines 25-58): 'time_period', 'last_date', and the frames
    under 'checkedin_df_<period>' and 'checkedout_df_<period>', one entry
    per period, absent until first stored. *)
Record PageCache : Type := mk_PageCache {
  ss_time_period : option TimePeriod;
  ss_last_date : option string;
  ss_checkedin_df : TimePeriod -> option (list Event);
  ss_checkedout_df : TimePeriod -> option (list Event)
}.

(** [st.session_state[f'..._df_{period}'] = df] *)
Definition store_frame (frames : TimePeriod -> option (list Event))
    (period : TimePeriod) (df : list Event)
    : TimePeriod -> option (list Event) :=
  fun p => if TimePeriod_eqb p period then Some df else frames p.

Definition option_string_eqb (a : option string) (b : string) : bool :=
  match a with
  | Some x => String.eqb x b
  | None => false
  end.

(** checkin.py, lines 50-58: the check-out frame, from the session state
    unless the cache is refreshed or has no entry for the period. *)
Definition load_checkouts (to_datetime : string -> option datetime)
    (refresh_cache : bool) (date : string) (period : TimePeriod)
    (df_already_checkedin : list Event) (ss : PageCache) (s : Store)
    : result (list Event * list Event) * PageCache * Store :=
  match (if refresh_cache then None else ss_checkedout_df ss period) with
  | Some df_already_checkedout =>
      (inr (df_already_checkedin, df_already_checkedout), ss, s)
  | None =>
      match get_checked_out_students to_datetime date period s with
      | (inl e, s') => (inl e, ss, s')
      | (inr df_already_checkedout, s') =>
          (inr (df_already_checkedin, df_already_checkedout),
           mk_PageCache (ss_time_period ss) (ss_last_date ss)
             (ss_checkedin_df ss)
             (store_frame (ss_checkedout_df ss) period
                          df_already_checkedout),
           s')
      end
  end.

(** checkin.py, lines 9-58: one run of the top of the page over the session
    state [ss] and the store; it gives the two frames the page goes on
    with, or the exception of a read, and the session state and store it
    leaves. *)
Definition load_checkin_page (to_datetime : string -> option datetime)
    (ss : PageCache) (s : Store)
    : result (list Event * list Event) * PageCache * Store :=
  let current_time := clock s in
  let period := time_period current_time in
  let date := strftime_Ymd current_time in
  (* New time period *)
  let ss := mk_PageCache (Some period) (ss_last_date ss)
                         (ss_checkedin_df ss) (ss_checkedout_df ss) in
  (* If new date, refresh cache *)
  let refresh_cache := negb (option_string_eqb (ss_last_date ss) date) in
  let ss := if refresh_cache
            then mk_PageCache (ss_time_period ss) (Some date)
                              (ss_checkedin_df ss) (ss_checkedout_df ss)
            else ss in
  (* Checkin data *)
  match (if refresh_cache then None else ss_checkedin_df ss period) with
  | Some df_already_checkedin =>
      load_checkouts to_datetime refresh_cache date period
                     df_already_checkedin ss s
  | None =>
      match get_checked_in_students to_datetime date period s with
      | (inl e, s') => (inl e, ss, s')
      | (inr df_already_checkedin, s') =>
          load_checkouts to_datetime refresh_cache date period
            df_already_checkedin
            (mk_PageCache (ss_time_period ss) (ss_last_date ss)
               (store_frame (ss_checkedin_df ss) period
                            df_already_checkedin)
               (ss_checkedout_df ss))
            s'
      end
  end.

(** checkin.py, lines 262-334, with the cache: when rows were appended the
    cached check-in frame of the period becomes
    [pd.concat([df_already_checkedin, df_new_checkins])]. *)
Definition submit_page (all_names : list (string * bool))
    (names : list Student) (submit_time current_time : datetime)
    (is_override : bool) (override_checkin_time : value)
    (period : TimePeriod) (df_already_checkedin : list Event)
    (ss : PageCache) (s : Store)
    : (runtime_error + unit) * PageCache * Store :=
  match new_checkins_data all_names names submit_time current_time
                          is_override override_checkin_time with
  | inl e => (inl e, ss, s)
  | inr [] => (inl (NameError "df_new_checkins"), ss, s)
  | inr data =>
      let new_rows :=
        map event_of_data
            (sort_values_descending
               (fun a b => String.leb (sd_SubmitTime a) (sd_SubmitTime b))
               data) in
      (inr tt,
       mk_PageCache (ss_time_period ss) (ss_last_date ss)
         (store_frame (ss_checkedin_df ss) period
                      (df_already_checkedin ++ new_rows)%list)
         (ss_checkedout_df ss),
       snd (append_data_to_sheet (dataframe_to_list (df_new_checkins data))
                                 checkins s))
  end.

(** *** The sort of a single column *)

(** [df.sort_values(by=['SubmitTime'])] (helpers.py, line 185) sorts by one
    column, and pandas then orders the rows by numpy's [argsort] of that
    column with the default kind, quicksort, and takes the rows in that
    order.  What this promises is an ascending permutation of the rows; it
    promises nothing on the order of rows with equal keys.  The definitions
    below leave the sort open, and then write numpy's own quicksort out. *)

(** [get_students]' transformation (helpers.py, lines 173-194) with the
    sort of line 185 as a parameter; [get_students_df] is the instance
    whose sort keeps rows with equal SubmitTime in their order. *)
Definition get_students_df_by (sort : list Event -> list Event)
    (to_datetime : string -> option datetime) (df : list Event)
    (time_period : TimePeriod) (date : option string)
    : result (list Event) :=
  (* Filter only the date specified *)
  let df :=
    match date with
    | Some d => if truthy_str date
                then filter (fun e => String.eqb (SubmitDate e) d) df
                else df
    | None => df
    end in
  (* Filter by time period *)
  match first_unparsed to_datetime (map SubmitTime df) with
  | Some s => inl (ParserError s)
  | None =>
      let df := filter (in_period to_datetime time_period) df in
      (* Remove duplicate names (keeping the time first entered) *)
      let df := sort df in
      inr (drop_duplicates_first cells_eqb subset_FullName_SubmitDate df)
  end.

(** What [sort_values(by=['SubmitTime'])] promises of its result. *)
Definition ascending_by_SubmitTime (sort : list Event -> list Event) : Prop :=
  forall df,
    Permutation (sort df) df
    /\ StronglySorted (fun a b => by_SubmitTime a b = true) (sort df).

(** numpy's argsort works on an array of row numbers, [tosort]: [entry]
    reads a slot of it, [store] writes one, [INTP_SWAP] exchanges two. *)
Definition entry (tosort : list nat) (p : nat) : nat := nth p tosort 0.

Fixpoint store (tosort : list nat) (p x : nat) : list nat :=
  match tosort, p with
  | [], _ => []
  | _ :: r, 0 => x :: r
  | y :: r, S p' => y :: store r p' x
  end.

Definition INTP_SWAP (tosort : list nat) (p q : nat) : list nat :=
  store (store tosort p (entry tosort q)) q (entry tosort p).

(** A partition of more than [SMALL_QUICKSORT + 1] slots is split; a
    smaller one is sorted by insertion. *)
Definition SMALL_QUICKSORT : nat := 16.

Section Quicksort.
(** The column being sorted: [key_of i] is the key of row [i]. *)
Variable v : list string.

Definition key_of (i : nat) : string := nth i v EmptyString.

Definition less (x y : string) : bool :=
  match String.compare x y with
  | Lt => true
  | _ => false
  end.

(** The median of the first, middle and last slots goes to the middle. *)
Definition median_of_three (a : list nat) (pl pm pr : nat) : list nat :=
  let a := if less (key_of (entry a pm)) (key_of (entry a pl))
           then INTP_SWAP a pm pl else a in
  let a := if less (key_of (entry a pr)) (key_of (entry a pm))
           then INTP_SWAP a pr pm else a in
  if less (key_of (entry a pm)) (key_of (entry a pl))
  then INTP_SWAP a pm pl else a.

(** [do ++pi; while (less(v[*pi], vp))] and
    [do --pj; while (less(vp, v[*pj]))]. *)
Fixpoint scan_up (fuel : nat) (a : list nat) (vp : string) (pi : nat) : nat :=
  match fuel with
  | 0 => pi
  | S fuel =>
      let pi := S pi in
      if less (key_of (entry a pi)) vp then scan_up fuel a vp pi else pi
  end.

Fixpoint scan_down (fuel : nat) (a : list nat) (vp : string) (pj : nat)
    : nat :=
  match fuel with
  | 0 => pj
  | S fuel =>
      let pj := pj - 1 in
      if less vp (key_of (entry a pj)) then scan_down fuel a vp pj else pj
  end.

(** The exchanges of a partition: the two scans stop on keys equal to the
    pivot, so equal keys are exchanged too. *)
Fixpoint exchange (fuel : nat) (a : list nat) (vp : string) (pi pj : nat)
    : list nat * nat :=
  match fuel with
  | 0 => (a, pi)
  | S fuel =>
      let pi := scan_up (List.length a) a vp pi in
      let pj := scan_down (List.length a) a vp pj in
      if pj <=? pi then (a, pi)
      else exchange fuel (INTP_SWAP a pi pj) vp pi pj
  end.

(** One partition of the slots [pl .. pr]; the pivot ends in slot [pi]. *)
Definition partition (a : list nat) (pl pr : nat) : list nat * nat :=
  let pm := pl + (pr - pl) / 2 in
  let a := median_of_three a pl pm pr in
  let vp := key_of (entry a pm) in
  let pj := pr - 1 in
  let a := INTP_SWAP a pm pj in
  let (a, pi) := exchange (List.length a) a vp pl pj in
  (INTP_SWAP a pi (pr - 1), pi).

(** A partition waiting on the stack, with the depth left for it. *)
Definition pending : Type := (nat * nat * Z)%type.

(** [while ((pr - pl) > SMALL_QUICKSORT)]: split, push the larger part,
    go on with the smaller. *)
Fixpoint partitions (fuel : nat) (a : list nat) (pl pr : nat) (cdepth : Z)
    (stack : list pending) : list nat * nat * nat * list pending :=
  match fuel with
  | 0 => (a, pl, pr, stack)
  | S fuel =>
      if SMALL_QUICKSORT <? pr - pl then
        let (a, pi) := partition a pl pr in
        let cdepth := (cdepth - 1)%Z in
        if pi - pl <? pr - pi
        then partitions fuel a pl (pi - 1) cdepth
                        ((pi + 1, pr, cdepth) :: stack)
        else partitions fuel a (pi + 1) pr cdepth
                        ((pl, pi - 1, cdepth) :: stack)
      else (a, pl, pr, stack)
  end.

(** The insertion sort of the slots [pl .. pr]. *)
Fixpoint shift (fuel : nat) (a : list nat) (pl pj vi : nat) : list nat :=
  match fuel with
  | 0 => store a pj vi
  | S fuel =>
      if (pl <? pj) && less (key_of vi) (key_of (entry a (pj - 1)))
      then shift fuel (store a pj (entry a (pj - 1))) pl (pj - 1) vi
      else store a pj vi
  end.

Fixpoint insertions (count : nat) (a : list nat) (pl pi : nat) : list nat :=
  match count with
  | 0 => a
  | S count =>
      insertions count (shift (List.length a) a pl pi (entry a pi)) pl (S pi)
  end.

Definition insertion_sort (a : list nat) (pl pr : nat) : list nat :=
  insertions (pr - pl) a pl (S pl).

(** The heapsort numpy falls back on once the depth is used up, on the [n]
    slots from [pl]; its heap is indexed from 1. *)
Fixpoint sift (fuel : nat) (a : list nat) (pl n tmp i j : nat) : list nat :=
  match fuel with
  | 0 => store a (pl + i - 1) tmp
  | S fuel =>
      if j <=? n then
        let j := if (j <? n)
                    && less (key_of (entry a (pl + j - 1)))
                            (key_of (entry a (pl + j)))
                 then S j else j in
        if less (key_of tmp) (key_of (entry a (pl + j - 1)))
        then sift fuel (store a (pl + i - 1) (entry a (pl + j - 1)))
                  pl n tmp j (j + j)
        else store a (pl + i - 1) tmp
      else store a (pl + i - 1) tmp
  end.

Fixpoint heapify (l : nat) (a : list nat) (pl n : nat) : list nat :=
  match l with
  | 0 => a
  | S l' =>
      heapify l' (sift n a pl n (entry a (pl + l - 1)) l (l + l)) pl n
  end.

Fixpoint sort_down (n : nat) (a : list nat) (pl : nat) : list nat :=
  match n with
  | 0 => a
  | S n' =>
      match n' with
      | 0 => a
      | _ =>
          let tmp := entry a (pl + n - 1) in
          let a := store a (pl + n - 1) (entry a pl) in
          sort_down n' (sift n' a pl n' tmp 1 2) pl
      end
  end.

Definition aheapsort (a : list nat) (pl n : nat) : list nat :=
  sort_down n (heapify (n / 2) a pl n) pl.

(** The loop of the quicksort: a partition is heap-sorted when its depth is
    used up, otherwise split down to a small one that is sorted by
    insertion; then the next partition is taken from the stack. *)
Fixpoint aquicksort_from (fuel : nat) (a : list nat) (pl pr : nat)
    (cdepth : Z) (stack : list pending) : list nat :=
  match fuel with
  | 0 => a
  | S fuel =>
      let '(a, stack) :=
        if (cdepth <? 0)%Z then (aheapsort a pl (pr + 1 - pl), stack)
        else
          let '(a, pl, pr, stack) :=
            partitions (List.length a) a pl pr cdepth stack in
          (insertion_sort a pl pr, stack) in
      match stack with
      | [] => a
      | (pl, pr, cdepth) :: stack => aquicksort_from fuel a pl pr cdepth stack
      end
  end.

(** [v.argsort(kind='quicksort')]: the row numbers in ascending order of
    their keys; the depth allowed is twice the position of the highest bit
    of the length. *)
Definition npy_aquicksort : list nat :=
  let num := List.length v in
  match num with
  | 0 => []
  | _ => aquicksort_from (S num) (seq 0 num) 0 (num - 1)
           (2 * Z.of_nat (Nat.log2 num)) []
  end.
End Quicksort.

(** [df.take(indexer)] *)
Definition take {A : Type} (df : list A) (indexer : list nat) : list A :=
  flat_map (fun i => match nth_error df i with
                     | Some row => [row]
                     | None => []
                     end)
           indexer.

(** [df.sort_values(by=['SubmitTime'])] as pandas and numpy carry it out. *)
Definition quicksort_by_SubmitTime (df : list Event) : list Event :=
  take df (npy_aquicksort (map SubmitTime df)).

(** *** The datetime columns of the corrections, read as columns *)

(** [pd.to_datetime] is given a whole column (helpers.py, lines 359-364),
    and pandas reads it as a whole: from 2.0 on, the format it finds in the
    first value is the format of every value.  So the reader is taken here
    as a function of the column, which gives a column of datetimes (NaT for
    a missing value) or raises; [get_corrections_df] is the instance that
    reads each cell by itself. *)
Fixpoint set_Date_Time (rows : list (Correction cell))
    (dates times : list (option datetime))
    : list (Correction (option datetime)) :=
  match rows with
  | [] => []
  | r :: rows' =>
      mk_Correction (cor_Timestamp r) (cor_SubmittedBy r) (cor_Grade r)
                    (cor_Session r) (cor_Action r)
                    (hd None dates) (hd None times)
                    (cor_Notes r) (cor_others r)
      :: set_Date_Time rows' (tl dates) (tl times)
  end.

(** helpers.py, lines 346-440, over a reader of columns. *)
Definition get_corrections_df_by
    (to_datetime : list cell -> result (list (option datetime)))
    (df_corrections : CorrectionsFrame)
    (students : option (list string)) (date_start date_end : datetime)
    : result (list (CorrectionRecord cell)) :=
  (* Rename Columns (defined from original source) *)
  let columns := map (rename column_renames) (frame_columns df_corrections) in
  let rows := frame_rows df_corrections in
  (* Convert to datetime (makes it possible to query against) *)
  match to_datetime (map cor_Date rows) with
  | inl e => inl e
  | inr dates =>
  match to_datetime (map cor_Time rows) with
  | inl e => inl e
  | inr times =>
      let df_corrections := set_Date_Time rows dates times in
      (* Filter only the date specified (convert to string first) *)
      let df_corrections_filtered :=
        filter (in_date_range date_start date_end) df_corrections in
      (* Melt/transform the DataFrame *)
      match melt columns df_corrections_filtered with
      | inl e => inl e
      | inr df_corrections_melted =>
          (* Remove rows where 'FullName' is empty (created by melt) *)
          let df_corrections_melted :=
            filter (fun m => is_some (melted_FullName m))
                   df_corrections_melted in
          (* Filter only students (using all if not given) *)
          let df_corrections_melted :=
            filter (student_filter students) df_corrections_melted in
          let df_corrections_final :=
            map final_colums df_corrections_melted in
          let df_corrections_final :=
            sort_values by_Date_FullName_Session_Time df_corrections_final in
          inr (map display df_corrections_final)
      end
  end
  end.

(** The reader of columns that reads each cell by itself. *)
Definition cell_by_cell (to_datetime : string -> option datetime)
    (col : list cell) : result (list (option datetime)) :=
  match first_unparsed_cell to_datetime col with
  | Some s => inl (ParserError s)
  | None => inr (map (to_datetime_cell to_datetime) col)
  end.

(** *** What the specification asks of a response, on the sheet itself *)

(** A header of the sheet names a column of chosen students when it
    mentions "Choose Student (Grade". *)
Definition is_selector (header : string) : bool :=
  match String.index 0 "Choose Student (Grade" header with
  | Some _ => true
  | None => false
  end.

(** The students a response chose: the non-empty cells it has under the
    selector headers, in the order of the sheet's columns. *)
Definition chosen_students (headers : list string) (r : RawCorrection)
    : list string :=
  flat_map (fun j => if is_selector (nth j headers EmptyString)
                     then match nth j (raw_others r) EmptyString with
                          | EmptyString => []
                          | name => [name]
                          end
                     else [])
           (seq 0 (List.length headers)).

(** The record of one chosen student of a response, as it is shown: the
    cells of the response, its Date as MM/DD/YYYY and its Time as HH:MM. *)
Definition shown_record (r : RawCorrection) (date time : option datetime)
    (name : string) : CorrectionRecord cell :=
  mk_CorrectionRecord (read_cell (raw_EmailAddress r))
                      (read_cell (raw_Timestamp r)) (Some name)
                      (option_map strftime_mdY date)
                      (read_cell (raw_Session r))
                      (option_map strftime_HM time)
                      (read_cell (raw_ActionChoice r))
                      (read_cell (raw_ChooseGrade r))
                      (read_cell (raw_AdditionalNotes r)).

(** The day of a datetime lies in the range asked for: from midnight of
    [date_start] to midnight of [date_end]; a missing date lies in no
    range. *)
Definition date_in_range (date_start date_end : datetime)
    (date : option datetime) : bool :=
  match date with
  | Some d => datetime_leb (midnight date_start) d
              && datetime_leb d (midnight date_end)
  | None => false
  end.

(** The records asked of one response, with the date and the time read
    from it. *)
Definition expected_records (headers : list string)
    (students : option (list string)) (date_start date_end : datetime)
    (row : RawCorrection * option datetime * option datetime)
    : list (CorrectionRecord cell) :=
  let '(r, date, time) := row in
  if date_in_range date_start date_end date
  then map (shown_record r date time)
           (filter (student_wanted students) (chosen_students headers r))
  else [].

(** The day a shown Date, MM/DD/YYYY, stands for. *)
Definition shown_day (text : string) : option (list nat) :=
  match read_field 6 4 text, read_field 0 2 text, read_field 3 2 text with
  | Some y, Some m, Some d => Some [y; m; d]
  | _, _, _ => None
  end.

(** The day shown by a returned row. *)
Definition record_day (r : CorrectionRecord cell) : option (list nat) :=
  match rec_Date r with
  | Some text => shown_day text
  | None => None
  end.

(** The values pandas can hold in a datetime column have a year of four
    digits (a Timestamp lies between the years 1677 and 2262). *)
Definition timestamp (d : datetime) : Prop :=
  1677 <= year d <= 2262 /\ 1 <= month d <= 12 /\ 1 <= day d <= 31.

(** A column of such values. *)
Definition timestamps (col : list (option datetime)) : Prop :=
  forall d, In (Some d) col -> timestamp d.

(** ** Sample data for the further properties *)

(** Twenty students checked in by one submission, at 08:10:00 on
    2024-09-05: a batch bears one SubmitTime (checkin.py, line 287). *)
Definition batch_of_twenty : list Event :=
  map checkin_of
      [ "Ada"; "Ben"; "Cleo"; "Dan"; "Eve"; "Finn"; "Gus"; "Hana"; "Ian";
        "Jo"; "Kai"; "Lea"; "Max"; "Nia"; "Oli"; "Pia"; "Quin"; "Rae";
        "Sam"; "Tess" ].

(** The corrections sheet as it is documented, with its 'StudentName'
    column (helpers.py, line 351), and the response of [jane_correction]:
    Jane Doe chosen in the Grade 3 column, the Grade 4 column empty. *)
Definition documented_columns : list string :=
  ["StudentName"; "Choose Student (Grade 3)"; "Choose Student (Grade 4)"].

Definition jane_response : RawCorrection :=
  mk_RawCorrection "9/5/2024 9:12:44" "teacher@example.org" "3" "checkin" ""
                   "2024-09-05" "08:30:00" "Morning" [""; "Jane Doe"; ""].

Definition documented_store : Store :=
  mk_Store [] [] (mk_CorrectionsSheet documented_columns [jane_response])
           (mk_datetime 2024 9 5 8 50 0 0) [].

(** A session that has cached nothing yet. *)
Definition fresh_session : PageCache :=
  mk_PageCache None None (fun _ => None) (fun _ => None).

(** A check-in entered in the afternoon of 2024-09-04. *)
Definition afternoon_of_the_4th : Event :=
  mk_Event "15:05:00" "2024-09-04" None "Bob Roe" "Roe" "Bob" "4".

(** The session left by the afternoon of 2024-09-04. *)
Definition session_of_the_4th : PageCache :=
  mk_PageCache (Some AFTERNOON) (Some "2024-09-04")
               (store_frame (fun _ => None) AFTERNOON [afternoon_of_the_4th])
               (store_frame (fun _ => None) AFTERNOON []).

(** [sample_store] once a further student has checked in, a minute later. *)
Definition later_store : Store :=
  mk_Store (two_checkins ++ [checkin_of "Alice"])%list [] no_corrections
           (mk_datetime 2024 9 5 8 51 0 0) [].

(** The afternoon of [sample_store]'s day. *)
Definition afternoon_store : Store :=
  mk_Store two_checkins [] no_corrections
           (mk_datetime 2024 9 5 15 0 0 0) [].

(** A check-in of the same student on the following day. *)
Definition mixed_dates_row : Event :=
  mk_Event "08:20:00" "2024-09-06" None "Jane Doe" "Doe" "Jane" "3".

(** ** Vocabulary of the further properties *)

(** The two logs as [get_attendance] concatenates them, each row with its
    'Action' (helpers.py, lines 231-244). *)
Definition tagged_logs (df_checkins df_checkouts : list Event)
    : list (Event * string) :=
  (map (fun e => (e, "checkin")) df_checkins
   ++ map (fun e => (e, "checkout")) df_checkouts)%list.

(** The date filter of [get_attendance] on one row (helpers.py, lines
    247-250): a comparison of texts. *)
Definition in_text_range (date_start date_end : datetime) (e : Event) : bool :=
  String.leb (strftime_Ymd date_start) (SubmitDate e)
  && String.leb (SubmitDate e) (strftime_Ymd date_end).

(** The calendar day of a datetime, and the bounds within which
    [strftime_Ymd] writes the year on four characters and the month and
    the day on two (any [datetime] of Python has a year of at most 9999, a
    month of at most 12, a day of at most 31; the years below 1000 are
    left out). *)
Definition calendar_day (d : datetime) : list nat := [year d; month d; day d].

Definition four_digit_year (d : datetime) : Prop :=
  1000 <= year d < 100 * 100 /\ month d < 100 /\ day d < 100.

(** What makes a three-way comparison an order: equal exactly on equal
    values, symmetric under [CompOpp], transitive on [Lt]. *)
Definition compare_ok {A : Type} (cmp : A -> A -> comparison) : Prop :=
  (forall a b, cmp a b = Eq <-> a = b)
  /\ (forall a b, cmp a b = CompOpp (cmp b a))
  /\ (forall a b c, cmp a b = Lt -> cmp b c = Lt -> cmp a c = Lt).

(** The comparison of pairs, first component first. *)
Definition pair_compare {A B : Type} (cmpA : A -> A -> comparison)
    (cmpB : B -> B -> comparison) (x y : A * B) : comparison :=
  then_by (cmpA (fst x) (fst y)) (cmpB (snd x) (snd y)).

(** The [by] columns of [get_corrections] on a record (helpers.py, lines
    421-429), and their order. *)
Definition correction_by (r : CorrectionRecord (option datetime))
    : option datetime * (cell * (cell * option datetime)) :=
  (rec_Date r, (rec_FullName r, (rec_Session r, rec_Time r))).

Definition correction_by_compare
    : option datetime * (cell * (cell * option datetime)) ->
      option datetime * (cell * (cell * option datetime)) -> comparison :=
  pair_compare (option_compare datetime_compare)
    (pair_compare (option_compare String.compare)
       (pair_compare (option_compare String.compare)
                     (option_compare datetime_compare))).

(** A roster of two students, and a submission at 08:20 on 2024-09-05. *)
Definition sample_roster : list Student :=
  [mk_Student "Jane Doe" "Jane" "Doe" "3"; mk_Student "Bob Roe" "Bob" "Roe" "4"].

Definition eight_twenty : datetime := mk_datetime 2024 9 5 8 20 0 0.

(** * Properties *)

(** ** The order of strings and of keys *)

Lemma string_compare_refl (s : string) : String.compare s s = Eq.
Proof.
  pose proof (String.compare_antisym s s) as H.
  destruct (String.compare s s); simpl in H; congruence.
Qed.

Lemma string_compare_le_trans (a b c : string) :
  String.compare a b <> Gt -> String.compare b c <> Gt ->
  String.compare a c <> Gt.
Proof.
  revert b c.
  induction a as [|x a IH]; intros [|y b] [|z c]; simpl; try congruence.
  unfold Ascii.compare.
  destruct (N.compare_spec (N_of_ascii x) (N_of_ascii y)) as [Hxy|Hxy|Hxy];
    destruct (N.compare_spec (N_of_ascii y) (N_of_ascii z)) as [Hyz|Hyz|Hyz];
    destruct (N.compare_spec (N_of_ascii x) (N_of_ascii z)) as [Hxz|Hxz|Hxz];
    try congruence; try lia.
  apply IH.
Qed.

Lemma string_compare_lt_trans (a b c : string) :
  String.compare a b = Lt -> String.compare b c = Lt ->
  String.compare a c = Lt.
Proof.
  intros Hab Hbc.
  destruct (String.compare a c) eqn:Hac; [ | reflexivity | ].
  - apply String.compare_eq_iff in Hac. subst c.
    rewrite String.compare_antisym, Hab in Hbc. discriminate.
  - exfalso.
    apply (string_compare_le_trans a b c); congruence.
Qed.

Lemma string_leb_refl (s : string) : String.leb s s = true.
Proof. unfold String.leb. now rewrite string_compare_refl. Qed.

Lemma string_leb_trans (a b c : string) :
  String.leb a b = true -> String.leb b c = true -> String.leb a c = true.
Proof.
  unfold String.leb. intros Hab Hbc.
  pose proof (string_compare_le_trans a b c) as H.
  destruct (String.compare a b), (String.compare b c),
    (String.compare a c); try reflexivity; try discriminate;
    exfalso; apply H; congruence.
Qed.

Lemma cells_eqb_eq (a b : list string) : cells_eqb a b = true <-> a = b.
Proof.
  revert b. induction a as [|x a IH]; intros [|y b]; simpl;
    try (split; [discriminate | congruence]); [tauto|].
  rewrite andb_true_iff, String.eqb_eq, IH.
  split; [intros [-> ->]; reflexivity | intros [= -> ->]; auto].
Qed.

Lemma cells_compare_antisym (a b : list string) :
  cells_compare a b = CompOpp (cells_compare b a).
Proof.
  revert b. induction a as [|x a IH]; intros [|y b]; simpl; try reflexivity.
  rewrite (String.compare_antisym x y).
  destruct (String.compare y x); simpl; auto.
Qed.

Lemma cells_leb_total (a b : list string) :
  cells_leb a b = true \/ cells_leb b a = true.
Proof.
  unfold cells_leb. rewrite (cells_compare_antisym a b).
  destruct (cells_compare b a); simpl; auto.
Qed.

Lemma cells_compare_le_trans (a b c : list string) :
  cells_compare a b <> Gt -> cells_compare b c <> Gt ->
  cells_compare a c <> Gt.
Proof.
  revert b c.
  induction a as [|x a IH]; intros [|y b] [|z c]; simpl; try congruence.
  destruct (String.compare x y) eqn:Hxy; try congruence;
    destruct (String.compare y z) eqn:Hyz; try congruence.
  - apply String.compare_eq_iff in Hxy, Hyz. subst.
    rewrite string_compare_refl. apply IH.
  - apply String.compare_eq_iff in Hxy. subst. rewrite Hyz. congruence.
  - apply String.compare_eq_iff in Hyz. subst. rewrite Hxy. congruence.
  - rewrite (string_compare_lt_trans x y z Hxy Hyz). congruence.
Qed.

Lemma cells_leb_trans (a b c : list string) :
  cells_leb a b = true -> cells_leb b c = true -> cells_leb a c = true.
Proof.
  unfold cells_leb. intros Hab Hbc.
  pose proof (cells_compare_le_trans a b c) as H.
  destruct (cells_compare a b), (cells_compare b c),
    (cells_compare a c); try reflexivity; try discriminate;
    exfalso; apply H; congruence.
Qed.

(** Rows that agree on the first three [by] columns are ordered by the
    fourth. *)
Lemma cells_leb_last (a b c x y : string) :
  cells_leb [a; b; c; x] [a; b; c; y] = String.leb x y.
Proof.
  unfold cells_leb, String.leb. simpl.
  rewrite !string_compare_refl.
  destruct (String.compare x y); reflexivity.
Qed.

(** ** [sort_values] *)

Section SortFacts.
Context {A : Type}.
Variable leb : A -> A -> bool.

Let R (a b : A) : Prop := leb a b = true.

Lemma insert_row_perm (x : A) (l : list A) :
  Permutation (insert_row leb x l) (x :: l).
Proof.
  induction l as [|y r IH]; simpl; [reflexivity|].
  destruct (leb x y); [reflexivity|].
  rewrite IH. apply perm_swap.
Qed.

Lemma sort_values_perm (l : list A) : Permutation (sort_values leb l) l.
Proof.
  induction l as [|x r IH]; simpl; [reflexivity|].
  rewrite insert_row_perm. now apply perm_skip.
Qed.

Lemma sort_values_In (l : list A) (x : A) :
  In x (sort_values leb l) <-> In x l.
Proof.
  split; apply Permutation_in;
    [apply sort_values_perm | symmetry; apply sort_values_perm].
Qed.

Hypothesis leb_total : forall a b, leb a b = true \/ leb b a = true.
Hypothesis leb_trans :
  forall a b c, leb a b = true -> leb b c = true -> leb a c = true.

Lemma insert_row_sorted (x : A) (l : list A) :
  StronglySorted R l -> StronglySorted R (insert_row leb x l).
Proof.
  induction 1 as [|y r Hr IH Hy]; simpl.
  - repeat constructor.
  - destruct (leb x y) eqn:Hxy.
    + constructor; [now constructor|].
      constructor; [exact Hxy|].
      eapply Forall_impl; [|exact Hy].
      intros z Hz. exact (leb_trans _ _ _ Hxy Hz).
    + constructor; [exact IH|].
      apply Forall_forall. intros z Hz.
      apply (Permutation_in _ (insert_row_perm x r)) in Hz.
      destruct Hz as [<-|Hz].
      * destruct (leb_total x y) as [H|H]; [congruence|exact H].
      * rewrite Forall_forall in Hy. now apply Hy.
Qed.

Lemma sort_values_sorted (l : list A) :
  StronglySorted R (sort_values leb l).
Proof.
  induction l as [|x r IH]; simpl; [constructor|].
  now apply insert_row_sorted.
Qed.
End SortFacts.

(** Renaming the rows by a map that keeps the order commutes with the
    sort. *)
Lemma sort_values_map {A B : Type} (leb : A -> A -> bool)
    (leb' : B -> B -> bool) (f : A -> B) (l : list A) :
  (forall a b, leb' (f a) (f b) = leb a b) ->
  sort_values leb' (map f l) = map f (sort_values leb l).
Proof.
  intros Hf. induction l as [|x r IH]; simpl; [reflexivity|].
  rewrite IH. generalize (sort_values leb r) as s.
  induction s as [|y s IHs]; simpl; [reflexivity|].
  rewrite Hf. destruct (leb x y); simpl; [reflexivity|].
  now rewrite IHs.
Qed.

Lemma StronglySorted_map {A B : Type} (R : B -> B -> Prop) (f : A -> B)
    (l : list A) :
  StronglySorted (fun a b => R (f a) (f b)) l -> StronglySorted R (map f l).
Proof.
  induction 1 as [|x r Hr IH Hx]; simpl; constructor; [exact IH|].
  rewrite Forall_map. exact Hx.
Qed.

Lemma StronglySorted_impl {A : Type} (R R' : A -> A -> Prop) (l : list A) :
  (forall a b, R a b -> R' a b) -> StronglySorted R l -> StronglySorted R' l.
Proof.
  intros HR. induction 1 as [|x r Hr IH Hx]; constructor; [exact IH|].
  eapply Forall_impl; [|exact Hx]. intros b. apply HR.
Qed.

(** ** [drop_duplicates] *)

Section DedupFacts.
Context {A K : Type}.
Variable key_eqb : K -> K -> bool.
Variable key : A -> K.
Hypothesis key_eqb_eq : forall a b, key_eqb a b = true <-> a = b.

Lemma key_mem_In (k : K) (ks : list K) :
  key_mem key_eqb k ks = true <-> In k ks.
Proof.
  unfold key_mem. rewrite existsb_exists. split.
  - intros (k' & Hin & Heq). apply key_eqb_eq in Heq. now subst.
  - intros Hin. exists k. split; [exact Hin|]. now apply key_eqb_eq.
Qed.

Lemma key_mem_false (k : K) (ks : list K) :
  key_mem key_eqb k ks = false <-> ~ In k ks.
Proof.
  rewrite <- key_mem_In. destruct (key_mem key_eqb k ks); split;
    congruence.
Qed.

Lemma drop_from_In (seen : list K) (l : list A) (x : A) :
  In x (drop_duplicates_from key_eqb key seen l) ->
  In x l /\ ~ In (key x) seen.
Proof.
  revert seen. induction l as [|a r IH]; simpl; intros seen; [tauto|].
  destruct (key_mem key_eqb (key a) seen) eqn:Hm.
  - intros Hx. apply IH in Hx. tauto.
  - intros [<-|Hx].
    + split; [now left|]. now apply key_mem_false.
    + apply IH in Hx. simpl in Hx. tauto.
Qed.

Lemma drop_from_NoDup (seen : list K) (l : list A) :
  NoDup (map key (drop_duplicates_from key_eqb key seen l)).
Proof.
  revert seen. induction l as [|a r IH]; simpl; intros seen;
    [constructor|].
  destruct (key_mem key_eqb (key a) seen); [apply IH|].
  simpl. constructor; [|apply IH].
  rewrite in_map_iff. intros (y & Hk & Hy).
  apply drop_from_In in Hy. simpl in Hy. destruct Hy as [_ Hy].
  apply Hy. now left.
Qed.

(** keep='first' over a sorted frame: every row is represented by a kept
    row of its key, which is the row itself or comes before it. *)
Lemma drop_from_first (R : A -> A -> Prop) (seen : list K) (l : list A) :
  StronglySorted R l ->
  forall x, In x l -> ~ In (key x) seen ->
  exists y, In y (drop_duplicates_from key_eqb key seen l)
            /\ key y = key x /\ (y = x \/ R y x).
Proof.
  intros Hs. revert seen.
  induction Hs as [|a r Hr IH Ha]; intros seen x Hx Hseen;
    [destruct Hx|].
  simpl. destruct (key_mem key_eqb (key a) seen) eqn:Hm.
  - apply key_mem_In in Hm. destruct Hx as [->|Hx]; [contradiction|].
    now apply IH.
  - destruct (key_eqb (key a) (key x)) eqn:Hk.
    + apply key_eqb_eq in Hk. exists a. split; [now left|].
      split; [exact Hk|].
      destruct Hx as [Hx|Hx]; [now left|right].
      rewrite Forall_forall in Ha. now apply Ha.
    + assert (Hne : key a <> key x).
      { intros H. apply key_eqb_eq in H. congruence. }
      destruct Hx as [->|Hx]; [congruence|].
      destruct (IH (key a :: seen) x Hx) as (y & Hy & Hky & Hor).
      * simpl. tauto.
      * exists y. split; [now right|]. tauto.
Qed.

Lemma drop_from_fixed (seen : list K) (l : list A) :
  NoDup (map key l) -> (forall x, In x l -> ~ In (key x) seen) ->
  drop_duplicates_from key_eqb key seen l = l.
Proof.
  revert seen. induction l as [|a r IH]; simpl; intros seen Hnd Hseen;
    [reflexivity|].
  inversion Hnd as [|k ks Hnotin Hnd']; subst.
  assert (Hm : key_mem key_eqb (key a) seen = false).
  { apply key_mem_false. apply Hseen. now left. }
  rewrite Hm. f_equal. apply IH; [exact Hnd'|].
  intros x Hx [Heq|Hin].
  - apply Hnotin. rewrite Heq. now apply in_map.
  - apply (Hseen x); [now right|exact Hin].
Qed.

Lemma drop_from_sorted (R : A -> A -> Prop) (seen : list K) (l : list A) :
  StronglySorted R l ->
  StronglySorted R (drop_duplicates_from key_eqb key seen l).
Proof.
  intros Hs. revert seen.
  induction Hs as [|a r Hr IH Ha]; intros seen; simpl; [constructor|].
  destruct (key_mem key_eqb (key a) seen); [apply IH|].
  constructor; [apply IH|].
  rewrite Forall_forall in *. intros y Hy.
  apply drop_from_In in Hy. now apply Ha.
Qed.

Lemma drop_last_In (l : list A) (x : A) :
  In x (drop_duplicates_last key_eqb key l) -> In x l.
Proof.
  induction l as [|a r IH]; simpl; [tauto|].
  destruct (key_mem key_eqb (key a) (map key r)); simpl; tauto.
Qed.

Lemma drop_last_NoDup (l : list A) :
  NoDup (map key (drop_duplicates_last key_eqb key l)).
Proof.
  induction l as [|a r IH]; simpl; [constructor|].
  destruct (key_mem key_eqb (key a) (map key r)) eqn:Hm; [exact IH|].
  simpl. constructor; [|exact IH].
  apply key_mem_false in Hm. intros Hin. apply Hm.
  rewrite in_map_iff in *. destruct Hin as (y & Hk & Hy).
  exists y. split; [exact Hk|]. now apply drop_last_In.
Qed.

(** keep='last' over a sorted frame: every row is represented by a kept
    row of its key, which is the row itself or comes after it. *)
Lemma drop_last_last (R : A -> A -> Prop) (l : list A) :
  StronglySorted R l ->
  forall x, In x l ->
  exists y, In y (drop_duplicates_last key_eqb key l)
            /\ key y = key x /\ (y = x \/ R x y).
Proof.
  induction 1 as [|a r Hr IH Ha]; intros x Hx; [destruct Hx|].
  simpl. rewrite Forall_forall in Ha.
  destruct (key_mem key_eqb (key a) (map key r)) eqn:Hm.
  - destruct Hx as [<-|Hx]; [|now apply IH].
    apply key_mem_In in Hm. apply in_map_iff in Hm.
    destruct Hm as (z & Hkz & Hz).
    destruct (IH z Hz) as (y & Hy & Hky & _).
    exists y. split; [exact Hy|]. split; [congruence|].
    right. apply Ha. now apply drop_last_In.
  - destruct Hx as [<-|Hx].
    + exists a. split; [now left|]. tauto.
    + destruct (IH x Hx) as (y & Hy & Hky & Hor).
      exists y. split; [now right|]. tauto.
Qed.
End DedupFacts.

(** Renaming the rows by a map that keeps the key commutes with
    keep='first'. *)
Lemma drop_from_map {A B K : Type} (key_eqb : K -> K -> bool)
    (key : A -> K) (key' : B -> K) (f : A -> B) (seen : list K)
    (l : list A) :
  (forall a, key' (f a) = key a) ->
  drop_duplicates_from key_eqb key' seen (map f l)
  = map f (drop_duplicates_from key_eqb key seen l).
Proof.
  intros Hf. revert seen. induction l as [|a r IH]; simpl; intros seen;
    [reflexivity|].
  rewrite Hf. destruct (key_mem key_eqb (key a) seen); simpl;
    now rewrite IH.
Qed.

(** ** Small facts on lists and on the reader *)

Lemma filter_all {A : Type} (p : A -> bool) (l : list A) :
  (forall x, In x l -> p x = true) -> filter p l = l.
Proof.
  induction l as [|a r IH]; simpl; intros H; [reflexivity|].
  rewrite (H a (or_introl eq_refl)). f_equal. apply IH.
  intros x Hx. apply H. now right.
Qed.

Lemma filter_map_comm {A B : Type} (p : B -> bool) (f : A -> B)
    (l : list A) :
  filter p (map f l) = map f (filter (fun a => p (f a)) l).
Proof.
  induction l as [|a r IH]; simpl; [reflexivity|].
  destruct (p (f a)); simpl; now rewrite IH.
Qed.

Lemma isin_In (values : list string) (s : string) :
  isin values s = true <-> In s values.
Proof.
  unfold isin. rewrite existsb_exists. split.
  - intros (x & Hin & Heq). apply String.eqb_eq in Heq. now subst.
  - intros Hin. exists s. split; [exact Hin|apply String.eqb_refl].
Qed.

Section ReaderFacts.
Variable to_datetime : string -> option datetime.

Lemma first_unparsed_None (col : list string) :
  first_unparsed to_datetime col = None
  <-> (forall s, In s col -> to_datetime s <> None).
Proof.
  unfold first_unparsed. split.
  - intros H s Hs Hnone.
    pose proof (find_none _ _ H s Hs) as Hf. simpl in Hf.
    rewrite Hnone in Hf. discriminate.
  - intros H. induction col as [|c r IH]; simpl; [reflexivity|].
    destruct (to_datetime c) eqn:Hc; simpl.
    + apply IH. intros s Hs. apply H. now right.
    + exfalso. apply (H c); [now left|exact Hc].
Qed.

Lemma in_period_parsed (p : TimePeriod) (e : Event) :
  in_period to_datetime p e = true -> to_datetime (SubmitTime e) <> None.
Proof.
  unfold in_period. destruct (to_datetime (SubmitTime e)); congruence.
Qed.

(** One run of [get_students]: a single read of the worksheet, then the
    transformation of the frame. *)
Lemma get_students_run (w : EventLog) (p : TimePeriod)
    (date : option string) (s : Store) :
  get_students to_datetime w p date s
  = (get_students_df to_datetime (worksheet_rows s w) p date,
     after_read (event_log w) s).
Proof. reflexivity. Qed.
End ReaderFacts.

(** ** [get_students]: the de-duplicated rows of a date and period *)

Section GetStudents.
Variable to_datetime : string -> option datetime.

Lemma by_SubmitTime_total (a b : Event) :
  by_SubmitTime a b = true \/ by_SubmitTime b a = true.
Proof. apply String.leb_total. Qed.

Lemma by_SubmitTime_trans (a b c : Event) :
  by_SubmitTime a b = true -> by_SubmitTime b c = true ->
  by_SubmitTime a c = true.
Proof. apply string_leb_trans. Qed.

Lemma get_students_df_eq (df : list Event) (p : TimePeriod)
    (date : option string) :
  get_students_df to_datetime df p date
  = match first_unparsed to_datetime
            (map SubmitTime (rows_of_date date df)) with
    | Some s => inl (ParserError s)
    | None =>
        inr (drop_duplicates_first cells_eqb subset_FullName_SubmitDate
               (sort_values by_SubmitTime
                  (filter (in_period to_datetime p)
                          (rows_of_date date df))))
    end.
Proof. reflexivity. Qed.

Lemma rows_of_date_In (date : option string) (df : list Event)
    (e : Event) :
  In e (rows_of_date date df)
  <-> In e df /\ (truthy_str date = true -> Some (SubmitDate e) = date).
Proof.
  destruct date as [[|c d]|]; simpl;
    try (split; [intros H; split; [exact H|discriminate]|tauto]).
  rewrite filter_In, String.eqb_eq. split.
  - intros [H Heq]. split; [exact H|]. congruence.
  - intros [H Heq]. split; [exact H|].
    specialize (Heq eq_refl). congruence.
Qed.

Lemma rows_of_date_map (f : Event -> Event) (date : option string)
    (df : list Event) :
  (forall e, SubmitDate (f e) = SubmitDate e) ->
  rows_of_date date (map f df) = map f (rows_of_date date df).
Proof.
  intros Hf. destruct date as [[|c d]|]; simpl; try reflexivity.
  rewrite filter_map_comm. f_equal.
  apply filter_ext. intros e. now rewrite Hf.
Qed.

(** The frame [get_students_df] returns, once the SubmitTime column has
    been read: period filter, sort, keep='first'. *)
Lemma get_students_df_parsed (df : list Event) (p : TimePeriod)
    (date : option string) (out : list Event) :
  get_students_df to_datetime df p date = inr out ->
  first_unparsed to_datetime (map SubmitTime (rows_of_date date df)) = None
  /\ out = drop_duplicates_first cells_eqb subset_FullName_SubmitDate
             (sort_values by_SubmitTime
                (filter (in_period to_datetime p) (rows_of_date date df))).
Proof.
  rewrite get_students_df_eq.
  destruct (first_unparsed to_datetime
              (map SubmitTime (rows_of_date date df)));
    [discriminate|].
  intros [= <-]. split; reflexivity.
Qed.

Lemma get_students_df_total (df : list Event) (p : TimePeriod)
    (date : option string) :
  (forall e, In e df ->
     (truthy_str date = true -> Some (SubmitDate e) = date) ->
     to_datetime (SubmitTime e) <> None) ->
  exists out, get_students_df to_datetime df p date = inr out.
Proof.
  intros H. rewrite get_students_df_eq.
  assert (Hn : first_unparsed to_datetime
                 (map SubmitTime (rows_of_date date df)) = None).
  { apply first_unparsed_None. intros s Hs.
    apply in_map_iff in Hs. destruct Hs as (e & <- & He).
    apply rows_of_date_In in He. destruct He as [He Hd].
    now apply H. }
  rewrite Hn. eauto.
Qed.
End GetStudents.

(** C1 (first-wins): for a given date and period, and a log whose SubmitTime
    cells of that date can be read, [get_students] returns a frame that
    holds only rows of the log with that SubmitDate and a SubmitTime in the
    period, is in ascending order of SubmitTime, has at most one row for
    each (FullName, SubmitDate), and represents every selected row of the
    log by the kept row of its pair, whose SubmitTime is not later.  The
    OverrideTime column has no part in it: rewriting that column of the log
    rewrites it in the result and changes nothing else. *)
Theorem get_students_keeps_first
    (to_datetime : string -> option datetime) (df : list Event)
    (time_period : TimePeriod) (date : string) :
  date <> EmptyString ->
  (forall e, In e df -> SubmitDate e = date ->
     to_datetime (SubmitTime e) <> None) ->
  exists out,
    get_students_df to_datetime df time_period (Some date) = inr out
    /\ (forall e, In e out ->
          In e df /\ SubmitDate e = date
          /\ in_period to_datetime time_period e = true)
    /\ StronglySorted
         (fun a b => String.leb (SubmitTime a) (SubmitTime b) = true) out
    /\ NoDup (map (fun e => (FullName e, SubmitDate e)) out)
    /\ (forall e, In e df -> SubmitDate e = date ->
          in_period to_datetime time_period e = true ->
          exists kept, In kept out
            /\ FullName kept = FullName e /\ SubmitDate kept = SubmitDate e
            /\ String.leb (SubmitTime kept) (SubmitTime e) = true)
    /\ (forall f : Event -> cell,
          get_students_df to_datetime (map (with_OverrideTime f) df)
                          time_period (Some date)
          = inr (map (with_OverrideTime f) out)).
Proof.
  intros Hdate Hparse.
  assert (Htruthy : truthy_str (Some date) = true)
    by (destruct date; [congruence|reflexivity]).
  destruct (get_students_df_total to_datetime df time_period (Some date))
    as [out Hout].
  { intros e He Hd. apply Hparse; [exact He|].
    specialize (Hd Htruthy). congruence. }
  exists out. split; [exact Hout|].
  destruct (get_students_df_parsed to_datetime df time_period (Some date)
              out Hout) as (Hnone & Heq).
  set (df1 := rows_of_date (Some date) df) in *.
  set (sorted := sort_values by_SubmitTime
                   (filter (in_period to_datetime time_period) df1)) in *.
  assert (Hsorted : StronglySorted (fun a b => by_SubmitTime a b = true)
                      sorted).
  { apply sort_values_sorted;
      [apply by_SubmitTime_total|apply by_SubmitTime_trans]. }
  unfold drop_duplicates_first in Heq.
  split; [|split; [|split; [|split]]].
  - intros e He. subst out. apply (drop_from_In _ _ cells_eqb_eq) in He.
    destruct He as [He _]. apply sort_values_In in He.
    apply filter_In in He. destruct He as [He Hp].
    apply rows_of_date_In in He. destruct He as [He Hd].
    specialize (Hd Htruthy). repeat split; congruence.
  - subst out. now apply (drop_from_sorted _ _ cells_eqb_eq).
  - pose proof (drop_from_NoDup cells_eqb subset_FullName_SubmitDate
                  cells_eqb_eq [] sorted) as Hnd.
    rewrite <- Heq in Hnd. clear - Hnd.
    induction out as [|a r IH]; simpl in *; [constructor|].
    inversion Hnd as [|k ks Hnotin Hnd']; subst.
    constructor; [|now apply IH].
    intros Hin. apply Hnotin.
    apply in_map_iff in Hin. destruct Hin as (y & Hy & Hiny).
    apply in_map_iff. exists y. split; [|exact Hiny].
    unfold subset_FullName_SubmitDate. congruence.
  - intros e He Hd Hp.
    destruct (drop_from_first cells_eqb subset_FullName_SubmitDate
                cells_eqb_eq (fun a b => by_SubmitTime a b = true) []
                sorted Hsorted e) as (kept & Hk & Hkey & Hor).
    + apply sort_values_In. apply filter_In. split; [|exact Hp].
      apply rows_of_date_In. split; [exact He|]. intros _. congruence.
    + simpl. tauto.
    + exists kept. rewrite Heq. split; [exact Hk|].
      unfold subset_FullName_SubmitDate in Hkey.
      injection Hkey as Hn Hsd. repeat split; try assumption.
      destruct Hor as [->|Hle]; [apply string_leb_refl|exact Hle].
  - intros f. rewrite get_students_df_eq.
    rewrite (rows_of_date_map (with_OverrideTime f)) by reflexivity.
    fold df1. rewrite map_map. simpl.
    change (map (fun x : Event => SubmitTime x) df1)
      with (map SubmitTime df1).
    rewrite Hnone. rewrite filter_map_comm.
    rewrite (sort_values_map by_SubmitTime by_SubmitTime)
      by reflexivity.
    unfold drop_duplicates_first.
    rewrite (drop_from_map cells_eqb subset_FullName_SubmitDate)
      by reflexivity.
    subst out. reflexivity.
Qed.

Lemma get_students_keeps_first_witness :
  exists out,
    get_students_df read_iso two_checkins MORNING (Some "2024-09-05") = inr out
    /\ NoDup (map (fun e => (FullName e, SubmitDate e)) out)
    /\ exists kept, In kept out
         /\ String.leb (SubmitTime kept) "08:10:00" = true.
Proof.
  destruct (get_students_keeps_first read_iso two_checkins MORNING
              "2024-09-05") as (out & Hout & _ & _ & Hnd & Hmin & _).
  - discriminate.
  - intros e [<-|[<-|[]]] _; vm_compute; discriminate.
  - exists out. split; [exact Hout|]. split; [exact Hnd|].
    destruct (Hmin (jane "08:10:00")) as (kept & Hk & _ & _ & Hle).
    + simpl. tauto.
    + reflexivity.
    + reflexivity.
    + exists kept. split; [exact Hk|exact Hle].
Defined.

(** The first-wins example of the specification: of the 08:10 and 08:45
    check-ins of one student on one morning, only the 08:10 row is kept. *)
Example get_students_first_wins_example :
  get_students_df read_iso two_checkins MORNING (Some "2024-09-05")
  = inr [jane "08:10:00"].
Proof. reflexivity. Qed.

(** *** Applying [get_students] to its own result *)

Lemma string_leb_antisym (a b : string) :
  String.leb a b = true -> String.leb b a = true -> a = b.
Proof.
  unfold String.leb. rewrite (String.compare_antisym b a).
  destruct (String.compare a b) eqn:Hab; simpl; try discriminate.
  intros _ _. now apply String.compare_eq_iff.
Qed.

(** Two frames in ascending order of SubmitTime that hold the same rows
    are the same frame, when no two rows share a SubmitTime. *)
Lemma ascending_frames_agree (l l' : list Event) :
  StronglySorted (fun a b => by_SubmitTime a b = true) l ->
  StronglySorted (fun a b => by_SubmitTime a b = true) l' ->
  Permutation l l' -> NoDup (map SubmitTime l) -> l = l'.
Proof.
  intros Hl. revert l'.
  induction Hl as [|a r Hr IH Ha]; intros l' Hl' Hperm Hnd.
  - now apply Permutation_nil in Hperm.
  - destruct Hl' as [|b r' Hr' Hb].
    + symmetry in Hperm. now apply Permutation_nil in Hperm.
    + rewrite Forall_forall in Ha, Hb.
      inversion Hnd as [|k ks Hfresh Hnd']; subst.
      assert (Hab : a = b).
      { assert (Hina : In a (b :: r'))
          by (apply (Permutation_in _ Hperm); now left).
        assert (Hinb : In b (a :: r))
          by (apply (Permutation_in _ (Permutation_sym Hperm)); now left).
        destruct Hina as [Heq|Hina]; [now symmetry|].
        destruct Hinb as [Heq|Hinb]; [exact Heq|].
        exfalso. apply Hfresh.
        rewrite (string_leb_antisym (SubmitTime a) (SubmitTime b)).
        - now apply in_map.
        - now apply Ha.
        - now apply Hb. }
      subst b. f_equal. apply IH; [exact Hr'| |exact Hnd'].
      now apply Permutation_cons_inv in Hperm.
Qed.

(** [get_students_df] is the instance of [get_students_df_by] whose sort
    keeps rows of equal SubmitTime in their order. *)
Lemma get_students_df_stable (to_datetime : string -> option datetime)
    (df : list Event) (p : TimePeriod) (date : option string) :
  get_students_df to_datetime df p date
  = get_students_df_by (sort_values by_SubmitTime) to_datetime df p date.
Proof. reflexivity. Qed.

Lemma sort_values_ascending :
  ascending_by_SubmitTime (sort_values by_SubmitTime).
Proof.
  intros df. split; [apply sort_values_perm|].
  apply sort_values_sorted;
    [apply by_SubmitTime_total|apply by_SubmitTime_trans].
Qed.

(** C5 (idempotent dedup), as the code has it: whatever ascending
    permutation [sort_values] gives, when [get_students]' transformation
    returns a frame, applying it to that frame returns a frame again, with
    the same rows, none removed and none added, and both frames are in
    ascending order of SubmitTime; so rows of different SubmitTime keep
    their order.  The two frames are the same frame when no two rows of the
    first share a SubmitTime, and whenever the sort leaves a frame that is
    already in order as it is. *)
Theorem get_students_idempotent
    (sort : list Event -> list Event)
    (to_datetime : string -> option datetime) (df : list Event)
    (time_period : TimePeriod) (date : option string) (out : list Event) :
  ascending_by_SubmitTime sort ->
  get_students_df_by sort to_datetime df time_period date = inr out ->
  exists again,
    get_students_df_by sort to_datetime out time_period date = inr again
    /\ Permutation again out
    /\ List.length again = List.length out
    /\ StronglySorted
         (fun a b => String.leb (SubmitTime a) (SubmitTime b) = true) out
    /\ StronglySorted
         (fun a b => String.leb (SubmitTime a) (SubmitTime b) = true) again
    /\ (NoDup (map SubmitTime out) -> again = out)
    /\ ((forall l,
           StronglySorted
             (fun a b => String.leb (SubmitTime a) (SubmitTime b) = true) l ->
           sort l = l) ->
        again = out).
Proof.
  intros Hsort Hout. unfold get_students_df_by in Hout.
  fold (rows_of_date date df) in Hout.
  destruct (first_unparsed to_datetime
              (map SubmitTime (rows_of_date date df))) eqn:Hnone;
    [discriminate|].
  injection Hout as Heq. symmetry in Heq.
  set (kept := filter (in_period to_datetime time_period)
                      (rows_of_date date df)) in *.
  destruct (Hsort kept) as [Hperm Hsorted].
  unfold drop_duplicates_first in Heq.
  assert (Hrows : forall e, In e out ->
            (truthy_str date = true -> Some (SubmitDate e) = date)
            /\ in_period to_datetime time_period e = true).
  { intros e He. rewrite Heq in He.
    apply (drop_from_In _ _ cells_eqb_eq) in He. destruct He as [He _].
    apply (Permutation_in _ Hperm) in He. apply filter_In in He.
    destruct He as [He Hp]. apply rows_of_date_In in He. tauto. }
  assert (Hasc : StronglySorted (fun a b => by_SubmitTime a b = true) out).
  { rewrite Heq. now apply (drop_from_sorted _ _ cells_eqb_eq). }
  assert (Hnd : NoDup (map subset_FullName_SubmitDate out)).
  { rewrite Heq. apply drop_from_NoDup. exact cells_eqb_eq. }
  assert (Hdate : rows_of_date date out = out).
  { destruct date as [[|c d]|]; simpl; try reflexivity.
    apply filter_all. intros e He. apply Hrows in He.
    destruct He as (Hd & _). specialize (Hd eq_refl).
    apply String.eqb_eq. congruence. }
  assert (Hparsed : first_unparsed to_datetime (map SubmitTime out) = None).
  { apply first_unparsed_None. intros s Hs.
    apply in_map_iff in Hs. destruct Hs as (e & <- & He).
    apply (in_period_parsed to_datetime time_period). now apply Hrows. }
  destruct (Hsort out) as [Hperm2 Hsorted2].
  assert (Hagain :
    get_students_df_by sort to_datetime out time_period date
    = inr (sort out)).
  { unfold get_students_df_by. fold (rows_of_date date out).
    rewrite Hdate, Hparsed. f_equal.
    rewrite (filter_all (in_period to_datetime time_period) out)
      by (intros e He; now apply Hrows).
    unfold drop_duplicates_first.
    apply (drop_from_fixed _ _ cells_eqb_eq).
    - apply (Permutation_NoDup
               (Permutation_map subset_FullName_SubmitDate
                  (Permutation_sym Hperm2))).
      exact Hnd.
    - intros x _ []. }
  exists (sort out). split; [exact Hagain|]. split; [exact Hperm2|].
  split; [now apply Permutation_length|].
  split; [exact Hasc|]. split; [exact Hsorted2|]. split.
  - intros Htimes. symmetry.
    now apply ascending_frames_agree.
  - intros Hfixed. now apply Hfixed.
Qed.

Lemma get_students_idempotent_witness :
  exists again,
    get_students_df read_iso [jane "08:10:00"] MORNING (Some "2024-09-05")
    = inr again
    /\ again = [jane "08:10:00"].
Proof.
  destruct (get_students_idempotent (sort_values by_SubmitTime) read_iso
              two_checkins MORNING (Some "2024-09-05") [jane "08:10:00"]
              sort_values_ascending eq_refl)
    as (again & Hagain & _ & _ & _ & _ & Hsame & _).
  exists again. split; [exact Hagain|].
  apply Hsame. repeat constructor; simpl; tauto.
Defined.

(** Twenty students checked in by one submission bear one SubmitTime.
    numpy's quicksort splits an array of more than seventeen slots, and its
    partition exchanges equal keys: the frame [get_students] returns for
    the batch does not have the rows in the order of the log, and applying
    [get_students] to that frame gives them in yet another order. *)
Lemma get_students_twice_reorders :
  exists out again,
    get_students_df_by quicksort_by_SubmitTime read_iso batch_of_twenty
                       MORNING (Some "2024-09-05") = inr out
    /\ get_students_df_by quicksort_by_SubmitTime read_iso out
                          MORNING (Some "2024-09-05") = inr again
    /\ map FullName (firstn 3 out) = ["Ada"; "Rae"; "Quin"]
    /\ map FullName (firstn 3 again) = ["Ada"; "Ben"; "Cleo"]
    /\ again <> out.
Proof.
  eexists. eexists. split; [vm_compute; reflexivity|].
  split; [vm_compute; reflexivity|].
  split; [reflexivity|]. split; [reflexivity|].
  intros H. apply (f_equal (fun l => map FullName (firstn 2 l))) in H.
  vm_compute in H. discriminate H.
Qed.

(** ** current.py: who is present *)

(** C2 (presence difference): the FullName values of [df_current] are
    exactly those that occur in the check-in frame and do not occur in the
    check-out frame, whatever the two frames. *)
Theorem df_current_is_difference (df_checkedin df_checkedout : list Event)
    (name : string) :
  In name (map FullName (df_current df_checkedin df_checkedout))
  <-> In name (map FullName df_checkedin)
      /\ ~ In name (map FullName df_checkedout).
Proof.
  unfold df_current. rewrite !in_map_iff. split.
  - intros (e & <- & He). apply filter_In in He. destruct He as [He Hm].
    split; [now exists e|].
    rewrite <- in_map_iff, <- isin_In.
    destruct (isin (map FullName df_checkedout) (FullName e));
      [discriminate|congruence].
  - intros [(e & <- & He) Hout]. exists e. split; [reflexivity|].
    apply filter_In. split; [exact He|].
    rewrite <- in_map_iff, <- isin_In in Hout.
    destruct (isin (map FullName df_checkedout) (FullName e));
      [congruence|reflexivity].
Qed.

(** ** The period of a timestamp *)

(** C4 (period boundary): the period of a timestamp is decided by its hour
    alone, MORNING exactly when the hour is below 9 and AFTERNOON exactly
    when it is 9 or more; the masks of [get_students] select the same
    periods; a SubmitTime of 08:59:59 is MORNING and one of 09:00:00 is
    AFTERNOON. *)
Theorem time_period_boundary (t : datetime) :
  (time_period t = MORNING <-> hour t < 9)
  /\ (time_period t = AFTERNOON <-> 9 <= hour t)
  /\ (forall t', hour t' = hour t -> time_period t' = time_period t)
  /\ (forall p, period_mask p t = true <-> time_period t = p)
  /\ option_map time_period (read_iso "08:59:59") = Some MORNING
  /\ option_map time_period (read_iso "09:00:00") = Some AFTERNOON
  /\ in_period read_iso MORNING (jane "08:59:59") = true
  /\ in_period read_iso AFTERNOON (jane "08:59:59") = false
  /\ in_period read_iso AFTERNOON (jane "09:00:00") = true
  /\ in_period read_iso MORNING (jane "09:00:00") = false.
Proof.
  unfold time_period.
  repeat split; try reflexivity.
  - destruct (Nat.ltb_spec (hour t) 9); [auto|discriminate].
  - intros H. apply Nat.ltb_lt in H. now rewrite H.
  - destruct (Nat.ltb_spec (hour t) 9); [discriminate|auto].
  - intros H. destruct (Nat.ltb_spec (hour t) 9); [lia|reflexivity].
  - intros t' ->. reflexivity.
  - destruct p; cbn [period_mask].
    + intros ->. reflexivity.
    + intros H. apply Nat.leb_le in H.
      destruct (Nat.ltb_spec (hour t) 9); [lia|reflexivity].
  - destruct p; cbn [period_mask].
    + destruct (hour t <? 9); [reflexivity|discriminate].
    + destruct (Nat.ltb_spec (hour t) 9); [discriminate|].
      intros _. now apply Nat.leb_le.
Qed.

(** The presence example of the specification: check-ins of Alice and Bob,
    a check-out of Alice, and Bob is the one present. *)
Example df_current_example :
  map FullName (df_current [checkin_of "Alice"; checkin_of "Bob"]
                           [checkin_of "Alice"])
  = ["Bob"].
Proof. reflexivity. Qed.

(** ** [get_attendance]: the merged timeline *)

Lemma add_one_day_later (d d' : datetime) :
  add_one_day d = inr d' -> datetime_ltb d' d = false.
Proof.
  assert (Hgt : forall n, Nat.compare (S n) n = Gt).
  { intros n. apply Nat.compare_gt_iff. apply Nat.lt_succ_diag_r. }
  unfold add_one_day, datetime_ltb, datetime_fields.
  destruct (day d <? days_in_month (year d) (month d));
    [|destruct (month d <? 12); [|destruct (year d <? 9999)]];
    intros [= <-]; cbn [nats_compare year month day hour minute second
                        microsecond];
    rewrite ?Nat.compare_refl, ?Hgt; cbn iota;
    rewrite ?Nat.compare_refl, ?Hgt; reflexivity.
Qed.

(** One run of [get_attendance] over a valid range: the two logs are read,
    check-ins first, and the frame is built from them. *)
Lemma get_attendance_run (students : option (list string))
    (date_start date_end : datetime) (drop_duplicates : bool) (s : Store) :
  datetime_ltb date_end date_start = false ->
  get_attendance students (Some date_start) (Some date_end)
                 drop_duplicates s
  = (inr (get_attendance_df (sheet_checkins s) (sheet_checkouts s) students
                            date_start date_end drop_duplicates),
     after_read (event_log checkouts)
     (after_read (event_log checkins) s)).
Proof.
  intros H. unfold get_attendance, bind, ret. now rewrite H.
Qed.

Lemma get_attendance_invalid (students : option (list string))
    (date_start date_end : datetime) (drop_duplicates : bool) (s : Store) :
  datetime_ltb date_end date_start = true ->
  get_attendance students (Some date_start) (Some date_end)
                 drop_duplicates s
  = (inl InvalidRange, s).
Proof.
  intros H. unfold get_attendance, bind, ret, raise. now rewrite H.
Qed.

Lemma by_name_date_time_columns (r : Event * string) :
  by_name_date_time r = att_by (order_of_columns r).
Proof. destruct r. reflexivity. Qed.

(** Without [drop_duplicates] the returned frame is in the order of its
    [by] columns. *)
Lemma get_attendance_df_sorted (df_checkins df_checkouts : list Event)
    (students : option (list string)) (date_start date_end : datetime) :
  StronglySorted (fun a b => cells_leb (att_by a) (att_by b) = true)
    (get_attendance_df df_checkins df_checkouts students
                       date_start date_end false).
Proof.
  unfold get_attendance_df. apply StronglySorted_map.
  eapply StronglySorted_impl; [|apply sort_values_sorted].
  - intros a b Hab. cbv beta in Hab.
    now rewrite !by_name_date_time_columns in Hab.
  - intros a b. apply cells_leb_total.
  - intros a b c. apply cells_leb_trans.
Qed.

Lemma get_attendance_df_drop (df_checkins df_checkouts : list Event)
    (students : option (list string)) (date_start date_end : datetime) :
  get_attendance_df df_checkins df_checkouts students
                    date_start date_end true
  = drop_duplicates_last cells_eqb subset_name_date_action
      (get_attendance_df df_checkins df_checkouts students
                         date_start date_end false).
Proof. reflexivity. Qed.

Lemma filter_true {A : Type} (l : list A) : filter (fun _ => true) l = l.
Proof. apply filter_all. reflexivity. Qed.

(** The timeline without [drop_duplicates]: the rows of both logs that
    pass the two filters, sorted, in the returned columns. *)
Lemma get_attendance_df_eq (df_checkins df_checkouts : list Event)
    (students : option (list string)) (date_start date_end : datetime) :
  get_attendance_df df_checkins df_checkouts students date_start date_end
                    false
  = map order_of_columns
      (sort_values (fun a b => cells_leb (by_name_date_time a)
                                         (by_name_date_time b))
         (filter (fun r => student_wanted students (FullName (fst r)))
            (filter (fun r => in_text_range date_start date_end (fst r))
                    (tagged_logs df_checkins df_checkouts)))).
Proof.
  unfold get_attendance_df, tagged_logs, in_text_range.
  destruct students as [[|n names]|]; cbn [truthy_list student_wanted];
    now rewrite ?filter_true.
Qed.

Lemma get_attendance_filters (students : option (list string))
    (date_start date_end : datetime) (l : list (Event * string)) :
  filter (fun r => student_wanted students (FullName (fst r)))
    (filter (fun r => in_text_range date_start date_end (fst r)) l)
  = filter (fun r => in_text_range date_start date_end (fst r)
                     && match students with
                        | Some (n :: names) =>
                            isin (n :: names) (FullName (fst r))
                        | _ => true
                        end) l.
Proof.
  destruct students as [[|n names]|]; cbn [student_wanted truthy_list];
    induction l as [|x l IH]; cbn [filter]; try reflexivity;
    destruct (in_text_range date_start date_end (fst x));
    cbn [filter andb]; try (now rewrite IH);
    destruct (isin (n :: names) (FullName (fst x))); now rewrite IH.
Qed.

(** The rows of the timeline, one by one. *)
Lemma get_attendance_df_In (df_checkins df_checkouts : list Event)
    (students : option (list string)) (date_start date_end : datetime)
    (r : AttendanceRow) :
  In r (get_attendance_df df_checkins df_checkouts students
                          date_start date_end false)
  <-> exists e,
        ((In e df_checkins /\ r = order_of_columns (e, "checkin"))
         \/ (In e df_checkouts /\ r = order_of_columns (e, "checkout")))
        /\ in_text_range date_start date_end e = true
        /\ match students with
           | Some (n :: names) => In (FullName e) (n :: names)
           | _ => True
           end.
Proof.
  rewrite get_attendance_df_eq, get_attendance_filters.
  rewrite in_map_iff. split.
  - intros ([e action] & <- & Hx). apply sort_values_In in Hx.
    apply filter_In in Hx. destruct Hx as [Hx Hkeep].
    apply andb_true_iff in Hkeep. destruct Hkeep as [Hrange Hwanted].
    cbn [fst] in *. exists e. split; [|split; [exact Hrange|]].
    + unfold tagged_logs in Hx. apply in_app_or in Hx.
      destruct Hx as [Hx|Hx]; apply in_map_iff in Hx;
        destruct Hx as (e' & [= <- <-] & He'); tauto.
    + destruct students as [[|n names]|]; try exact I.
      now apply isin_In.
  - intros (e & Hlog & Hrange & Hwanted).
    assert (Hkeep : forall action : string,
      in_text_range date_start date_end (fst (e, action))
      && match students with
         | Some (n :: names) => isin (n :: names) (FullName (fst (e, action)))
         | _ => true
         end = true).
    { intros action. cbn [fst]. rewrite Hrange. cbn [andb].
      destruct students as [[|n names]|]; try reflexivity.
      now apply isin_In. }
    destruct Hlog as [[He ->]|[He ->]].
    + exists (e, "checkin"). split; [reflexivity|].
      apply sort_values_In. apply filter_In. split; [|apply Hkeep].
      unfold tagged_logs. apply in_or_app. left.
      apply in_map_iff. now exists e.
    + exists (e, "checkout"). split; [reflexivity|].
      apply sort_values_In. apply filter_In. split; [|apply Hkeep].
      unfold tagged_logs. apply in_or_app. right.
      apply in_map_iff. now exists e.
Qed.

(** C3 (last-wins): over a valid date range and whatever the two logs,
    [get_attendance] with [drop_duplicates=True] returns a frame in which
    no two rows share (LastName, FirstName, SubmitDate, Action); each of its
    rows is a row of the check-in log tagged 'checkin' or a row of the
    check-out log tagged 'checkout', with a SubmitDate in the range and a
    wanted FullName; and every such row of the two logs has, in the frame,
    the row of its (LastName, FirstName, SubmitDate, Action), whose
    SubmitTime is not earlier: the latest of the group is the one kept. *)
Theorem get_attendance_keeps_last (s : Store)
    (students : option (list string)) (date_start date_end : datetime) :
  datetime_ltb date_end date_start = false ->
  exists out,
    outcome (get_attendance students (Some date_start) (Some date_end) true) s
    = inr out
    /\ NoDup (map (fun r => (att_LastName r, att_FirstName r,
                             att_SubmitDate r, att_Action r)) out)
    /\ (forall r, In r out ->
          exists e,
            ((In e (sheet_checkins s) /\ r = order_of_columns (e, "checkin"))
             \/ (In e (sheet_checkouts s)
                 /\ r = order_of_columns (e, "checkout")))
            /\ in_text_range date_start date_end e = true
            /\ match students with
               | Some (n :: names) => In (FullName e) (n :: names)
               | _ => True
               end)
    /\ (forall e action,
          (In e (sheet_checkins s) /\ action = "checkin")
          \/ (In e (sheet_checkouts s) /\ action = "checkout") ->
          in_text_range date_start date_end e = true ->
          match students with
          | Some (n :: names) => In (FullName e) (n :: names)
          | _ => True
          end ->
          exists kept, In kept out
            /\ att_LastName kept = LastName e
            /\ att_FirstName kept = FirstName e
            /\ att_SubmitDate kept = SubmitDate e
            /\ att_Action kept = action
            /\ String.leb (SubmitTime e) (att_SubmitTime kept) = true).
Proof.
  intros Hrange. unfold outcome.
  rewrite !get_attendance_run by exact Hrange. cbn [fst].
  rewrite get_attendance_df_drop.
  set (timeline := get_attendance_df (sheet_checkins s) (sheet_checkouts s)
                     students date_start date_end false).
  exists (drop_duplicates_last cells_eqb subset_name_date_action timeline).
  split; [reflexivity|]. split; [|split].
  - pose proof (drop_last_NoDup cells_eqb subset_name_date_action
                  cells_eqb_eq timeline) as Hnd.
    revert Hnd.
    generalize (drop_duplicates_last cells_eqb subset_name_date_action
                  timeline).
    induction l as [|a r IH]; simpl; intros Hnd; [constructor|].
    inversion Hnd as [|k ks Hnotin Hnd']; subst.
    constructor; [|now apply IH].
    intros Hin. apply Hnotin.
    apply in_map_iff in Hin. destruct Hin as (y & Hy & Hiny).
    apply in_map_iff. exists y. split; [|exact Hiny].
    unfold subset_name_date_action. congruence.
  - intros r Hr. apply drop_last_In in Hr.
    now apply get_attendance_df_In in Hr.
  - intros e action Hlog Hin_range Hwanted.
    assert (Hr : In (order_of_columns (e, action)) timeline).
    { apply get_attendance_df_In. exists e. split; [|split; assumption].
      destruct Hlog as [[He ->]|[He ->]]; [left|right]; now split. }
    destruct (drop_last_last cells_eqb subset_name_date_action cells_eqb_eq
                (fun a b => cells_leb (att_by a) (att_by b) = true)
                timeline (get_attendance_df_sorted _ _ _ _ _) _ Hr)
      as (kept & Hk & Hkey & Hor).
    exists kept. split; [exact Hk|].
    unfold subset_name_date_action in Hkey. cbn in Hkey.
    injection Hkey as HL HF HD HA.
    repeat split; try assumption.
    destruct Hor as [->|Hle]; [apply string_leb_refl|].
    unfold att_by in Hle. cbn in Hle. rewrite HL, HF, HD in Hle.
    now rewrite cells_leb_last in Hle.
Qed.

Lemma get_attendance_keeps_last_witness :
  exists out,
    outcome (get_attendance None (Some (sept 5)) (Some (sept 6)) true)
            sample_store = inr out
    /\ exists kept, In kept out
         /\ att_Action kept = "checkin"
         /\ String.leb "08:45:00" (att_SubmitTime kept) = true.
Proof.
  destruct (get_attendance_keeps_last sample_store None (sept 5) (sept 6))
    as (out & Hout & _ & _ & Hlast).
  - reflexivity.
  - exists out. split; [exact Hout|].
    destruct (Hlast (jane "08:45:00") "checkin") as (kept & Hk & H).
    + left. split; [now left|reflexivity].
    + reflexivity.
    + exact I.
    + exists kept. tauto.
Defined.

(** The last-wins example of the specification: of the 08:10 and 08:45
    check-ins of one student on one morning, only the 08:45 row is kept. *)
Example get_attendance_last_wins_example :
  outcome (get_attendance None (Some (sept 5)) (Some (sept 6)) true)
          sample_store
  = inr [order_of_columns (jane "08:45:00", "checkin")].
Proof. reflexivity. Qed.

(** ** The range check of [get_attendance] and [get_corrections] *)

Section RangeCheck.
Variable to_datetime : string -> option datetime.

Lemma get_corrections_run (students : option (list string))
    (date_start date_end : datetime) (s : Store) :
  datetime_ltb date_end date_start = false ->
  get_corrections to_datetime students (Some date_start) (Some date_end) s
  = (get_corrections_df to_datetime (corrections_frame s) students
                        date_start date_end,
     after_read form_responses s).
Proof.
  intros H. unfold get_corrections, bind, ret, lift. now rewrite H.
Qed.

Lemma get_corrections_invalid (students : option (list string))
    (date_start date_end : datetime) (s : Store) :
  datetime_ltb date_end date_start = true ->
  get_corrections to_datetime students (Some date_start) (Some date_end) s
  = (inl InvalidRange, s).
Proof.
  intros H. unfold get_corrections, bind, ret, raise. now rewrite H.
Qed.

(** What the frame transformation raises is never the range error. *)
Lemma get_corrections_df_not_InvalidRange (frame : CorrectionsFrame)
    (students : option (list string)) (date_start date_end : datetime) :
  get_corrections_df to_datetime frame students date_start date_end
  <> inl InvalidRange.
Proof.
  unfold get_corrections_df.
  destruct (first_unparsed_cell to_datetime
              (map cor_Date (frame_rows frame))); [discriminate|].
  destruct (first_unparsed_cell to_datetime
              (map cor_Time (frame_rows frame))); [discriminate|].
  unfold melt.
  destruct (existsb _ _); discriminate.
Qed.
End RangeCheck.

(** C6 (range validation): with [date_end < date_start], [get_attendance]
    and [get_corrections] both raise the range error and leave the store as
    it was, so no worksheet has been read; with [date_end >= date_start]
    neither of them raises that error. *)
Theorem invalid_range_fails_fast
    (to_datetime : string -> option datetime) (s : Store)
    (students : option (list string)) (date_start date_end : datetime)
    (drop_duplicates : bool) :
  (datetime_ltb date_end date_start = true ->
     get_attendance students (Some date_start) (Some date_end)
                    drop_duplicates s
     = (inl InvalidRange, s)
     /\ get_corrections to_datetime students (Some date_start)
                        (Some date_end) s
        = (inl InvalidRange, s))
  /\ (datetime_ltb date_end date_start = false ->
        outcome (get_attendance students (Some date_start) (Some date_end)
                                drop_duplicates) s
        <> inl InvalidRange
        /\ outcome (get_corrections to_datetime students (Some date_start)
                                    (Some date_end)) s
           <> inl InvalidRange).
Proof.
  split; intros H.
  - split; [now apply get_attendance_invalid
           |now apply get_corrections_invalid].
  - unfold outcome.
    rewrite get_attendance_run, get_corrections_run by exact H.
    split; [discriminate|apply get_corrections_df_not_InvalidRange].
Qed.

Lemma invalid_range_fails_fast_witness :
  (get_attendance None (Some (sept 5)) (Some (sept 1)) true sample_store
   = (inl InvalidRange, sample_store)
   /\ get_corrections read_iso None (Some (sept 5)) (Some (sept 1))
                      sample_store
      = (inl InvalidRange, sample_store))
  /\ outcome (get_attendance None (Some (sept 1)) (Some (sept 5)) true)
             sample_store
     <> inl InvalidRange.
Proof.
  split.
  - apply (proj1 (invalid_range_fails_fast read_iso sample_store None
                    (sept 5) (sept 1) true)). reflexivity.
  - apply (proj2 (invalid_range_fails_fast read_iso sample_store None
                    (sept 1) (sept 5) true)). reflexivity.
Defined.

(** The range example of the specification: a range from 2024-09-05 back
    to 2024-09-01 is refused, and the store has not been read. *)
Example invalid_range_example :
  get_attendance None (Some (sept 5)) (Some (sept 1)) false sample_store
  = (inl (ValueError "date_end must be later than date_start"), sample_store)
  /\ reads (final_store
              (get_attendance None (Some (sept 5)) (Some (sept 1)) false)
              sample_store) = [].
Proof. split; reflexivity. Qed.

(** *** One day later *)

Lemma days_before_next_year (y : nat) :
  1 <= y ->
  days_before_year (S y)
  = days_before_year y + 365 + (if is_leap y then 1 else 0).
Proof.
  intros Hy. unfold days_before_year, is_leap.
  replace (S y - 1) with y by lia.
  destruct y as [|p]; [lia|]. replace (S p - 1) with p by lia.
  pose proof (Nat.div_mod_eq p 4) as H4.
  pose proof (Nat.div_mod_eq p 100) as H100.
  pose proof (Nat.div_mod_eq p 400) as H400.
  pose proof (Nat.div_mod_eq (S p) 4) as G4.
  pose proof (Nat.div_mod_eq (S p) 100) as G100.
  pose proof (Nat.div_mod_eq (S p) 400) as G400.
  pose proof (Nat.mod_upper_bound p 4 ltac:(discriminate)).
  pose proof (Nat.mod_upper_bound p 100 ltac:(discriminate)).
  pose proof (Nat.mod_upper_bound p 400 ltac:(discriminate)).
  pose proof (Nat.mod_upper_bound (S p) 4 ltac:(discriminate)).
  pose proof (Nat.mod_upper_bound (S p) 100 ltac:(discriminate)).
  pose proof (Nat.mod_upper_bound (S p) 400 ltac:(discriminate)).
  destruct (Nat.eqb_spec (S p mod 4) 0), (Nat.eqb_spec (S p mod 100) 0),
    (Nat.eqb_spec (S p mod 400) 0); cbn [andb orb negb]; lia.
Qed.

Lemma days_before_next_month (y m : nat) :
  1 <= m < 12 ->
  days_before_month y (S m) = days_before_month y m + days_in_month y m.
Proof.
  intros Hm. unfold days_before_month, days_in_month.
  do 12 (destruct m as [|m];
         [try lia; cbn; destruct (is_leap y); reflexivity|]).
  lia.
Qed.

Lemma days_in_month_pos (y m : nat) : 1 <= days_in_month y m.
Proof.
  unfold days_in_month.
  do 12 (destruct m as [|m]; [try destruct (is_leap y); lia|]). lia.
Qed.

(** [add_one_day] against Python's day numbers: on the last day it raises;
    on any other day it gives the datetime of the next day number, at the
    same time of day. *)
Lemma add_one_day_next (d : datetime) :
  python_datetime d ->
  (last_day d ->
     add_one_day d = inl (OverflowError "date value out of range"))
  /\ (~ last_day d ->
      exists d', add_one_day d = inr d'
        /\ toordinal d' = S (toordinal d)
        /\ same_time_of_day d' d
        /\ python_datetime d').
Proof.
  assert (E9999 : 9999 = 99 * 101) by reflexivity.
  unfold python_datetime, add_one_day, last_day. rewrite !E9999.
  intros (Hy & Hm & Hd & Hh & Hmi & Hs & Hus). split.
  - intros (Ey & Em & Ed). rewrite Ey, Em, Ed. reflexivity.
  - intros Hlast.
    destruct (Nat.ltb_spec (day d) (days_in_month (year d) (month d)))
      as [Hday|Hday].
    + eexists. split; [reflexivity|].
      unfold toordinal, same_time_of_day.
      cbn [year month day hour minute second microsecond].
      repeat split; try lia.
    + assert (Eday : day d = days_in_month (year d) (month d)) by lia.
      destruct (Nat.ltb_spec (month d) 12) as [Hmonth|Hmonth].
      * eexists. split; [reflexivity|].
        unfold toordinal, same_time_of_day.
        cbn [year month day hour minute second microsecond].
        rewrite days_before_next_month by lia.
        repeat split; try lia.
        apply days_in_month_pos.
      * assert (Emonth : month d = 12) by lia.
        assert (Edim : days_in_month (year d) (month d) = 31)
          by (rewrite Emonth; reflexivity).
        destruct (Nat.ltb_spec (year d) (99 * 101)) as [Hyear|Hyear];
          [|exfalso; apply Hlast; lia].
        eexists. split; [reflexivity|].
        unfold toordinal, same_time_of_day.
        cbn [year month day hour minute second microsecond].
        rewrite days_before_next_year by lia.
        rewrite Emonth, Eday, Edim.
        unfold days_before_month. cbn [nth Nat.ltb Nat.leb andb].
        unfold days_in_month.
        repeat split; lia.
Qed.

(** What [add_one_day] raises is never the range error. *)
Lemma add_one_day_raises (d : datetime) (e : exn) :
  add_one_day d = inl e -> e <> InvalidRange.
Proof.
  unfold add_one_day.
  repeat match goal with
         | |- (if ?c then _ else _) = _ -> _ => destruct c
         end; try discriminate.
  intros [= <-]. discriminate.
Qed.

(** C9 (defaults): with both dates omitted [get_attendance] runs as with
    [date_start] set to today's clock.  With [date_end] omitted, and
    whatever [datetime] [date_start] is, other than one of 9999-12-31, it
    runs as with [date_end] at the same time of day on the day that follows
    that of [date_start] (the next day number of Python's calendar): the
    two logs are read and the frame of that range is returned.  On
    9999-12-31 the addition raises OverflowError before any read.  In no
    case is the range error raised. *)
Theorem get_attendance_defaults (s : Store)
    (students : option (list string)) (drop_duplicates : bool) :
  get_attendance students None None drop_duplicates s
  = get_attendance students (Some (clock s)) None drop_duplicates s
  /\ (forall date_start,
        python_datetime date_start -> ~ last_day date_start ->
        exists date_end,
          toordinal date_end = S (toordinal date_start)
          /\ same_time_of_day date_end date_start
          /\ python_datetime date_end
          /\ get_attendance students (Some date_start) None drop_duplicates s
             = get_attendance students (Some date_start) (Some date_end)
                              drop_duplicates s
          /\ get_attendance students (Some date_start) None drop_duplicates s
             = (inr (get_attendance_df (sheet_checkins s) (sheet_checkouts s)
                       students date_start date_end drop_duplicates),
                after_read (event_log checkouts)
                  (after_read (event_log checkins) s)))
  /\ (forall date_start,
        python_datetime date_start -> last_day date_start ->
        get_attendance students (Some date_start) None drop_duplicates s
        = (inl (OverflowError "date value out of range"), s))
  /\ (forall date_start,
        outcome (get_attendance students date_start None drop_duplicates) s
        <> inl InvalidRange).
Proof.
  assert (Hdefault : forall date_start,
    get_attendance students (Some date_start) None drop_duplicates s
    = match add_one_day date_start with
      | inr date_end =>
          get_attendance students (Some date_start) (Some date_end)
                         drop_duplicates s
      | inl e => (inl e, s)
      end).
  { intros d. unfold get_attendance, bind, ret, lift.
    destruct (add_one_day d); reflexivity. }
  assert (Htoday :
    get_attendance students None None drop_duplicates s
    = get_attendance students (Some (clock s)) None drop_duplicates s)
    by reflexivity.
  split; [exact Htoday|]. split; [|split].
  - intros d Hd Hlast.
    destruct (proj2 (add_one_day_next d Hd) Hlast)
      as (date_end & Hadd & Hord & Htime & Hvalid).
    exists date_end. split; [exact Hord|]. split; [exact Htime|].
    split; [exact Hvalid|]. rewrite Hdefault, Hadd.
    split; [reflexivity|].
    apply get_attendance_run. now apply add_one_day_later.
  - intros d Hd Hlast. rewrite Hdefault.
    now rewrite (proj1 (add_one_day_next d Hd) Hlast).
  - assert (Hnever : forall d,
      outcome (get_attendance students (Some d) None drop_duplicates) s
      <> inl InvalidRange).
    { intros d. unfold outcome. rewrite Hdefault.
      destruct (add_one_day d) as [e|date_end] eqn:Hadd.
      - cbn [fst]. intros [= He]. now apply (add_one_day_raises d e).
      - rewrite get_attendance_run by (now apply add_one_day_later).
        discriminate. }
    intros [d|]; [apply Hnever|].
    unfold outcome. rewrite Htoday. apply Hnever.
Qed.

(** The day after 2024-02-28 is the 29th, that year; a call for the 28th at
    10:05 with no [date_end] is the call for the range up to the 29th at
    10:05. *)
Example get_attendance_default_end_example :
  get_attendance None (Some (mk_datetime 2024 2 28 10 5 0 0)) None false
                 sample_store
  = get_attendance None (Some (mk_datetime 2024 2 28 10 5 0 0))
                   (Some (mk_datetime 2024 2 29 10 5 0 0)) false sample_store
  /\ (toordinal (mk_datetime 2024 2 29 10 5 0 0)
      =? S (toordinal (mk_datetime 2024 2 28 10 5 0 0))) = true.
Proof. split; [reflexivity|vm_compute; reflexivity]. Qed.

(** ** [get_corrections]: the melt *)

Lemma flat_map_split {A B : Type} (f g : A -> list B) (l : list A) :
  Permutation (flat_map (fun x => f x ++ g x)%list l)
              (flat_map f l ++ flat_map g l)%list.
Proof.
  induction l as [|x r IH]; simpl; [reflexivity|].
  rewrite <- !app_assoc. apply Permutation_app_head.
  rewrite IH. apply Permutation_app_swap_app.
Qed.

(** Blocks by column and blocks by row hold the same rows. *)
Lemma flat_map_swap {J R B : Type} (h : J -> R -> list B)
    (cols : list J) (rows : list R) :
  Permutation (flat_map (fun j => flat_map (h j) rows) cols)
              (flat_map (fun r => flat_map (fun j => h j r) cols) rows).
Proof.
  induction cols as [|j cs IH]; simpl.
  - induction rows as [|r rs IHr]; simpl; [reflexivity|exact IHr].
  - rewrite IH. symmetry. apply (flat_map_split (h j)).
Qed.

Lemma map_as_flat_map {A B : Type} (f : A -> B) (l : list A) :
  map f l = flat_map (fun x => [f x]) l.
Proof. induction l as [|x r IH]; simpl; congruence. Qed.

Section Melt.
Variable students : option (list string).

(** What the steps after the melt (dropna, student filter, final
    columns) make of a list of melted rows. *)
Let post (l : list Melted) : list (CorrectionRecord (option datetime)) :=
  map final_colums
      (filter (student_filter students)
              (filter (fun m => is_some (melted_FullName m)) l)).

Let cell_of (jc : nat * string) (r : Correction (option datetime)) : Melted :=
  mk_Melted r (snd jc) (nth (fst jc) (cor_others r) None).

Lemma post_app (a b : list Melted) : post (a ++ b) = (post a ++ post b)%list.
Proof. unfold post. now rewrite !filter_app, map_app. Qed.

Lemma post_flat_map {A : Type} (f : A -> list Melted) (l : list A) :
  post (flat_map f l) = flat_map (fun x => post (f x)) l.
Proof.
  induction l as [|x r IH]; simpl; [reflexivity|].
  now rewrite post_app, IH.
Qed.

Lemma post_of_response (cs : list (nat * string))
    (r : Correction (option datetime)) :
  post (map (fun jc => cell_of jc r) cs)
  = map (fun n => mk_CorrectionRecord (cor_SubmittedBy r) (cor_Timestamp r)
                    (Some n) (cor_Date r) (cor_Session r) (cor_Time r)
                    (cor_Action r) (cor_Grade r) (cor_Notes r))
        (filter (student_wanted students)
           (flat_map (fun jc => match nth (fst jc) (cor_others r) None with
                                | Some n => [n]
                                | None => []
                                end) cs)).
Proof.
  induction cs as [|jc cs IH]; [reflexivity|].
  change (map (fun jc0 => cell_of jc0 r) (jc :: cs))
    with ([cell_of jc r] ++ map (fun jc0 => cell_of jc0 r) cs)%list.
  rewrite post_app, IH. cbn [flat_map].
  rewrite filter_app, map_app. f_equal.
  unfold post, cell_of. cbn [filter melted_FullName].
  destruct (nth (fst jc) (cor_others r) None) as [n|]; cbn [is_some];
    [|reflexivity].
  cbn [filter]. unfold student_filter, student_wanted.
  cbn [melted_FullName].
  destruct students as [names|]; [destruct (truthy_list (Some names))|];
    try reflexivity.
  destruct (isin names n); reflexivity.
Qed.

(** The frame after the melt and its filters holds, for every response,
    one record per selected and wanted student. *)
Lemma melt_records (columns : list string)
    (rows : list (Correction (option datetime))) :
  Permutation
    (post (flat_map (fun jc => map (cell_of jc) rows)
                    (student_cols columns)))
    (flat_map (records_of_response columns students) rows).
Proof.
  rewrite post_flat_map.
  erewrite flat_map_ext.
  2:{ intros jc. rewrite map_as_flat_map, post_flat_map. reflexivity. }
  rewrite (flat_map_swap (fun jc r => post [cell_of jc r])).
  erewrite (flat_map_ext (fun r => flat_map _ (student_cols columns))).
  2:{ intros r. rewrite <- (post_flat_map (fun jc => [cell_of jc r])).
      rewrite <- map_as_flat_map. rewrite post_of_response.
      reflexivity. }
  reflexivity.
Qed.
End Melt.

Section Corrections.
Variable to_datetime : string -> option datetime.

(** The frame [get_corrections_df] returns when both datetime columns
    are readable and no column is called 'FullName' before the melt. *)
Lemma get_corrections_df_melted (frame : CorrectionsFrame)
    (students : option (list string)) (date_start date_end : datetime) :
  first_unparsed_cell to_datetime (map cor_Date (frame_rows frame)) = None ->
  first_unparsed_cell to_datetime (map cor_Time (frame_rows frame)) = None ->
  ~ In "FullName" (map (rename column_renames) (frame_columns frame)) ->
  exists final,
    get_corrections_df to_datetime frame students date_start date_end
    = inr (map display final)
    /\ Permutation final
         (flat_map (records_of_response
                      (map (rename column_renames) (frame_columns frame))
                      students)
                   (filter (in_date_range date_start date_end)
                           (map (with_datetimes to_datetime)
                                (frame_rows frame)))).
Proof.
  intros Hd Ht Hcols. unfold get_corrections_df. rewrite Hd, Ht.
  unfold melt.
  assert (Hex : existsb (String.eqb "FullName")
                  (id_cols ++ map (rename column_renames)
                                  (frame_columns frame))%list = false).
  { rewrite existsb_app. apply orb_false_iff. split; [reflexivity|].
    destruct (existsb _ _) eqn:He; [|reflexivity].
    apply existsb_exists in He. destruct He as (c & Hc & Heq).
    apply String.eqb_eq in Heq. subst c. contradiction. }
  rewrite Hex. eexists. split; [reflexivity|].
  rewrite sort_values_perm. apply melt_records.
Qed.
End Corrections.

(** The melt example of the specification: "Jane Doe" in the Grade 3
    column and an empty Grade 4 column give exactly one record, for Jane
    Doe. *)
Example get_corrections_melt_example :
  outcome (get_corrections read_iso None (Some (sept 1)) (Some (sept 30)))
          corrections_store
  = inr [ mk_CorrectionRecord
            (Some "teacher@example.org") (Some "9/5/2024 9:12:44")
            (Some "Jane Doe") (Some "09/05/2024") (Some "Morning")
            (Some "08:30") (Some "checkin") (Some "3") None ].
Proof. reflexivity. Qed.

(** ** [dataframe_to_list] *)

(** C10: [dataframe_to_list] returns as many rows as it was given, each
    with as many cells as before, and every cell is the text of the value
    it held: the empty string for [None], [str(value)] for any other
    value. *)
Theorem dataframe_to_list_cleans (data : list (list value)) :
  Forall2 (Forall2 cleaned) data (dataframe_to_list data)
  /\ List.length (dataframe_to_list data) = List.length data
  /\ map (@List.length string) (dataframe_to_list data)
     = map (@List.length value) data.
Proof.
  unfold dataframe_to_list. split; [|split].
  - induction data as [|row rows IH]; simpl; constructor; [|exact IH].
    induction row as [|v vs IHr]; simpl; constructor; [|exact IHr].
    unfold cleaned. destruct v; [left; split; reflexivity| | |];
      right; split; try discriminate; reflexivity.
  - apply length_map.
  - rewrite map_map. apply map_ext. intros row. apply length_map.
Qed.

(** A batch of checkin.py on its way to the log: a missing OverrideTime is
    written as an empty cell, a chosen one as its text. *)
Example dataframe_to_list_example :
  dataframe_to_list
    [ new_checkin_row "08:10:00" "2024-09-05" PyNone
                      "Jane Doe" "Doe" "Jane" "3";
      new_checkin_row "08:10:00" "2024-09-05" (PyTime 8 0 0)
                      "John Roe" "Roe" "John" "4" ]
  = [ ["08:10:00"; "2024-09-05"; ""; "Jane Doe"; "Doe"; "Jane"; "3"];
      ["08:10:00"; "2024-09-05"; "08:00:00"; "John Roe"; "Roe"; "John"; "4"] ].
Proof. reflexivity. Qed.

(** ** The text of a time is ordered as the time *)

(** The order [sort_values] and the theorems above use on SubmitTime is the
    order of the text.  For the text checkin.py writes,
    [strftime('%H:%M:%S')], it is the order of the times of day. *)

Lemma two_digits_compare_spec (a b : nat) :
  a < 100 -> b < 100 -> two_digits_compare a b = Nat.compare a b.
Proof.
  intros Ha Hb.
  assert (Hall : forallb (fun x => forallb (fun y =>
            match two_digits_compare x y, Nat.compare x y with
            | Eq, Eq | Lt, Lt | Gt, Gt => true
            | _, _ => false
            end) (seq 0 100)) (seq 0 100) = true) by (vm_compute; reflexivity).
  rewrite forallb_forall in Hall.
  assert (Hina : In a (seq 0 100)) by (apply in_seq; lia).
  assert (Hinb : In b (seq 0 100)) by (apply in_seq; lia).
  specialize (Hall a Hina). rewrite forallb_forall in Hall.
  specialize (Hall b Hinb).
  destruct (two_digits_compare a b), (Nat.compare a b);
    try reflexivity; discriminate.
Qed.

Lemma two_digits_order (a b : nat) (r1 r2 : string) :
  a < 100 -> b < 100 ->
  String.compare (two_digits a r1) (two_digits b r2)
  = match Nat.compare a b with
    | Eq => String.compare r1 r2
    | c => c
    end.
Proof.
  intros Ha Hb. rewrite <- (two_digits_compare_spec a b Ha Hb).
  unfold two_digits, two_digits_compare. cbn [String.compare].
  destruct (Ascii.compare (digit (a / 10)) (digit (b / 10)));
    reflexivity.
Qed.

(** X11: for times of day within their bounds, the texts
    [strftime('%H:%M:%S')] writes compare as the times of day compare. *)
Lemma strftime_HMS_order (t1 t2 : datetime) :
  hour t1 < 24 -> minute t1 < 60 -> second t1 < 60 ->
  hour t2 < 24 -> minute t2 < 60 -> second t2 < 60 ->
  String.leb (strftime_HMS t1) (strftime_HMS t2)
  = match nats_compare [hour t1; minute t1; second t1]
                       [hour t2; minute t2; second t2] with
    | Gt => false
    | _ => true
    end.
Proof.
  intros. unfold String.leb, strftime_HMS.
  rewrite two_digits_order by lia. cbn [nats_compare].
  destruct (Nat.compare (hour t1) (hour t2)); try reflexivity.
  cbn [String.compare]. change (Ascii.compare ":" ":") with Eq. cbn iota.
  rewrite two_digits_order by lia.
  destruct (Nat.compare (minute t1) (minute t2)); try reflexivity.
  cbn [String.compare]. change (Ascii.compare ":" ":") with Eq. cbn iota.
  rewrite two_digits_order by lia.
  destruct (Nat.compare (second t1) (second t2)); reflexivity.
Qed.

(** * Further properties of the code *)

(** ** [get_students]: periods, unreadable times, calls without a date *)

Section GetStudentsMore.
Variable to_datetime : string -> option datetime.

(** Every returned row is a row of the date, in the period. *)
Lemma get_students_df_rows (df : list Event) (p : TimePeriod)
    (date : option string) (out : list Event) :
  get_students_df to_datetime df p date = inr out ->
  forall e, In e out ->
    In e (rows_of_date date df) /\ in_period to_datetime p e = true.
Proof.
  intros Hout e He.
  destruct (get_students_df_parsed to_datetime df p date out Hout)
    as (_ & Heq).
  rewrite Heq in He. unfold drop_duplicates_first in He.
  apply (drop_from_In _ _ cells_eqb_eq) in He. destruct He as [He _].
  apply sort_values_In in He. now apply filter_In in He.
Qed.

(** Every row of the date in the period is represented by a returned row
    of its (FullName, SubmitDate), whose SubmitTime is not later. *)
Lemma get_students_df_kept (df : list Event) (p : TimePeriod)
    (date : option string) (out : list Event) :
  get_students_df to_datetime df p date = inr out ->
  forall e, In e (rows_of_date date df) ->
    in_period to_datetime p e = true ->
    exists kept, In kept out
      /\ FullName kept = FullName e /\ SubmitDate kept = SubmitDate e
      /\ String.leb (SubmitTime kept) (SubmitTime e) = true.
Proof.
  intros Hout e He Hp.
  destruct (get_students_df_parsed to_datetime df p date out Hout)
    as (_ & Heq).
  destruct (drop_from_first cells_eqb subset_FullName_SubmitDate
              cells_eqb_eq (fun a b => by_SubmitTime a b = true) []
              (sort_values by_SubmitTime
                 (filter (in_period to_datetime p) (rows_of_date date df))))
    with (x := e) as (kept & Hk & Hkey & Hor).
  - apply sort_values_sorted;
      [apply by_SubmitTime_total|apply by_SubmitTime_trans].
  - apply sort_values_In. apply filter_In. split; assumption.
  - simpl. tauto.
  - exists kept. rewrite Heq. split; [exact Hk|].
    unfold subset_FullName_SubmitDate in Hkey.
    injection Hkey as Hn Hsd. repeat split; try assumption.
    destruct Hor as [->|Hle]; [apply string_leb_refl|exact Hle].
Qed.

Lemma get_students_df_keys (df : list Event) (p : TimePeriod)
    (date : option string) (out : list Event) :
  get_students_df to_datetime df p date = inr out ->
  NoDup (map (fun e => (FullName e, SubmitDate e)) out).
Proof.
  intros Hout.
  destruct (get_students_df_parsed to_datetime df p date out Hout)
    as (_ & Heq).
  pose proof (drop_from_NoDup cells_eqb subset_FullName_SubmitDate
                cells_eqb_eq []
                (sort_values by_SubmitTime
                   (filter (in_period to_datetime p) (rows_of_date date df))))
    as Hnd.
  unfold drop_duplicates_first in Heq. rewrite <- Heq in Hnd. clear - Hnd.
  induction out as [|a r IH]; simpl in *; [constructor|].
  inversion Hnd as [|k ks Hnotin Hnd']; subst.
  constructor; [|now apply IH].
  intros Hin. apply Hnotin.
  apply in_map_iff in Hin. destruct Hin as (y & Hy & Hiny).
  apply in_map_iff. exists y. split; [|exact Hiny].
  unfold subset_FullName_SubmitDate. congruence.
Qed.

(** A read SubmitTime is in exactly one of the two periods. *)
Lemma in_period_exclusive (e : Event) :
  to_datetime (SubmitTime e) <> None ->
  in_period to_datetime MORNING e = negb (in_period to_datetime AFTERNOON e).
Proof.
  unfold in_period. destruct (to_datetime (SubmitTime e)) as [t|];
    [intros _|congruence].
  cbn [period_mask].
  destruct (Nat.ltb_spec (hour t) 9), (Nat.leb_spec 9 (hour t));
    try reflexivity; lia.
Qed.

End GetStudentsMore.

(** X1: when the MORNING and the AFTERNOON calls of [get_students] return
    for the same log and date, no row is in both results, and every row of
    the log that passes the date filter is represented, by a row of its
    (FullName, SubmitDate) that is not later, in one of the two. *)
Theorem get_students_periods_partition
    (to_datetime : string -> option datetime) (df : list Event)
    (date : option string) (morning afternoon : list Event) :
  get_students_df to_datetime df MORNING date = inr morning ->
  get_students_df to_datetime df AFTERNOON date = inr afternoon ->
  (forall e, In e morning -> ~ In e afternoon)
  /\ (forall e, In e df ->
        (truthy_str date = true -> Some (SubmitDate e) = date) ->
        exists kept, (In kept morning \/ In kept afternoon)
          /\ FullName kept = FullName e /\ SubmitDate kept = SubmitDate e
          /\ String.leb (SubmitTime kept) (SubmitTime e) = true).
Proof.
  intros Hm Ha. split.
  - intros e Hem Hea.
    apply (get_students_df_rows to_datetime _ _ _ _ Hm) in Hem.
    apply (get_students_df_rows to_datetime _ _ _ _ Ha) in Hea.
    destruct Hem as [_ Hpm], Hea as [_ Hpa].
    rewrite in_period_exclusive in Hpm
      by (now apply (in_period_parsed to_datetime AFTERNOON)).
    rewrite Hpa in Hpm. discriminate.
  - intros e He Hd.
    assert (Hrow : In e (rows_of_date date df))
      by (apply rows_of_date_In; tauto).
    destruct (get_students_df_parsed to_datetime df MORNING date morning Hm)
      as (Hnone & _).
    assert (Hread : to_datetime (SubmitTime e) <> None).
    { rewrite first_unparsed_None in Hnone. apply Hnone.
      now apply in_map. }
    destruct (in_period to_datetime AFTERNOON e) eqn:Hpa.
    + destruct (get_students_df_kept to_datetime _ _ _ _ Ha e Hrow Hpa)
        as (kept & Hk & Hrest).
      exists kept. tauto.
    + assert (Hpm : in_period to_datetime MORNING e = true)
        by (rewrite in_period_exclusive, Hpa by exact Hread; reflexivity).
      destruct (get_students_df_kept to_datetime _ _ _ _ Hm e Hrow Hpm)
        as (kept & Hk & Hrest).
      exists kept. tauto.
Qed.

Lemma get_students_periods_partition_witness :
  exists kept, (In kept [jane "08:10:00"] \/ In kept [])
    /\ FullName kept = "Jane Doe" /\ SubmitDate kept = "2024-09-05"
    /\ String.leb (SubmitTime kept) "08:45:00" = true.
Proof.
  apply (proj2 (get_students_periods_partition read_iso two_checkins
                  (Some "2024-09-05") [jane "08:10:00"] []
                  eq_refl eq_refl) (jane "08:45:00")).
  - simpl. tauto.
  - reflexivity.
Defined.

(** X3: called without a date ([None], or the empty string, which Python
    takes as false), [get_students] filters no date: over a log whose
    SubmitTime cells can all be read it keeps one row for each
    (FullName, SubmitDate) of the period, across all dates, and that row is
    not later than any row of the period it represents. *)
Theorem get_students_without_date
    (to_datetime : string -> option datetime) (df : list Event)
    (time_period : TimePeriod) (date : option string) :
  date = None \/ date = Some EmptyString ->
  (forall e, In e df -> to_datetime (SubmitTime e) <> None) ->
  exists out,
    get_students_df to_datetime df time_period date = inr out
    /\ (forall e, In e out ->
          In e df /\ in_period to_datetime time_period e = true)
    /\ NoDup (map (fun e => (FullName e, SubmitDate e)) out)
    /\ (forall e, In e df -> in_period to_datetime time_period e = true ->
          exists kept, In kept out
            /\ FullName kept = FullName e /\ SubmitDate kept = SubmitDate e
            /\ String.leb (SubmitTime kept) (SubmitTime e) = true).
Proof.
  intros Hdate Hread.
  assert (Hrows : rows_of_date date df = df)
    by (destruct Hdate as [->| ->]; reflexivity).
  destruct (get_students_df_total to_datetime df time_period date)
    as [out Hout].
  { intros e He _. now apply Hread. }
  exists out. split; [exact Hout|]. split; [|split].
  - intros e He.
    apply (get_students_df_rows to_datetime _ _ _ _ Hout) in He.
    now rewrite Hrows in He.
  - now apply (get_students_df_keys to_datetime df time_period date).
  - intros e He Hp.
    apply (get_students_df_kept to_datetime _ _ _ _ Hout); [|exact Hp].
    now rewrite Hrows.
Qed.

Lemma get_students_without_date_witness :
  exists out,
    get_students_df read_iso (two_checkins ++ [mixed_dates_row])%list
                    MORNING None = inr out
    /\ NoDup (map (fun e => (FullName e, SubmitDate e)) out).
Proof.
  destruct (get_students_without_date read_iso
              (two_checkins ++ [mixed_dates_row])%list MORNING None)
    as (out & Hout & _ & Hnd & _).
  - now left.
  - intros e [<-|[<-|[<-|[]]]]; vm_compute; discriminate.
  - exists out. split; assumption.
Defined.

(** ** [get_attendance]: what the timeline holds, its order, its range *)

Lemma drop_last_sorted {A K : Type} (key_eqb : K -> K -> bool)
    (key : A -> K) (R : A -> A -> Prop) (l : list A) :
  StronglySorted R l ->
  StronglySorted R (drop_duplicates_last key_eqb key l).
Proof.
  induction 1 as [|a r Hr IH Ha]; simpl; [constructor|].
  destruct (key_mem key_eqb (key a) (map key r)); [exact IH|].
  constructor; [exact IH|].
  rewrite Forall_forall in *. intros y Hy. apply Ha.
  clear - Hy. induction r as [|b r IHr]; simpl in *; [exact Hy|].
  destruct (key_mem key_eqb (key b) (map key r)); simpl in *; tauto.
Qed.

(** X4: without [drop_duplicates], [get_attendance]'s frame holds exactly
    the rows of the two logs whose SubmitDate text lies between the texts
    of the two dates and whose FullName is wanted, each once per occurrence
    and tagged with the log it comes from; an empty [students] list asks
    for everyone, as an omitted one does. *)
Theorem get_attendance_timeline_rows (df_checkins df_checkouts : list Event)
    (students : option (list string)) (date_start date_end : datetime) :
  Permutation
    (get_attendance_df df_checkins df_checkouts students date_start date_end
                       false)
    (map order_of_columns
       (filter (fun r => in_text_range date_start date_end (fst r)
                         && match students with
                            | Some (n :: names) =>
                                isin (n :: names) (FullName (fst r))
                            | _ => true
                            end)
               (tagged_logs df_checkins df_checkouts)))
  /\ (forall r,
        In r (get_attendance_df df_checkins df_checkouts students
                                date_start date_end false)
        <-> exists e,
              ((In e df_checkins /\ r = order_of_columns (e, "checkin"))
               \/ (In e df_checkouts /\ r = order_of_columns (e, "checkout")))
              /\ in_text_range date_start date_end e = true
              /\ match students with
                 | Some (n :: names) => In (FullName e) (n :: names)
                 | _ => True
                 end).
Proof.
  split; [|intros r; apply get_attendance_df_In].
  rewrite get_attendance_df_eq, get_attendance_filters.
  apply Permutation_map. apply sort_values_perm.
Qed.

(** X5: with or without [drop_duplicates], the frame [get_attendance]
    returns is in ascending order of (LastName, FirstName, SubmitDate,
    SubmitTime): every row is at or before each row that follows it. *)
Theorem get_attendance_sorted (df_checkins df_checkouts : list Event)
    (students : option (list string)) (date_start date_end : datetime)
    (drop_duplicates : bool) :
  StronglySorted
    (fun a b =>
       cells_leb [att_LastName a; att_FirstName a; att_SubmitDate a;
                  att_SubmitTime a]
                 [att_LastName b; att_FirstName b; att_SubmitDate b;
                  att_SubmitTime b] = true)
    (get_attendance_df df_checkins df_checkouts students date_start date_end
                       drop_duplicates).
Proof.
  destruct drop_duplicates.
  - rewrite get_attendance_df_drop. apply drop_last_sorted.
    apply get_attendance_df_sorted.
  - apply get_attendance_df_sorted.
Qed.

(** *** The text of a date is ordered as the date *)

Lemma four_digits_as_two (n : nat) (rest : string) :
  n < 100 * 100 ->
  four_digits n rest = two_digits (n / 100) (two_digits (n mod 100) rest).
Proof.
  intros Hn.
  assert (Hall : forallb (fun x =>
            Ascii.eqb (digit (x / 1000)) (digit (x / 100 / 10))
            && Ascii.eqb (digit (x / 10)) (digit (x mod 100 / 10))
            && Ascii.eqb (digit x) (digit (x mod 100)))
            (seq 0 (100 * 100)) = true) by (vm_compute; reflexivity).
  rewrite forallb_forall in Hall.
  assert (Hin : In n (seq 0 (100 * 100))) by (apply in_seq; lia).
  specialize (Hall n Hin).
  apply andb_true_iff in Hall. destruct Hall as [Hall H3].
  apply andb_true_iff in Hall. destruct Hall as [H1 H2].
  apply Ascii.eqb_eq in H1, H2, H3.
  unfold four_digits, two_digits. now rewrite H1, H2, H3.
Qed.

Lemma compare_by_hundreds (a b : nat) (k : comparison) :
  match Nat.compare (a / 100) (b / 100) with
  | Eq => match Nat.compare (a mod 100) (b mod 100) with
          | Eq => k
          | c => c
          end
  | c => c
  end
  = match Nat.compare a b with
    | Eq => k
    | c => c
    end.
Proof.
  pose proof (Nat.div_mod_eq a 100) as Ha.
  pose proof (Nat.div_mod_eq b 100) as Hb.
  pose proof (Nat.mod_upper_bound a 100 ltac:(discriminate)) as Hra.
  pose proof (Nat.mod_upper_bound b 100 ltac:(discriminate)) as Hrb.
  revert Ha Hb Hra Hrb.
  generalize (a / 100) (b / 100) (a mod 100) (b mod 100).
  intros qa qb ra rb Ha Hb Hra Hrb.
  destruct (Nat.compare_spec qa qb), (Nat.compare_spec ra rb),
    (Nat.compare_spec a b); try reflexivity; lia.
Qed.

Lemma year_text_four_digits (y : nat) (rest : string) :
  1000 <= y -> year_text y rest = four_digits y rest.
Proof.
  intros Hy. unfold year_text.
  destruct (Nat.ltb_spec y 10); [lia|].
  destruct (Nat.ltb_spec y 100); [lia|].
  destruct (Nat.ltb_spec y 1000); [lia|reflexivity].
Qed.

Lemma strftime_Ymd_compare (a b : datetime) :
  four_digit_year a -> four_digit_year b ->
  String.compare (strftime_Ymd a) (strftime_Ymd b)
  = nats_compare (calendar_day a) (calendar_day b).
Proof.
  intros ([Hya' Hya] & Hma & Hda) ([Hyb' Hyb] & Hmb & Hdb).
  unfold strftime_Ymd, calendar_day. cbn [nats_compare].
  rewrite !year_text_four_digits by assumption.
  rewrite !four_digits_as_two by assumption.
  assert (year a / 100 < 100) by (apply Nat.Div0.div_lt_upper_bound; lia).
  assert (year b / 100 < 100) by (apply Nat.Div0.div_lt_upper_bound; lia).
  assert (year a mod 100 < 100) by (apply Nat.mod_upper_bound; discriminate).
  assert (year b mod 100 < 100) by (apply Nat.mod_upper_bound; discriminate).
  rewrite two_digits_order by assumption.
  rewrite two_digits_order by assumption.
  rewrite compare_by_hundreds.
  destruct (Nat.compare (year a) (year b)); try reflexivity.
  cbn [String.compare]. change (Ascii.compare "-" "-") with Eq. cbn iota.
  rewrite two_digits_order by assumption.
  destruct (Nat.compare (month a) (month b)); try reflexivity.
  cbn [String.compare]. change (Ascii.compare "-" "-") with Eq. cbn iota.
  rewrite two_digits_order by assumption.
  destruct (Nat.compare (day a) (day b)); reflexivity.
Qed.

(** X6: the date filter of [get_attendance] compares texts, yet for years
    of four digits (1000 to 9999; strftime writes an earlier year with
    fewer digits) it selects by calendar day and includes both ends: a
    wanted check-in row whose SubmitDate is the text of a day is in the
    timeline exactly when that day is on or after the day of [date_start]
    and on or before the day of [date_end], whatever the times of day of
    the two dates. *)
Theorem get_attendance_range_by_day (df_checkins df_checkouts : list Event)
    (students : option (list string)) (date_start date_end on : datetime)
    (e : Event) :
  four_digit_year date_start -> four_digit_year date_end ->
  four_digit_year on ->
  In e df_checkins -> SubmitDate e = strftime_Ymd on ->
  match students with
  | Some (n :: names) => In (FullName e) (n :: names)
  | _ => True
  end ->
  (In (order_of_columns (e, "checkin"))
      (get_attendance_df df_checkins df_checkouts students
                         date_start date_end false)
   <-> nats_compare (calendar_day date_start) (calendar_day on) <> Gt
       /\ nats_compare (calendar_day on) (calendar_day date_end) <> Gt).
Proof.
  intros Hs He Ho Hin Hdate Hwanted.
  assert (Hrange : in_text_range date_start date_end e = true
                   <-> nats_compare (calendar_day date_start)
                                    (calendar_day on) <> Gt
                       /\ nats_compare (calendar_day on)
                                       (calendar_day date_end) <> Gt).
  { unfold in_text_range, String.leb. rewrite Hdate.
    rewrite !strftime_Ymd_compare by assumption.
    rewrite andb_true_iff.
    destruct (nats_compare (calendar_day date_start) (calendar_day on)),
      (nats_compare (calendar_day on) (calendar_day date_end));
      split; intros [H1 H2]; split; congruence. }
  rewrite <- Hrange, get_attendance_df_In. split.
  - intros (e' & Hlog & Hr & _).
    assert (Hsame : SubmitDate e' = SubmitDate e).
    { destruct Hlog as [[_ Heq]|[_ Heq]];
        apply (f_equal att_SubmitDate) in Heq; simpl in Heq; congruence. }
    unfold in_text_range in *. now rewrite <- Hsame.
  - intros Hr. exists e. tauto.
Qed.

Lemma get_attendance_range_by_day_witness :
  In (order_of_columns (jane "08:45:00", "checkin"))
     (get_attendance_df two_checkins [] None
        (mk_datetime 2024 9 5 23 59 0 0) (mk_datetime 2024 9 5 23 59 0 0)
        false).
Proof.
  apply (get_attendance_range_by_day two_checkins [] None
           (mk_datetime 2024 9 5 23 59 0 0) (mk_datetime 2024 9 5 23 59 0 0)
           (sept 5) (jane "08:45:00")).
  - unfold four_digit_year. simpl. lia.
  - unfold four_digit_year. simpl. lia.
  - unfold four_digit_year. simpl. lia.
  - simpl. tauto.
  - reflexivity.
  - exact I.
  - split; discriminate.
Defined.

(** ** [get_corrections]: order, filters, failures, defaults *)

Section CompareFacts.
Context {A : Type}.
Variable cmp : A -> A -> comparison.
Hypothesis cmp_ok : compare_ok cmp.

Lemma compare_ok_total (a b : A) : cmp a b <> Gt \/ cmp b a <> Gt.
Proof.
  destruct cmp_ok as (_ & Hsym & _). rewrite (Hsym a b).
  destruct (cmp b a); simpl; [left|right|left]; discriminate.
Qed.

Lemma compare_ok_le_trans (a b c : A) :
  cmp a b <> Gt -> cmp b c <> Gt -> cmp a c <> Gt.
Proof.
  destruct cmp_ok as (Heq & _ & Hlt). intros Hab Hbc.
  destruct (cmp a b) eqn:Eab; [|clear Hab|congruence].
  - apply Heq in Eab. now subst.
  - destruct (cmp b c) eqn:Ebc; [| |congruence].
    + apply Heq in Ebc. subst. congruence.
    + rewrite (Hlt a b c Eab Ebc). discriminate.
Qed.

Lemma option_compare_ok : compare_ok (option_compare cmp).
Proof.
  destruct cmp_ok as (Heq & Hsym & Hlt). split; [|split].
  - intros [a|] [b|]; simpl; try (split; [discriminate|congruence]);
      [|tauto].
    rewrite Heq. split; congruence.
  - intros [a|] [b|]; simpl; try reflexivity. apply Hsym.
  - intros [a|] [b|] [c|]; simpl; try congruence. apply Hlt.
Qed.
End CompareFacts.

Lemma pair_compare_ok {A B : Type} (cmpA : A -> A -> comparison)
    (cmpB : B -> B -> comparison) :
  compare_ok cmpA -> compare_ok cmpB ->
  compare_ok (pair_compare cmpA cmpB).
Proof.
  intros (HeqA & HsymA & HltA) (HeqB & HsymB & HltB).
  unfold pair_compare. split; [|split].
  - intros [a b] [a' b']; cbn [fst snd]. split.
    + destruct (cmpA a a') eqn:Ea; simpl; try discriminate.
      intros Eb. apply HeqA in Ea. apply HeqB in Eb. congruence.
    + intros [= -> ->].
      rewrite (proj2 (HeqA a' a') eq_refl). simpl. now apply HeqB.
  - intros [a b] [a' b']; cbn [fst snd].
    rewrite (HsymA a a'), (HsymB b b').
    destruct (cmpA a' a); reflexivity.
  - intros [a b] [a' b'] [a'' b'']; cbn [fst snd].
    destruct (cmpA a a') eqn:E1; simpl; try discriminate;
      destruct (cmpA a' a'') eqn:E2; simpl; try discriminate.
    + apply HeqA in E1, E2. subst.
      rewrite (proj2 (HeqA a'' a'') eq_refl). simpl. apply HltB.
    + apply HeqA in E1. subst. now rewrite E2.
    + apply HeqA in E2. subst. now rewrite E1.
    + now rewrite (HltA a a' a'' E1 E2).
Qed.

Lemma string_compare_ok : compare_ok String.compare.
Proof.
  split; [|split].
  - intros a b. split; [apply String.compare_eq_iff|].
    intros ->. apply string_compare_refl.
  - apply String.compare_antisym.
  - apply string_compare_lt_trans.
Qed.

Lemma nats_compare_ok : compare_ok nats_compare.
Proof.
  split; [|split].
  - intros a. induction a as [|x a IH]; intros [|y b]; simpl;
      try (split; [discriminate|congruence]); [tauto|].
    destruct (Nat.compare_spec x y); try (split; [discriminate|]).
    + subst. rewrite IH. split; congruence.
    + intros [= -> _]. lia.
    + intros [= -> _]. lia.
  - intros a. induction a as [|x a IH]; intros [|y b]; simpl;
      try reflexivity.
    rewrite (Nat.compare_antisym y x). rewrite (IH b).
    destruct (Nat.compare y x); reflexivity.
  - intros a. induction a as [|x a IH]; intros [|y b] [|z c]; simpl;
      try congruence.
    destruct (Nat.compare_spec x y), (Nat.compare_spec y z),
      (Nat.compare_spec x z); try congruence; try lia.
    apply IH.
Qed.

Lemma datetime_compare_ok : compare_ok datetime_compare.
Proof.
  destruct nats_compare_ok as (Heq & Hsym & Hlt).
  unfold datetime_compare. split; [|split].
  - intros a b. rewrite Heq. split; [|congruence].
    destruct a, b. unfold datetime_fields. simpl. congruence.
  - intros a b. apply Hsym.
  - intros a b c. apply Hlt.
Qed.

Lemma correction_by_compare_ok : compare_ok correction_by_compare.
Proof.
  unfold correction_by_compare.
  repeat apply pair_compare_ok; apply option_compare_ok;
    (apply datetime_compare_ok || apply string_compare_ok).
Qed.

Lemma by_Date_FullName_Session_Time_eq
    (a b : CorrectionRecord (option datetime)) :
  by_Date_FullName_Session_Time a b
  = match correction_by_compare (correction_by a) (correction_by b) with
    | Gt => false
    | _ => true
    end.
Proof. reflexivity. Qed.

Lemma by_Date_FullName_Session_Time_total
    (a b : CorrectionRecord (option datetime)) :
  by_Date_FullName_Session_Time a b = true
  \/ by_Date_FullName_Session_Time b a = true.
Proof.
  rewrite !by_Date_FullName_Session_Time_eq.
  destruct (compare_ok_total _ correction_by_compare_ok
              (correction_by a) (correction_by b)) as [H|H];
    [left|right];
    destruct (correction_by_compare _ _); congruence.
Qed.

Lemma by_Date_FullName_Session_Time_trans
    (a b c : CorrectionRecord (option datetime)) :
  by_Date_FullName_Session_Time a b = true ->
  by_Date_FullName_Session_Time b c = true ->
  by_Date_FullName_Session_Time a c = true.
Proof.
  rewrite !by_Date_FullName_Session_Time_eq. intros Hab Hbc.
  pose proof (compare_ok_le_trans _ correction_by_compare_ok
                (correction_by a) (correction_by b) (correction_by c)) as H.
  destruct (correction_by_compare (correction_by a) (correction_by b));
    try discriminate;
    destruct (correction_by_compare (correction_by b) (correction_by c));
    try discriminate;
    destruct (correction_by_compare (correction_by a) (correction_by c));
    try reflexivity; exfalso; apply H; congruence.
Qed.

Section CorrectionsMore.
Variable to_datetime : string -> option datetime.

Lemma melt_refuses (columns : list string)
    (df : list (Correction (option datetime))) :
  (exists e, melt columns df = inl e) <-> In "FullName" columns.
Proof.
  unfold melt. rewrite existsb_app.
  change (existsb (String.eqb "FullName") id_cols) with false.
  cbn [orb]. destruct (existsb (String.eqb "FullName") columns) eqn:He.
  - split; [intros _|eauto].
    apply existsb_exists in He. destruct He as (c & Hc & Heq).
    apply String.eqb_eq in Heq. now subst.
  - split; [intros [e He']; discriminate|].
    intros Hin. exfalso.
    assert (existsb (String.eqb "FullName") columns = true).
    { apply existsb_exists. exists "FullName".
      split; [exact Hin|apply String.eqb_refl]. }
    congruence.
Qed.

(** What a returned frame is made of. *)
Lemma get_corrections_df_inv (frame : CorrectionsFrame)
    (students : option (list string)) (date_start date_end : datetime)
    (out : list (CorrectionRecord cell)) :
  get_corrections_df to_datetime frame students date_start date_end
  = inr out ->
  first_unparsed_cell to_datetime (map cor_Date (frame_rows frame)) = None
  /\ first_unparsed_cell to_datetime (map cor_Time (frame_rows frame)) = None
  /\ ~ In "FullName" (map (rename column_renames) (frame_columns frame)).
Proof.
  unfold get_corrections_df. intros H.
  destruct (first_unparsed_cell to_datetime
              (map cor_Date (frame_rows frame))); [discriminate|].
  destruct (first_unparsed_cell to_datetime
              (map cor_Time (frame_rows frame))); [discriminate|].
  split; [reflexivity|]. split; [reflexivity|].
  intros Hin.
  match type of H with
  | context [melt ?c ?d] =>
      destruct (proj2 (melt_refuses c d) Hin) as [e He]; rewrite He in H
  end.
  discriminate.
Qed.

End CorrectionsMore.

(** C7 (correction melt), on the sheet as it is documented: helpers.py,
    line 351, renames the sheet's 'StudentName' column to 'FullName', and
    line 395 asks the melt for a new column of that same name, which pandas
    (2.0 and later) refuses.  So for the response that chooses Jane Doe in
    the Grade 3 column and leaves the Grade 4 column empty no record comes
    back: the call ends in the ValueError of the melt; and on any sheet
    with a 'StudentName' column, whatever the arguments and the clock,
    [get_corrections] returns no frame at all. *)
Theorem get_corrections_StudentName_clash :
  outcome (get_corrections read_iso None (Some (sept 1)) (Some (sept 30)))
          documented_store
  = inl (ValueError
      "value_name (FullName) cannot match an element in the DataFrame columns.")
  /\ (forall (to_datetime : string -> option datetime)
             (students : option (list string))
             (date_start date_end : option datetime) (s : Store)
             (out : list (CorrectionRecord cell)),
        In "StudentName" (other_columns (sheet_corrections s)) ->
        outcome (get_corrections to_datetime students date_start date_end) s
        <> inr out).
Proof.
  split; [reflexivity|].
  intros to_datetime students date_start date_end s out Hcol.
  assert (Hclash : In "FullName"
            (map (rename column_renames)
                 (frame_columns (corrections_frame s)))).
  { apply in_map_iff. exists "StudentName". split; [reflexivity|exact Hcol]. }
  assert (Hdf : forall d1 d2,
            get_corrections_df to_datetime (corrections_frame s) students
                               d1 d2 <> inr out).
  { intros d1 d2 Hout.
    now destruct (get_corrections_df_inv to_datetime _ _ _ _ _ Hout)
      as (_ & _ & Hno). }
  unfold outcome, get_corrections, bind, ret, lift, raise, today,
    read_corrections, log_read.
  destruct date_start as [d1|], date_end as [d2|]; cbn [fst];
    repeat match goal with
           | |- context [add_one_day ?d] => destruct (add_one_day d)
           | |- context [datetime_ltb ?a ?b] => destruct (datetime_ltb a b)
           end; cbn [fst]; try discriminate; apply Hdf.
Qed.

(** ** Empty logs *)

(** C8 (empty-input safety), for the corrections: on the documented sheet,
    with its 'StudentName' column, and no response at all, [get_corrections]
    over a valid range does not return the empty frame; it ends in the
    ValueError of the melt of line 391, whatever the reader, the students
    and the range, after reading the sheet once. *)
Theorem get_corrections_empty_sheet_raises
    (to_datetime : string -> option datetime)
    (students : option (list string)) (date_start date_end now : datetime) :
  datetime_ltb date_end date_start = false ->
  get_corrections to_datetime students (Some date_start) (Some date_end)
                  (empty_store documented_columns now)
  = (inl (ValueError
       "value_name (FullName) cannot match an element in the DataFrame columns."),
     after_read form_responses (empty_store documented_columns now)).
Proof.
  intros Hrange. now rewrite get_corrections_run by exact Hrange.
Qed.

Lemma get_corrections_empty_sheet_raises_witness :
  outcome (get_corrections read_iso None (Some (sept 1)) (Some (sept 5)))
          (empty_store documented_columns (sept 5))
  = inl (ValueError
      "value_name (FullName) cannot match an element in the DataFrame columns.").
Proof.
  unfold outcome.
  rewrite (get_corrections_empty_sheet_raises read_iso None (sept 1) (sept 5)
             (sept 5) eq_refl).
  reflexivity.
Defined.

(** *** Reading the columns one cell at a time *)

Lemma set_Date_Time_cells (to_datetime : string -> option datetime)
    (rows : list (Correction cell)) :
  set_Date_Time rows
    (map (to_datetime_cell to_datetime) (map cor_Date rows))
    (map (to_datetime_cell to_datetime) (map cor_Time rows))
  = map (with_datetimes to_datetime) rows.
Proof.
  induction rows as [|r rows IH]; [reflexivity|].
  cbn [set_Date_Time map hd tl]. now rewrite IH.
Qed.

Lemma get_corrections_df_cell_by_cell
    (to_datetime : string -> option datetime) (frame : CorrectionsFrame)
    (students : option (list string)) (date_start date_end : datetime) :
  get_corrections_df to_datetime frame students date_start date_end
  = get_corrections_df_by (cell_by_cell to_datetime) frame students
                          date_start date_end.
Proof.
  unfold get_corrections_df, get_corrections_df_by, cell_by_cell.
  destruct (first_unparsed_cell to_datetime
              (map cor_Date (frame_rows frame))); [reflexivity|].
  destruct (first_unparsed_cell to_datetime
              (map cor_Time (frame_rows frame))); [reflexivity|].
  now rewrite set_Date_Time_cells.
Qed.

(** *** The selector columns *)

Lemma contains_substring (sub s : string) :
  sub <> EmptyString ->
  contains sub s = true
  <-> exists m, String.substring m (String.length sub) s = sub.
Proof.
  intros Hsub. induction s as [|c rest IH].
  - cbn [contains]. rewrite orb_false_r. split.
    + intros H. apply String.prefix_correct in H. now exists 0.
    + intros [m Hm]. destruct m, sub; simpl in Hm; congruence.
  - cbn [contains]. rewrite orb_true_iff, IH, String.prefix_correct. split.
    + intros [H|[m Hm]]; [now exists 0|]. exists (S m). exact Hm.
    + intros [[|m] Hm]; [now left|]. right. exists m. exact Hm.
Qed.

Lemma is_selector_contains (header : string) :
  contains "Choose Student (Grade" header = is_selector header.
Proof.
  apply eq_true_iff_eq. rewrite contains_substring by discriminate.
  unfold is_selector.
  destruct (String.index 0 "Choose Student (Grade" header) as [m|] eqn:Hi.
  - split; [reflexivity|]. intros _. exists m.
    now apply String.index_correct1 in Hi.
  - split; [|discriminate]. intros [m Hm]. exfalso.
    apply (String.index_correct3 0 m _ _ Hi); [discriminate|lia|exact Hm].
Qed.

Lemma is_selector_rename (header : string) :
  is_selector (rename column_renames header) = is_selector header.
Proof.
  unfold rename, column_renames. cbn [find fst snd].
  repeat match goal with
         | |- context [String.eqb ?a header] =>
             destruct (String.eqb_spec a header); [subst; reflexivity|]
         end.
  reflexivity.
Qed.

Lemma combine_seq {A : Type} (d : A) (l : list A) :
  combine (seq 0 (List.length l)) l
  = map (fun j => (j, nth j l d)) (seq 0 (List.length l)).
Proof.
  apply (nth_ext _ _ (0, d) (0, d)).
  - now rewrite length_combine, length_map, length_seq, Nat.min_id.
  - intros n Hn.
    rewrite length_combine, length_seq, Nat.min_id in Hn.
    rewrite combine_nth by apply length_seq.
    rewrite (nth_indep (map _ _) (0, d) ((fun j => (j, nth j l d)) 0))
      by (now rewrite length_map, length_seq).
    rewrite (map_nth (fun j => (j, nth j l d))).
    now rewrite seq_nth.
Qed.

Lemma flat_map_filter_map {A B C : Type} (f : B -> list C) (p : B -> bool)
    (h : A -> B) (l : list A) :
  flat_map f (filter p (map h l))
  = flat_map (fun a => if p (h a) then f (h a) else []) l.
Proof.
  induction l as [|a l IH]; [reflexivity|].
  cbn [map filter flat_map]. destruct (p (h a)); cbn [flat_map app];
    now rewrite IH.
Qed.

(** The students the code melts for a response are the students the
    response chose on the sheet. *)
Lemma selected_students_chosen {T : Type} (headers : list string)
    (raw : RawCorrection) (r : Correction T) :
  cor_others r = map read_cell (raw_others raw) ->
  selected_students (map (rename column_renames) headers) r
  = chosen_students headers raw.
Proof.
  intros Hcells. unfold selected_students, chosen_students, student_cols.
  rewrite (combine_seq EmptyString), flat_map_filter_map.
  rewrite length_map. apply flat_map_ext. intros j. cbn [fst snd].
  rewrite is_selector_contains.
  change EmptyString with (rename column_renames EmptyString) at 1.
  rewrite map_nth, is_selector_rename.
  destruct (is_selector (nth j headers EmptyString)); [|reflexivity].
  rewrite Hcells.
  change (@None string) with (read_cell EmptyString).
  rewrite map_nth.
  now destruct (nth j (raw_others raw) EmptyString).
Qed.

(** *** The frame [get_corrections] returns, over a reader of columns *)

(** What a returned frame is made of: the two columns were read, no column
    is called 'FullName' once renamed, and the frame is the display form of
    a sorted frame that holds the records of the responses in the range. *)
Lemma get_corrections_df_by_final
    (to_datetime : list cell -> result (list (option datetime)))
    (frame : CorrectionsFrame) (students : option (list string))
    (date_start date_end : datetime) (out : list (CorrectionRecord cell)) :
  get_corrections_df_by to_datetime frame students date_start date_end
  = inr out ->
  exists dates times final,
    to_datetime (map cor_Date (frame_rows frame)) = inr dates
    /\ to_datetime (map cor_Time (frame_rows frame)) = inr times
    /\ ~ In "FullName" (map (rename column_renames) (frame_columns frame))
    /\ out = map display final
    /\ StronglySorted
         (fun a b => by_Date_FullName_Session_Time a b = true) final
    /\ Permutation final
         (flat_map (records_of_response
                      (map (rename column_renames) (frame_columns frame))
                      students)
                   (filter (in_date_range date_start date_end)
                           (set_Date_Time (frame_rows frame) dates times))).
Proof.
  unfold get_corrections_df_by.
  destruct (to_datetime (map cor_Date (frame_rows frame))) as [e|dates];
    [discriminate|].
  destruct (to_datetime (map cor_Time (frame_rows frame))) as [e|times];
    [discriminate|].
  intros Hout. exists dates, times.
  assert (Hcols : ~ In "FullName" (map (rename column_renames)
                                       (frame_columns frame))).
  { intros Hin.
    match type of Hout with
    | context [melt ?c ?d] =>
        destruct (proj2 (melt_refuses c d) Hin) as [e He];
          rewrite He in Hout
    end.
    discriminate. }
  revert Hout. unfold melt.
  assert (Hex : existsb (String.eqb "FullName")
                  (id_cols ++ map (rename column_renames)
                                  (frame_columns frame))%list = false).
  { rewrite existsb_app. apply orb_false_iff. split; [reflexivity|].
    destruct (existsb _ _) eqn:He; [|reflexivity].
    apply existsb_exists in He. destruct He as (c & Hc & Heq).
    apply String.eqb_eq in Heq. subst c. contradiction. }
  rewrite Hex. intros [= <-]. eexists.
  split; [reflexivity|]. split; [reflexivity|]. split; [exact Hcols|].
  split; [reflexivity|]. split.
  - apply sort_values_sorted.
    + apply by_Date_FullName_Session_Time_total.
    + apply by_Date_FullName_Session_Time_trans.
  - rewrite sort_values_perm. apply melt_records.
Qed.

(** The records of the code, shown, are the records asked of the
    responses of the sheet. *)
Lemma shown_records (headers : list string)
    (students : option (list string)) (date_start date_end : datetime)
    (responses : list RawCorrection) :
  forall dates times,
    List.length dates = List.length responses ->
    List.length times = List.length responses ->
    map display
      (flat_map (records_of_response (map (rename column_renames) headers)
                                     students)
         (filter (in_date_range date_start date_end)
            (set_Date_Time (map read_correction responses) dates times)))
    = flat_map (expected_records headers students date_start date_end)
               (combine (combine responses dates) times).
Proof.
  induction responses as [|r rs IH]; intros dates times Hd Ht;
    [reflexivity|].
  destruct dates as [|d dates]; [discriminate|].
  destruct times as [|t times]; [discriminate|].
  cbn [map set_Date_Time hd tl combine flat_map filter].
  injection Hd as Hd. injection Ht as Ht.
  specialize (IH dates times Hd Ht).
  unfold in_date_range at 1. cbn [cor_Date read_correction].
  unfold expected_records at 1, date_in_range.
  destruct d as [d|]; [destruct (_ && _)|]; cbn [flat_map];
    rewrite ?map_app, IH; try reflexivity.
  f_equal. unfold records_of_response.
  rewrite (selected_students_chosen headers r) by reflexivity.
  rewrite map_map. reflexivity.
Qed.

(** *** The day a shown Date stands for *)

Lemma digit_value_digit (n : nat) : digit_value (digit n) = Some (n mod 10).
Proof.
  unfold digit_value, digit.
  pose proof (Nat.mod_upper_bound n 10 ltac:(discriminate)) as Hr.
  rewrite nat_ascii_embedding by lia.
  destruct (Nat.leb_spec 48 (48 + n mod 10)); [|lia].
  destruct (Nat.leb_spec (48 + n mod 10) 57); [|lia].
  cbn [andb]. f_equal. lia.
Qed.

Lemma read_two_digits (n : nat) :
  n < 100 -> read_digits 0 (two_digits n EmptyString) = Some n.
Proof.
  intros Hn. unfold two_digits. cbn [read_digits].
  rewrite !digit_value_digit. cbn [read_digits]. f_equal.
  pose proof (Nat.div_mod_eq n 10).
  pose proof (Nat.mod_upper_bound n 10 ltac:(discriminate)).
  assert (n / 10 < 10) by (apply Nat.Div0.div_lt_upper_bound; lia).
  rewrite (Nat.mod_small (n / 10) 10) by assumption. lia.
Qed.

Lemma read_four_digits (n : nat) :
  n < 100 * 100 -> read_digits 0 (four_digits n EmptyString) = Some n.
Proof.
  intros Hn. unfold four_digits, two_digits. cbn [read_digits].
  rewrite !digit_value_digit. cbn [read_digits]. f_equal.
  pose proof (Nat.div_mod_eq n 10).
  pose proof (Nat.div_mod_eq (n / 10) 10).
  pose proof (Nat.div_mod_eq (n / 100) 10).
  pose proof (Nat.mod_upper_bound n 10 ltac:(discriminate)).
  pose proof (Nat.mod_upper_bound (n / 10) 10 ltac:(discriminate)).
  pose proof (Nat.mod_upper_bound (n / 100) 10 ltac:(discriminate)).
  assert (n / 1000 < 10) by (apply Nat.Div0.div_lt_upper_bound; lia).
  rewrite (Nat.mod_small (n / 1000) 10) by assumption.
  assert (E100 : n / 100 = n / 10 / 10)
    by (rewrite Nat.Div0.div_div; reflexivity).
  assert (E1000 : n / 1000 = n / 100 / 10)
    by (rewrite Nat.Div0.div_div; reflexivity).
  lia.
Qed.

Lemma shown_day_strftime (d : datetime) :
  timestamp d -> shown_day (strftime_mdY d) = Some (calendar_day d).
Proof.
  intros (Hy & Hm & Hd).
  assert (Hfields :
    String.substring 6 4 (strftime_mdY d) = four_digits (year d) EmptyString
    /\ String.substring 0 2 (strftime_mdY d)
       = two_digits (month d) EmptyString
    /\ String.substring 3 2 (strftime_mdY d)
       = two_digits (day d) EmptyString)
    by (repeat split; reflexivity).
  destruct Hfields as (Ey & Em & Ed).
  unfold shown_day, read_field. rewrite Ey, Em, Ed.
  rewrite read_four_digits, !read_two_digits by lia. reflexivity.
Qed.

Lemma set_Date_Time_In (rows : list (Correction cell))
    (row : Correction (option datetime)) :
  forall dates times,
    List.length dates = List.length rows ->
    In row (set_Date_Time rows dates times) -> In (cor_Date row) dates.
Proof.
  induction rows as [|r rows IH]; intros dates times Hlen Hin;
    [destruct Hin|].
  destruct dates as [|d dates]; [discriminate|].
  injection Hlen as Hlen. cbn [set_Date_Time hd tl] in Hin.
  destruct Hin as [<-|Hin]; [now left|].
  right. now apply (IH dates (tl times)).
Qed.

Lemma day_of_datetime_order (a b : datetime) :
  nats_compare (datetime_fields a) (datetime_fields b) <> Gt ->
  nats_compare (calendar_day a) (calendar_day b) <> Gt.
Proof.
  unfold datetime_fields, calendar_day. cbn [nats_compare].
  destruct (Nat.compare (year a) (year b)); try congruence.
  destruct (Nat.compare (month a) (month b)); try congruence.
  destruct (Nat.compare (day a) (day b)); congruence.
Qed.

Lemma datetime_leb_days (a b : datetime) :
  datetime_leb a b = true ->
  nats_compare (calendar_day a) (calendar_day b) <> Gt.
Proof.
  unfold datetime_leb. intros H. apply day_of_datetime_order.
  destruct (nats_compare _ _); congruence.
Qed.


(** The rows of the sorted frame, before they are shown: each bears a
    chosen and wanted student and a date that was read and lies in the
    range. *)
Lemma corrections_final_rows (columns : list string)
    (students : option (list string)) (date_start date_end : datetime)
    (rows : list (Correction cell)) (dates times : list (option datetime))
    (final : list (CorrectionRecord (option datetime))) :
  List.length dates = List.length rows ->
  Permutation final
    (flat_map (records_of_response columns students)
       (filter (in_date_range date_start date_end)
               (set_Date_Time rows dates times))) ->
  forall r, In r final ->
    exists n d,
      rec_FullName r = Some n /\ student_wanted students n = true
      /\ rec_Date r = Some d /\ In (Some d) dates
      /\ datetime_leb (midnight date_start) d = true
      /\ datetime_leb d (midnight date_end) = true.
Proof.
  intros Hlen Hperm r Hr.
  apply (Permutation_in _ Hperm) in Hr.
  apply in_flat_map in Hr. destruct Hr as (row & Hrow & Hr).
  unfold records_of_response in Hr. apply in_map_iff in Hr.
  destruct Hr as (n & <- & Hn).
  apply filter_In in Hn. destruct Hn as [_ Hwanted].
  apply filter_In in Hrow. destruct Hrow as [Hrow Hrange].
  apply (set_Date_Time_In rows row dates times Hlen) in Hrow.
  unfold in_date_range in Hrange.
  destruct (cor_Date row) as [d|] eqn:Hd; [|discriminate].
  apply andb_true_iff in Hrange. destruct Hrange as [H1 H2].
  exists n, d. cbn [rec_FullName rec_Date]. repeat split; assumption.
Qed.

Lemma rename_FullName (header : string) :
  rename column_renames header = "FullName" ->
  header = "StudentName" \/ header = "FullName".
Proof.
  unfold rename, column_renames. cbn [find fst snd].
  repeat match goal with
         | |- context [String.eqb ?a header] =>
             destruct (String.eqb_spec a header);
               [subst; cbn [snd]; try discriminate; auto|]
         end.
  auto.
Qed.


(** X26: on a sheet with no 'StudentName' and no 'FullName' column, once
    [pd.to_datetime] has read the Date and the Time columns, the
    transformation of [get_corrections] returns, up to the order of the
    rows, exactly the records asked of the sheet: for each response whose
    date lies between midnight of [date_start] and midnight of [date_end],
    one record for each non-empty cell it has under a header that mentions
    "Choose Student (Grade" and that names a wanted student, with the cells
    of the response, its Date shown as MM/DD/YYYY and its Time as HH:MM; no
    record for an empty cell, and no record with an empty FullName. *)
Theorem get_corrections_one_record_per_choice
    (to_datetime : list cell -> result (list (option datetime)))
    (s : Store) (students : option (list string))
    (date_start date_end : datetime)
    (dates times : list (option datetime)) :
  timestamp date_start -> timestamp date_end ->
  to_datetime (map (fun r => read_cell (raw_Date r))
                   (responses (sheet_corrections s))) = inr dates ->
  to_datetime (map (fun r => read_cell (raw_Time r))
                   (responses (sheet_corrections s))) = inr times ->
  List.length dates = List.length (responses (sheet_corrections s)) ->
  List.length times = List.length (responses (sheet_corrections s)) ->
  ~ In "StudentName" (other_columns (sheet_corrections s)) ->
  ~ In "FullName" (other_columns (sheet_corrections s)) ->
  exists out,
    get_corrections_df_by to_datetime (corrections_frame s) students
                          date_start date_end = inr out
    /\ Permutation out
         (flat_map (expected_records (other_columns (sheet_corrections s))
                                     students date_start date_end)
                   (combine (combine (responses (sheet_corrections s)) dates)
                            times))
    /\ Forall (fun r => exists n, rec_FullName r = Some n
                                  /\ n <> EmptyString) out.
Proof.
  intros _ _ Hdates Htimes Hld Hlt Hno1 Hno2.
  assert (Hcols : existsb (String.eqb "FullName")
            (id_cols ++ map (rename column_renames)
                            (other_columns (sheet_corrections s)))%list
          = false).
  { rewrite existsb_app. apply orb_false_iff. split; [reflexivity|].
    destruct (existsb _ _) eqn:He; [|reflexivity].
    apply existsb_exists in He. destruct He as (c & Hc & Heq).
    apply String.eqb_eq in Heq. subst c.
    apply in_map_iff in Hc. destruct Hc as (h & Hh & Hin).
    apply rename_FullName in Hh. destruct Hh as [-> | ->]; contradiction. }
  assert (Hshown :
    forall final,
      Permutation final
        (flat_map (records_of_response
                     (map (rename column_renames)
                          (other_columns (sheet_corrections s))) students)
           (filter (in_date_range date_start date_end)
              (set_Date_Time
                 (map read_correction (responses (sheet_corrections s)))
                 dates times))) ->
      Permutation (map display final)
        (flat_map (expected_records (other_columns (sheet_corrections s))
                                    students date_start date_end)
           (combine (combine (responses (sheet_corrections s)) dates)
                    times))).
  { intros final Hperm. rewrite <- shown_records by assumption.
    now apply Permutation_map. }
  unfold get_corrections_df_by.
  cbn [corrections_frame frame_rows frame_columns]. rewrite !map_map.
  cbn [read_correction cor_Date cor_Time].
  rewrite Hdates, Htimes. unfold melt. rewrite Hcols.
  eexists. split; [reflexivity|].
  assert (Hperm : Permutation
    (map display
       (sort_values by_Date_FullName_Session_Time
          (map final_colums
             (filter (student_filter students)
                (filter (fun m => is_some (melted_FullName m))
                   (flat_map
                      (fun jc =>
                         map (fun r => mk_Melted r (snd jc)
                                (nth (fst jc) (cor_others r) None))
                           (filter (in_date_range date_start date_end)
                              (set_Date_Time
                                 (map read_correction
                                      (responses (sheet_corrections s)))
                                 dates times)))
                      (student_cols
                         (map (rename column_renames)
                              (other_columns (sheet_corrections s))))))))))
    (flat_map (expected_records (other_columns (sheet_corrections s))
                                students date_start date_end)
       (combine (combine (responses (sheet_corrections s)) dates) times))).
  { apply Hshown. rewrite sort_values_perm. apply melt_records. }
  split; [exact Hperm|].
  apply Forall_forall. intros r Hr.
  apply (Permutation_in _ Hperm) in Hr.
  apply in_flat_map in Hr. destruct Hr as ([[raw d] t] & _ & Hr).
  unfold expected_records in Hr.
  destruct (date_in_range date_start date_end d); [|destruct Hr].
  apply in_map_iff in Hr. destruct Hr as (n & <- & Hn).
  exists n. split; [reflexivity|].
  apply filter_In in Hn. destruct Hn as [Hn _].
  unfold chosen_students in Hn. apply in_flat_map in Hn.
  destruct Hn as (j & _ & Hn).
  destruct (is_selector _); [|destruct Hn].
  destruct (nth j (raw_others raw) EmptyString) eqn:Hc; [destruct Hn|].
  destruct Hn as [<-|[]]. discriminate.
Qed.

Lemma get_corrections_one_record_per_choice_witness :
  exists out,
    get_corrections_df_by (cell_by_cell read_iso)
      (corrections_frame corrections_store) None (sept 1) (sept 30) = inr out
    /\ Permutation out
         [shown_record jane_correction (Some (sept 5))
            (Some (mk_datetime 1900 1 1 8 30 0 0)) "Jane Doe"].
Proof.
  destruct (get_corrections_one_record_per_choice (cell_by_cell read_iso)
              corrections_store None (sept 1) (sept 30)
              [Some (sept 5)] [Some (mk_datetime 1900 1 1 8 30 0 0)])
    as (out & Hout & Hperm & _);
    try reflexivity;
    try (unfold timestamp; simpl; lia);
    try (simpl; intros [H|[H|[]]]; discriminate).
  exists out. split; [exact Hout|exact Hperm].
Defined.


(** X8: when the Date column is read as Timestamps, every row
    [get_corrections] returns names a student that was asked for (anyone,
    when [students] is omitted or empty) and shows, as MM/DD/YYYY, a day
    that is on or after the day of [date_start] and on or before the day of
    [date_end]. *)
Theorem get_corrections_rows_wanted_in_range
    (to_datetime : list cell -> result (list (option datetime)))
    (frame : CorrectionsFrame) (students : option (list string))
    (date_start date_end : datetime) (dates : list (option datetime))
    (out : list (CorrectionRecord cell)) :
  to_datetime (map cor_Date (frame_rows frame)) = inr dates ->
  List.length dates = List.length (frame_rows frame) ->
  timestamps dates ->
  get_corrections_df_by to_datetime frame students date_start date_end
  = inr out ->
  forall r, In r out ->
    exists n day,
      rec_FullName r = Some n
      /\ match students with
         | Some (x :: names) => In n (x :: names)
         | _ => True
         end
      /\ record_day r = Some day
      /\ nats_compare (calendar_day date_start) day <> Gt
      /\ nats_compare day (calendar_day date_end) <> Gt.
Proof.
  intros Hdates Hlen Hts Hout r Hr.
  destruct (get_corrections_df_by_final _ _ _ _ _ _ Hout)
    as (dates' & times & final & Hd & _ & _ & -> & _ & Hperm).
  rewrite Hdates in Hd. injection Hd as <-.
  apply in_map_iff in Hr. destruct Hr as (r0 & <- & Hr0).
  destruct (corrections_final_rows _ _ _ _ _ _ _ _ Hlen Hperm r0 Hr0)
    as (n & d & Hn & Hwanted & Hd & Hin & H1 & H2).
  exists n, (calendar_day d). cbn [display rec_FullName].
  split; [exact Hn|]. split; [|split; [|split]].
  - unfold student_wanted in Hwanted.
    destruct students as [[|x names]|]; try exact I.
    now apply isin_In.
  - unfold record_day. cbn [display rec_Date]. rewrite Hd.
    cbn [option_map]. apply shown_day_strftime. now apply Hts.
  - apply datetime_leb_days in H1. exact H1.
  - apply datetime_leb_days in H2. exact H2.
Qed.


Lemma get_corrections_rows_wanted_in_range_witness :
  exists n day,
    rec_FullName (shown_record jane_correction (Some (sept 5))
                    (Some (mk_datetime 1900 1 1 8 30 0 0)) "Jane Doe")
    = Some n
    /\ In n ["Jane Doe"]
    /\ record_day (shown_record jane_correction (Some (sept 5))
                     (Some (mk_datetime 1900 1 1 8 30 0 0)) "Jane Doe")
       = Some day
    /\ nats_compare (calendar_day (sept 1)) day <> Gt
    /\ nats_compare day (calendar_day (sept 30)) <> Gt.
Proof.
  apply (get_corrections_rows_wanted_in_range (cell_by_cell read_iso)
           (corrections_frame corrections_store) (Some ["Jane Doe"])
           (sept 1) (sept 30) [Some (sept 5)]
           [shown_record jane_correction (Some (sept 5))
              (Some (mk_datetime 1900 1 1 8 30 0 0)) "Jane Doe"]).
  - reflexivity.
  - reflexivity.
  - intros d [[= <-]|[]]. unfold timestamp. simpl. lia.
  - reflexivity.
  - now left.
Defined.

(** X10: [get_corrections] has the defaults of [get_attendance]: an omitted
    [date_start] is today's clock; an omitted [date_end] is the same time
    of day on the day after [date_start], for any [datetime] other than one
    of 9999-12-31, and the form sheet is then read once and its frame
    transformed over that range; on 9999-12-31 the addition raises
    OverflowError before any read; in no case is the range error raised. *)
Theorem get_corrections_defaults
    (to_datetime : string -> option datetime) (s : Store)
    (students : option (list string)) :
  get_corrections to_datetime students None None s
  = get_corrections to_datetime students (Some (clock s)) None s
  /\ (forall date_start,
        python_datetime date_start -> ~ last_day date_start ->
        exists date_end,
          toordinal date_end = S (toordinal date_start)
          /\ same_time_of_day date_end date_start
          /\ python_datetime date_end
          /\ get_corrections to_datetime students (Some date_start) None s
             = (get_corrections_df to_datetime (corrections_frame s) students
                  date_start date_end,
                after_read form_responses s))
  /\ (forall date_start,
        python_datetime date_start -> last_day date_start ->
        get_corrections to_datetime students (Some date_start) None s
        = (inl (OverflowError "date value out of range"), s))
  /\ (forall date_start,
        outcome (get_corrections to_datetime students date_start None) s
        <> inl InvalidRange).
Proof.
  assert (Hdefault : forall date_start,
    get_corrections to_datetime students (Some date_start) None s
    = match add_one_day date_start with
      | inr date_end =>
          get_corrections to_datetime students (Some date_start)
                          (Some date_end) s
      | inl e => (inl e, s)
      end).
  { intros d. unfold get_corrections, bind, ret, lift.
    destruct (add_one_day d); reflexivity. }
  assert (Htoday :
    get_corrections to_datetime students None None s
    = get_corrections to_datetime students (Some (clock s)) None s)
    by reflexivity.
  split; [exact Htoday|]. split; [|split].
  - intros d Hd Hlast.
    destruct (proj2 (add_one_day_next d Hd) Hlast)
      as (date_end & Hadd & Hord & Htime & Hvalid).
    exists date_end. split; [exact Hord|]. split; [exact Htime|].
    split; [exact Hvalid|]. rewrite Hdefault, Hadd.
    apply get_corrections_run. now apply add_one_day_later.
  - intros d Hd Hlast. rewrite Hdefault.
    now rewrite (proj1 (add_one_day_next d Hd) Hlast).
  - assert (Hnever : forall d,
      outcome (get_corrections to_datetime students (Some d) None) s
      <> inl InvalidRange).
    { intros d. unfold outcome. rewrite Hdefault.
      destruct (add_one_day d) as [e|date_end] eqn:Hadd.
      - cbn [fst]. intros [= He]. now apply (add_one_day_raises d e).
      - rewrite get_corrections_run by (now apply add_one_day_later).
        apply get_corrections_df_not_InvalidRange. }
    intros [d|]; [apply Hnever|].
    unfold outcome. rewrite Htoday. apply Hnever.
Qed.

Lemma strftime_HMS_order_witness :
  String.leb (strftime_HMS (mk_datetime 2024 9 5 8 10 0 0))
             (strftime_HMS (mk_datetime 2024 9 5 8 45 0 0))
  = true.
Proof.
  rewrite (strftime_HMS_order (mk_datetime 2024 9 5 8 10 0 0)
                              (mk_datetime 2024 9 5 8 45 0 0));
    simpl; (reflexivity || lia).
Defined.

(** ** [format_student_name] *)

(** X12: [format_student_name] returns a text exactly when the name is in
    the roster, and raises IndexError otherwise; the text is the name
    followed by the Grade, in brackets, of the first roster row that bears
    the name. *)
Theorem format_student_name_lookup (full_name : string)
    (names : list Student) :
  (In full_name (map st_FullName names)
   <-> exists text, format_student_name full_name names = inr text)
  /\ (~ In full_name (map st_FullName names)
      <-> exists msg,
            format_student_name full_name names = inl (IndexError msg))
  /\ (forall text, format_student_name full_name names = inr text ->
        exists before st after,
          names = (before ++ st :: after)%list
          /\ ~ In full_name (map st_FullName before)
          /\ st_FullName st = full_name
          /\ text = full_name ++ " (" ++ st_Grade st ++ ")").
Proof.
  unfold format_student_name, roster_rows.
  induction names as [|st names IH]; simpl.
  - split; [|split].
    + split; [tauto|]. intros [text H]. discriminate.
    + split; [eauto|tauto].
    + intros text H. discriminate.
  - destruct (String.eqb_spec (st_FullName st) full_name) as [Heq|Hne].
    + split; [|split].
      * split; [eauto|tauto].
      * split; [tauto|]. intros [msg H]. discriminate.
      * intros text [= <-]. exists [], st, names.
        repeat split; try tauto. now rewrite Heq.
    + destruct IH as (IH1 & IH2 & IH3). split; [|split].
      * rewrite <- IH1. tauto.
      * rewrite <- IH2. tauto.
      * intros text H. destruct (IH3 text H)
          as (before & st' & after & -> & Hb & Hn & Ht).
        exists (st :: before), st', after. repeat split; try assumption.
        simpl. tauto.
Qed.

(** ** checkin.py: the columns of a group *)

Lemma column_step (per index : Z) :
  (0 < per)%Z -> (0 <= index)%Z ->
  (if (index mod per =? 0)%Z then ((index - 1) / per + 1)%Z
   else ((index - 1) / per)%Z)
  = (index / per)%Z.
Proof.
  intros Hper Hindex.
  pose proof (Z.div_mod index per ltac:(lia)) as Hi.
  pose proof (Z.mod_pos_bound index per Hper) as Hb.
  destruct (Z.eqb_spec (index mod per) 0) as [Hm|Hm].
  - assert (Hq : (index / per - 1 = (index - 1) / per)%Z)
      by (apply (Z.div_unique (index - 1) per _ (per - 1)); lia).
    lia.
  - assert (Hq : (index / per = (index - 1) / per)%Z)
      by (apply (Z.div_unique (index - 1) per _ (index mod per - 1)); lia).
    lia.
Qed.

Lemma names_per_col_enough (n : nat) :
  (Z.of_nat n <= n_cols * names_per_col n)%Z
  /\ (0 < n -> (0 < names_per_col n)%Z).
Proof.
  unfold names_per_col, n_cols.
  pose proof (Z.div_mod (Z.of_nat n + 3 - 1) 3 ltac:(lia)) as Hd.
  pose proof (Z.mod_pos_bound (Z.of_nat n + 3 - 1) 3 ltac:(lia)) as Hb.
  split; [lia|]. intros Hn.
  apply Z.div_str_pos. lia.
Qed.

Lemma place_names_spec (per : Z) (names : list string) :
  (0 < per)%Z ->
  forall index col_index,
    (0 <= index)%Z -> col_index = ((index - 1) / per)%Z ->
    (index + Z.of_nat (List.length names) <= n_cols * per)%Z ->
    exists placed,
      place_names per index col_index names = inr placed
      /\ map snd placed = names
      /\ (forall i name, nth_error names i = Some name ->
            nth_error placed i
            = Some (((index + Z.of_nat i) / per)%Z, name))
      /\ Forall (fun cn => (0 <= fst cn < n_cols)%Z) placed.
Proof.
  intros Hper. induction names as [|name rest IH];
    intros index col_index Hindex Hcol Hfit.
  - exists []. repeat split; [|constructor].
    intros [|i] name' H; discriminate.
  - cbn [place_names].
    destruct (Z.eqb_spec per 0) as [H0|_]; [lia|].
    rewrite Hcol, (column_step per index Hper Hindex).
    cbn [List.length] in Hfit.
    assert (Hlow : (0 <= index / per)%Z) by (apply Z.div_pos; lia).
    assert (Hhigh : (index / per < n_cols)%Z)
      by (apply Z.div_lt_upper_bound; lia).
    destruct (Z.ltb_spec (index / per) (- n_cols)) as [Hc|_];
      [unfold n_cols in *; lia|].
    destruct (Z.leb_spec n_cols (index / per)) as [Hc|_]; [lia|].
    cbn [orb].
    destruct (Z.ltb_spec (index / per) 0) as [Hc|_]; [lia|].
    destruct (IH (index + 1)%Z (index / per)%Z) as (placed & Hp & Hn & Hi & Hb).
    + lia.
    + f_equal. lia.
    + lia.
    + rewrite Hp. exists (((index / per)%Z, name) :: placed).
      repeat split.
      * simpl. now rewrite Hn.
      * intros [|i] name' H; simpl in *.
        -- injection H as <-. do 3 f_equal. lia.
        -- rewrite (Hi i name' H). do 3 f_equal. lia.
      * constructor; [simpl; lia|exact Hb].
Qed.

(** X13: the loop that draws a group of names in three columns never
    divides by zero and never indexes outside [cols]: every name, in its
    order, goes to the column numbered by the quotient of its index by
    [names_per_col], which is 0, 1 or 2. *)
Theorem columns_of_group_in_bounds (filtered_names : list string) :
  exists placed,
    columns_of_group filtered_names = inr placed
    /\ map snd placed = filtered_names
    /\ (forall i name, nth_error filtered_names i = Some name ->
          nth_error placed i
          = Some ((Z.of_nat i
                   / names_per_col (List.length filtered_names))%Z, name))
    /\ Forall (fun cn => (0 <= fst cn < n_cols)%Z) placed.
Proof.
  unfold columns_of_group. destruct filtered_names as [|name rest].
  - exists []. repeat split; [|constructor].
    intros [|i] name' H; discriminate.
  - destruct (names_per_col_enough (List.length (name :: rest)))
      as [Hfit Hpos].
    destruct (place_names_spec (names_per_col (List.length (name :: rest)))
                (name :: rest)) with (index := 0%Z) (col_index := (-1)%Z)
      as (placed & Hp & Hn & Hi & Hb).
    + apply Hpos. simpl. lia.
    + lia.
    + assert (0 < names_per_col (List.length (name :: rest)))%Z
        by (apply Hpos; simpl; lia).
      apply (Z.div_unique (0 - 1) _ (-1)
               (names_per_col (List.length (name :: rest)) - 1)); lia.
    + lia.
    + exists placed. repeat split; try assumption.
Qed.

(** X14: the minute the override time input starts from is a valid minute
    on the ten-minute step of the input: a multiple of ten, at most the
    current minute and less than ten minutes before it. *)
Theorem override_minute_on_step (now : datetime) :
  minute now < 60 ->
  override_minute now < 60
  /\ override_minute now mod time_inc_minute = 0
  /\ override_minute now <= minute now < override_minute now + time_inc_minute.
Proof.
  unfold override_minute, time_inc_minute. intros Hm.
  pose proof (Nat.div_mod_eq (minute now) 10) as Hd.
  pose proof (Nat.mod_upper_bound (minute now) 10 ltac:(discriminate)) as Hb.
  rewrite Nat.Div0.mod_mul. lia.
Qed.

Lemma override_minute_on_step_witness :
  override_minute (mk_datetime 2024 9 5 8 47 30 0) < 60.
Proof.
  apply (override_minute_on_step (mk_datetime 2024 9 5 8 47 30 0)).
  simpl. lia.
Defined.

(** ** The check boxes in the session state *)

Lemma dict_get_set (st : session_state) (k k' : string) (v : bool) :
  dict_get (dict_set st k v) k'
  = if String.eqb k k' then Some v else dict_get st k'.
Proof.
  induction st as [|[k0 v0] rest IH]; simpl.
  - reflexivity.
  - destruct (String.eqb_spec k0 k) as [->|Hne]; simpl.
    + destruct (String.eqb k k'); reflexivity.
    + rewrite IH. destruct (String.eqb_spec k0 k') as [->|Hne'];
        [|reflexivity].
      destruct (String.eqb_spec k k'); [congruence|reflexivity].
Qed.

Lemma dict_set_keys (st : session_state) (k : string) (v : bool) :
  dict_get st k <> None -> map fst (dict_set st k v) = map fst st.
Proof.
  induction st as [|[k0 v0] rest IH]; simpl; [congruence|].
  destruct (String.eqb k0 k); simpl; [reflexivity|].
  intros H. now rewrite IH.
Qed.

Lemma dict_get_In (st : session_state) (k : string) :
  dict_get st k <> None -> In k (map fst st).
Proof.
  induction st as [|[k0 v0] rest IH]; simpl; [congruence|].
  destruct (String.eqb_spec k0 k); [now left|]. intros H. right. now apply IH.
Qed.

Lemma prefix_append (p s : string) :
  String.prefix p s = true -> s = p ++ drop_chars (String.length p) s.
Proof.
  revert s. induction p as [|a p IH]; intros [|b s]; simpl;
    try reflexivity; try (intros H; discriminate H).
  destruct (ascii_dec a b) as [->|]; [|intros H; discriminate H].
  intros H. f_equal. now apply IH.
Qed.

Lemma status_key (name : string) :
  String.prefix "status-" ("status-" ++ name) = true
  /\ replace_first "status-" "" ("status-" ++ name) = name
  /\ nth_error (split_once "-" ("status-" ++ name)) 1 = Some name.
Proof. repeat split; destruct name; reflexivity. Qed.

(** X15: [sync_main_state] raises KeyError when the widget has no entry;
    otherwise, for the main key of a student, it leaves the status, the
    by-grade check box and the by-last-name check box of that student all
    at the value of the widget that was clicked, and every other entry as
    it was. *)
Theorem sync_main_state_agrees (name widget_key : string)
    (st : session_state) :
  match dict_get st widget_key with
  | None =>
      sync_main_state ("status-" ++ name) widget_key st
      = inl (KeyError widget_key)
  | Some new_value =>
      exists st',
        sync_main_state ("status-" ++ name) widget_key st = inr st'
        /\ dict_get st' ("status-" ++ name) = Some new_value
        /\ dict_get st' ("check_by_grades_" ++ name) = Some new_value
        /\ dict_get st' ("check_by_lastname_" ++ name) = Some new_value
        /\ (forall key,
              key <> "status-" ++ name ->
              key <> "check_by_grades_" ++ name ->
              key <> "check_by_lastname_" ++ name ->
              dict_get st' key = dict_get st key)
  end.
Proof.
  unfold sync_main_state.
  destruct (dict_get st widget_key) as [new_value|]; [|reflexivity].
  destruct (status_key name) as (Hprefix & Hname & _).
  rewrite Hprefix, Hname. eexists. split; [reflexivity|].
  repeat split; intros; rewrite !dict_get_set;
    repeat match goal with
           | |- context [String.eqb ?a ?b] => destruct (String.eqb_spec a b)
           end; try reflexivity; congruence.
Qed.

(** The names [full_names] lists are those whose status is checked. *)
Lemma full_names_spec (st : session_state) :
  NoDup (map fst st) ->
  exists names,
    full_names st = inr names
    /\ (forall name,
          In name names <-> dict_get st ("status-" ++ name) = Some true).
Proof.
  induction st as [|[state checked] rest IH]; intros Hnd.
  - exists []. split; [reflexivity|]. intros name. simpl.
    split; [tauto|discriminate].
  - inversion Hnd as [|k ks Hnotin Hnd']; subst.
    destruct (IH Hnd') as (names & Hrest & Hiff).
    assert (Hfresh : forall name,
              dict_get rest ("status-" ++ name) = Some true ->
              state <> "status-" ++ name).
    { intros name Hget ->. apply Hnotin. apply dict_get_In.
      rewrite Hget. discriminate. }
    cbn [full_names dict_get].
    destruct (String.prefix "status-" state) eqn:Hprefix; cbn [andb].
    + apply prefix_append in Hprefix. cbn [String.length] in Hprefix.
      set (student := drop_chars 7 state) in *.
      destruct checked.
      * destruct (status_key student) as (_ & _ & Hsplit).
        rewrite <- Hprefix in Hsplit.
        rewrite Hsplit, Hrest. exists (student :: names).
        split; [reflexivity|]. intros name. cbn [In]. rewrite Hiff.
        destruct (String.eqb_spec state ("status-" ++ name)) as [Heq|Hne].
        -- rewrite Hprefix in Heq. injection Heq as <-.
           split; [reflexivity|now left].
        -- split; [intros [<-|H]; [congruence|exact H]|now right].
      * exists names. split; [exact Hrest|]. intros name. rewrite Hiff.
        destruct (String.eqb_spec state ("status-" ++ name)) as [Heq|Hne];
          [|reflexivity].
        split; [intros H; now apply Hfresh in H|discriminate].
    + exists names. split; [exact Hrest|]. intros name. rewrite Hiff.
      destruct (String.eqb_spec state ("status-" ++ name)) as [Heq|Hne];
        [|reflexivity].
      split; [intros H; now apply Hfresh in H|].
      subst state. destruct (status_key name) as (Hp & _). congruence.
Qed.

(** X16: the key of a status, 'status-' followed by the name, gives the
    name back when it is split at its first hyphen, also for a name that
    holds hyphens; so [full_names] raises nothing and lists exactly the
    names whose status entry is checked. *)
Theorem full_names_are_checked (st : session_state) :
  NoDup (map fst st) ->
  (forall name,
     nth_error (split_once "-" ("status-" ++ name)) 1 = Some name)
  /\ exists names,
       full_names st = inr names
       /\ (forall name,
             In name names <-> dict_get st ("status-" ++ name) = Some true).
Proof.
  intros Hnd. split; [intros name; apply status_key|].
  now apply full_names_spec.
Qed.

Lemma full_names_are_checked_witness :
  exists names,
    full_names [("status-Mary-Ann Lee", true); ("status-Bob", false)]
    = inr names
    /\ (In "Mary-Ann Lee" names
        <-> dict_get [("status-Mary-Ann Lee", true); ("status-Bob", false)]
                     ("status-" ++ "Mary-Ann Lee") = Some true).
Proof.
  destruct (proj2 (full_names_are_checked
                     [("status-Mary-Ann Lee", true); ("status-Bob", false)]
                     ltac:(repeat constructor; simpl;
                           intuition discriminate)))
    as (names & Hn & Hiff).
  exists names. split; [exact Hn|apply Hiff].
Defined.

Lemma reset_submitted_get (names : list string) (st : session_state)
    (key : string) :
  dict_get (reset_submitted names st) key
  = match dict_get st key with
    | Some v =>
        if existsb (fun name => String.eqb ("status-" ++ name) key) names
        then Some false else Some v
    | None => None
    end.
Proof.
  unfold reset_submitted. revert st.
  induction names as [|name names IH]; intros st; cbn [fold_left existsb].
  - destruct (dict_get st key); reflexivity.
  - rewrite IH.
    destruct (dict_get st ("status-" ++ name)) as [v0|] eqn:Hget.
    + rewrite dict_get_set.
      destruct (String.eqb_spec ("status-" ++ name) key) as [<-|Hne].
      * rewrite Hget. cbn [orb].
        destruct (existsb _ names); reflexivity.
      * cbn [orb]. reflexivity.
    + destruct (String.eqb_spec ("status-" ++ name) key) as [<-|Hne].
      * now rewrite Hget.
      * cbn [orb]. reflexivity.
Qed.

Lemma reset_submitted_keys (names : list string) (st : session_state) :
  map fst (reset_submitted names st) = map fst st.
Proof.
  unfold reset_submitted. revert st.
  induction names as [|name names IH]; intros st; cbn [fold_left];
    [reflexivity|].
  rewrite IH.
  destruct (dict_get st ("status-" ++ name)) eqn:Hget; [|reflexivity].
  apply dict_set_keys. rewrite Hget. discriminate.
Qed.

(** X17: once the submitted names are reset, no student is selected any
    more: [full_names] of the session state is empty, while every entry
    that is not the status of a submitted name keeps its value. *)
Theorem reset_submitted_clears (st : session_state) (names : list string) :
  NoDup (map fst st) ->
  full_names st = inr names ->
  full_names (reset_submitted names st) = inr []
  /\ (forall key,
        (forall name, In name names -> key <> "status-" ++ name) ->
        dict_get (reset_submitted names st) key = dict_get st key).
Proof.
  intros Hnd Hnames.
  destruct (full_names_spec st Hnd) as (names0 & Hn0 & Hiff).
  rewrite Hnames in Hn0. injection Hn0 as <-.
  split.
  - destruct (full_names_spec (reset_submitted names st))
      as (after & Hafter & Hiff').
    { now rewrite reset_submitted_keys. }
    rewrite Hafter. f_equal.
    destruct after as [|name after]; [reflexivity|exfalso].
    assert (Hget : dict_get (reset_submitted names st) ("status-" ++ name)
                   = Some true) by (apply Hiff'; now left).
    rewrite reset_submitted_get in Hget.
    destruct (dict_get st ("status-" ++ name)) as [v|] eqn:Hst;
      [|discriminate].
    destruct (existsb _ names) eqn:Hex; [discriminate|].
    injection Hget as ->.
    apply Hiff in Hst.
    assert (Hex' : existsb (fun n => String.eqb ("status-" ++ n)
                                                ("status-" ++ name)) names
                   = true).
    { apply existsb_exists. exists name.
      split; [exact Hst|apply String.eqb_refl]. }
    congruence.
  - intros key Hkey. rewrite reset_submitted_get.
    destruct (dict_get st key) as [v|]; [|reflexivity].
    destruct (existsb _ names) eqn:Hex; [|reflexivity].
    apply existsb_exists in Hex. destruct Hex as (name & Hin & Heq).
    apply String.eqb_eq in Heq. exfalso. apply (Hkey name Hin).
    congruence.
Qed.

Lemma reset_submitted_clears_witness :
  full_names (reset_submitted ["Mary-Ann Lee"]
                [("status-Mary-Ann Lee", true); ("status-Bob", false)])
  = inr [].
Proof.
  apply (reset_submitted_clears
           [("status-Mary-Ann Lee", true); ("status-Bob", false)]
           ["Mary-Ann Lee"]).
  - repeat constructor; simpl; intuition discriminate.
  - reflexivity.
Defined.

(** ** Appending to a log and reading it back *)

Lemma sort_values_descending_In {A : Type} (leb : A -> A -> bool)
    (l : list A) (x : A) :
  In x (sort_values_descending leb l) <-> In x l.
Proof.
  unfold sort_values_descending.
  rewrite <- in_rev, sort_values_In, <- in_rev. reflexivity.
Qed.

Lemma sort_values_descending_length {A : Type} (leb : A -> A -> bool)
    (l : list A) :
  List.length (sort_values_descending leb l) = List.length l.
Proof.
  unfold sort_values_descending.
  rewrite length_rev, (Permutation_length (sort_values_perm leb (rev l))).
  apply length_rev.
Qed.

(** What a batch of new check-ins is read back as. *)
Lemma new_checkins_read_back (data : list student_data) :
  map event_of_row (dataframe_to_list (df_new_checkins data))
  = map event_of_data
      (sort_values_descending
         (fun a b => String.leb (sd_SubmitTime a) (sd_SubmitTime b)) data).
Proof.
  unfold df_new_checkins, dataframe_to_list. rewrite !map_map.
  apply map_ext. intros d. unfold event_of_data, event_of_row.
  cbn. destruct (sd_OverrideTime d); reflexivity.
Qed.

(** ** The submission of checkin.py *)

Lemma new_checkins_data_spec (all_names : list (string * bool))
    (names : list Student) (submit_time current_time : datetime)
    (is_override : bool) (override_checkin_time : value)
    (data : list student_data) :
  new_checkins_data all_names names submit_time current_time is_override
                    override_checkin_time = inr data ->
  map sd_FullName data = map fst (filter snd all_names)
  /\ Forall (fun d => sd_SubmitTime d = strftime_HMS submit_time
                      /\ sd_SubmitDate d = strftime_Ymd current_time
                      /\ In (sd_FullName d) (map st_FullName names))
            data.
Proof.
  revert data. induction all_names as [|[full_name checkedin] rest IH];
    intros data; cbn [new_checkins_data filter snd].
  - intros [= <-]. split; [reflexivity|constructor].
  - destruct checkedin; cbn [negb]; [|apply IH].
    destruct (roster_rows names full_name) as [|info infos] eqn:Hrows;
      [discriminate|].
    destruct (new_checkins_data rest names submit_time current_time
                is_override override_checkin_time) as [e|data'];
      [discriminate|].
    intros [= <-]. destruct (IH data' eq_refl) as [Hn Hall].
    split; [cbn; now rewrite Hn|].
    constructor; [|exact Hall]. cbn. repeat split.
    assert (Hin : In info (roster_rows names full_name))
      by (rewrite Hrows; now left).
    unfold roster_rows in Hin. apply filter_In in Hin.
    destruct Hin as [Hin Heq]. apply String.eqb_eq in Heq.
    rewrite <- Heq. now apply in_map.
Qed.

Lemma new_checkins_data_fails (all_names : list (string * bool))
    (names : list Student) (submit_time current_time : datetime)
    (is_override : bool) (override_checkin_time : value) :
  (exists e, new_checkins_data all_names names submit_time current_time
               is_override override_checkin_time = inl e)
  <-> exists n, In (n, true) all_names /\ ~ In n (map st_FullName names).
Proof.
  induction all_names as [|[full_name checkedin] rest IH];
    cbn [new_checkins_data].
  - split; [intros [e H]; discriminate|intros (n & [] & _)].
  - destruct checkedin; cbn [negb].
    + destruct (roster_rows names full_name) as [|info infos] eqn:Hrows.
      * split; [intros _|eauto]. exists full_name. split; [now left|].
        intros Hin. apply in_map_iff in Hin. destruct Hin as (st & Hst & Hin).
        assert (In st (roster_rows names full_name)).
        { apply filter_In. split; [exact Hin|]. now apply String.eqb_eq. }
        rewrite Hrows in H. destruct H.
      * assert (Hknown : In full_name (map st_FullName names)).
        { assert (Hin : In info (roster_rows names full_name))
            by (rewrite Hrows; now left).
          apply filter_In in Hin. destruct Hin as [Hin Heq].
          apply String.eqb_eq in Heq. rewrite <- Heq. now apply in_map. }
        destruct (new_checkins_data rest names submit_time current_time
                    is_override override_checkin_time) as [e|data'].
        -- split; [intros _|eauto].
           destruct (proj1 IH) as (n & Hn & Hout); [eauto|].
           exists n. split; [now right|exact Hout].
        -- split; [intros [e H]; discriminate|].
           intros (n & [[= <-]|Hn] & Hout); [contradiction|].
           destruct (proj2 IH) as [e He]; [eauto|discriminate].
    + rewrite IH. split; intros (n & Hn & Hout); exists n.
      * split; [now right|exact Hout].
      * split; [|exact Hout].
        destruct Hn as [Heq|Hn]; [discriminate Heq|exact Hn].
Qed.

(** X19: a submission either appends rows or leaves the store as it was:
    with no box checked it appends nothing and ends in the NameError of
    line 344, where [df_new_checkins] was never bound; with a checked name
    the roster does not hold it ends in IndexError; in every failing case
    the log is untouched; otherwise the log grows by exactly one row per
    checked name. *)
Theorem submit_checkins_outcomes (all_names : list (string * bool))
    (names : list Student) (submit_time current_time : datetime)
    (is_override : bool) (override_checkin_time : value) (s : Store) :
  ((forall n c, In (n, c) all_names -> c = false) ->
     submit_checkins all_names names submit_time current_time is_override
                     override_checkin_time s
     = (inl (NameError "df_new_checkins"), s))
  /\ ((exists n, In (n, true) all_names /\ ~ In n (map st_FullName names)) ->
        exists msg,
          submit_checkins all_names names submit_time current_time
                          is_override override_checkin_time s
          = (inl (IndexError msg), s))
  /\ (forall e,
        fst (submit_checkins all_names names submit_time current_time
                             is_override override_checkin_time s) = inl e ->
        snd (submit_checkins all_names names submit_time current_time
                             is_override override_checkin_time s) = s)
  /\ (fst (submit_checkins all_names names submit_time current_time
                           is_override override_checkin_time s) = inr tt ->
        exists new_rows,
          sheet_checkins
            (snd (submit_checkins all_names names submit_time current_time
                                  is_override override_checkin_time s))
          = (sheet_checkins s ++ new_rows)%list
          /\ List.length new_rows = List.length (filter snd all_names)
          /\ new_rows <> []).
Proof.
  unfold submit_checkins.
  destruct (new_checkins_data all_names names submit_time current_time
              is_override override_checkin_time) as [e|data] eqn:Hdata.
  - split; [|split; [|split]].
    + intros Hnone. exfalso.
      destruct (proj1 (new_checkins_data_fails all_names names submit_time
                         current_time is_override override_checkin_time))
        as (n & Hn & _); [eauto|].
      specialize (Hnone n true Hn). discriminate.
    + intros _. clear - Hdata. revert e Hdata.
      induction all_names as [|[full_name checkedin] rest IH];
        cbn [new_checkins_data]; intros e; [discriminate|].
      destruct checkedin; cbn [negb]; [|apply IH].
      destruct (roster_rows names full_name); [intros [= <-]; eauto|].
      destruct (new_checkins_data rest names submit_time current_time
                  is_override override_checkin_time) as [e'|data'];
        [|discriminate].
      intros [= <-]. now apply IH.
    + reflexivity.
    + discriminate.
  - destruct (new_checkins_data_spec _ _ _ _ _ _ _ Hdata) as [Hnames _].
    assert (Hlen : List.length data = List.length (filter snd all_names)).
    { rewrite <- (length_map sd_FullName), Hnames. apply length_map. }
    split; [|split; [|split]].
    + intros Hnone.
      assert (Hfilter : filter snd all_names = []).
      { clear - Hnone. induction all_names as [|[n c] rest IH];
          [reflexivity|]. cbn.
        rewrite (Hnone n c (or_introl eq_refl)). apply IH.
        intros n' c' H. apply (Hnone n' c'). now right. }
      rewrite Hfilter in Hlen. destruct data; [reflexivity|discriminate].
    + intros Hmiss. exfalso.
      destruct (proj2 (new_checkins_data_fails all_names names submit_time
                         current_time is_override override_checkin_time)
                  Hmiss) as [e He].
      congruence.
    + destruct data; [reflexivity|discriminate].
    + destruct data as [|d data]; [discriminate|]. intros _.
      eexists. split; [reflexivity|]. split.
      * rewrite new_checkins_read_back, length_map,
          sort_values_descending_length. exact Hlen.
      * rewrite new_checkins_read_back. intros Hnil.
        apply (f_equal (@List.length Event)) in Hnil.
        rewrite length_map, sort_values_descending_length in Hnil.
        discriminate.
Qed.

Section AfterSubmission.
Variable to_datetime : string -> option datetime.

(** The names of a frame [get_students] returns are the names of the rows
    of the date and period. *)
Lemma get_students_df_names (df : list Event) (p : TimePeriod)
    (date : option string) (out : list Event) :
  get_students_df to_datetime df p date = inr out ->
  forall n,
    In n (map FullName out)
    <-> exists e, In e (rows_of_date date df)
                  /\ in_period to_datetime p e = true /\ FullName e = n.
Proof.
  intros Hout n. rewrite in_map_iff. split.
  - intros (e & <- & He).
    apply (get_students_df_rows to_datetime _ _ _ _ Hout) in He.
    exists e. tauto.
  - intros (e & He & Hp & <-).
    destruct (get_students_df_kept to_datetime _ _ _ _ Hout e He Hp)
      as (kept & Hk & Hn & _).
    exists kept. tauto.
Qed.

Lemma NoDup_names_of_one_date (out : list Event) (date : string) :
  NoDup (map (fun e => (FullName e, SubmitDate e)) out) ->
  (forall e, In e out -> SubmitDate e = date) ->
  NoDup (map FullName out).
Proof.
  induction out as [|a r IH]; simpl; intros Hnd Hdate; [constructor|].
  inversion Hnd as [|k ks Hnotin Hnd']; subst.
  constructor; [|apply IH; auto].
  intros Hin. apply Hnotin. apply in_map_iff in Hin.
  destruct Hin as (e & Hn & He). apply in_map_iff. exists e.
  split; [|exact He].
  rewrite Hn, (Hdate e (or_intror He)), (Hdate a (or_introl eq_refl)).
  reflexivity.
Qed.

Lemma strftime_Ymd_truthy (d : datetime) :
  truthy_str (Some (strftime_Ymd d)) = true.
Proof.
  unfold strftime_Ymd, year_text.
  destruct (year d <? 10); [reflexivity|].
  destruct (year d <? 100); [reflexivity|].
  destruct (year d <? 1000); reflexivity.
Qed.

End AfterSubmission.

(** X20: after a submission that appended its rows, when the SubmitTime it
    wrote is read in the period asked for and the earlier rows of the day
    can be read, [get_checked_in_students] for that day and period lists
    one row per student, and its students are exactly those it listed
    before the submission together with those whose box was checked: a
    student checked in a second time is still listed once. *)
Theorem submitted_students_are_checked_in
    (to_datetime : string -> option datetime)
    (all_names : list (string * bool)) (names : list Student)
    (submit_time current_time : datetime) (is_override : bool)
    (override_checkin_time : value) (s : Store)
    (time_period : TimePeriod) (t : datetime) :
  fst (submit_checkins all_names names submit_time current_time is_override
                       override_checkin_time s) = inr tt ->
  to_datetime (strftime_HMS submit_time) = Some t ->
  period_mask time_period t = true ->
  (forall e, In e (sheet_checkins s) ->
     SubmitDate e = strftime_Ymd current_time ->
     to_datetime (SubmitTime e) <> None) ->
  exists before after,
    outcome (get_checked_in_students to_datetime
               (strftime_Ymd current_time) time_period) s = inr before
    /\ outcome (get_checked_in_students to_datetime
                  (strftime_Ymd current_time) time_period)
               (snd (submit_checkins all_names names submit_time
                       current_time is_override override_checkin_time s))
       = inr after
    /\ (forall n, In n (map FullName after)
                  <-> In n (map FullName before) \/ In (n, true) all_names)
    /\ NoDup (map FullName after).
Proof.
  intros Hok Ht Hp Hold. unfold submit_checkins in *.
  destruct (new_checkins_data all_names names submit_time current_time
              is_override override_checkin_time) as [e|data] eqn:Hdata;
    [discriminate|].
  destruct data as [|d0 data0]; [discriminate|].
  set (data := d0 :: data0) in *.
  destruct (new_checkins_data_spec _ _ _ _ _ _ _ Hdata) as [Hnames Hall].
  rewrite Forall_forall in Hall.
  set (date := strftime_Ymd current_time) in *.
  set (news := map event_of_data
                 (sort_values_descending
                    (fun a b => String.leb (sd_SubmitTime a)
                                           (sd_SubmitTime b)) data)).
  assert (Hnews : forall e, In e news ->
            SubmitDate e = date
            /\ SubmitTime e = strftime_HMS submit_time
            /\ In (FullName e, true) all_names).
  { intros e He. apply in_map_iff in He. destruct He as (d & <- & Hd).
    apply sort_values_descending_In in Hd.
    destruct (Hall d Hd) as (H1 & H2 & _). repeat split; try assumption.
    assert (Hin : In (sd_FullName d) (map fst (filter snd all_names)))
      by (rewrite <- Hnames; now apply in_map).
    apply in_map_iff in Hin. destruct Hin as ([n c] & Hn & Hin).
    apply filter_In in Hin. destruct Hin as [Hin Hc].
    cbn in Hn, Hc. subst. exact Hin. }
  assert (Hchecked : forall n, In (n, true) all_names ->
            exists e, In e news /\ FullName e = n).
  { intros n Hn.
    assert (Hin : In n (map sd_FullName data)).
    { rewrite Hnames. apply in_map_iff. exists (n, true).
      split; [reflexivity|]. apply filter_In. now split. }
    apply in_map_iff in Hin. destruct Hin as (d & Hd & Hin).
    exists (event_of_data d). split; [|exact Hd].
    apply in_map. now apply sort_values_descending_In. }
  unfold get_checked_in_students, outcome.
  rewrite !get_students_run. cbn [fst worksheet_rows].
  unfold append_data_to_sheet. cbn [snd sheet_checkins].
  rewrite new_checkins_read_back. fold data. fold news.
  destruct (get_students_df_total to_datetime (sheet_checkins s)
              time_period (Some date)) as [before Hbefore].
  { intros e He Hd. apply Hold; [exact He|].
    specialize (Hd (strftime_Ymd_truthy current_time)). congruence. }
  destruct (get_students_df_total to_datetime
              (sheet_checkins s ++ news)%list time_period (Some date))
    as [after Hafter].
  { intros e He Hd. specialize (Hd (strftime_Ymd_truthy current_time)).
    apply in_app_or in He. destruct He as [He|He].
    - apply Hold; [exact He|congruence].
    - destruct (Hnews e He) as (_ & Htime & _). rewrite Htime, Ht.
      discriminate. }
  exists before, after. split; [exact Hbefore|]. split; [exact Hafter|].
  split.
  - intros n.
    rewrite (get_students_df_names to_datetime _ _ _ _ Hafter),
      (get_students_df_names to_datetime _ _ _ _ Hbefore).
    split.
    + intros (e & He & Hpe & Hn). apply rows_of_date_In in He.
      destruct He as [He Hd]. apply in_app_or in He.
      destruct He as [He|He].
      * left. exists e. split; [|tauto]. apply rows_of_date_In. tauto.
      * right. destruct (Hnews e He) as (_ & _ & Hin). now rewrite <- Hn.
    + intros [(e & He & Hpe & Hn)|Hn].
      * exists e. split; [|tauto]. apply rows_of_date_In.
        apply rows_of_date_In in He. destruct He as [He Hd].
        split; [apply in_or_app; now left|exact Hd].
      * destruct (Hchecked n Hn) as (e & He & Hname).
        destruct (Hnews e He) as (Hd & Htime & _).
        exists e. split; [|split; [|exact Hname]].
        -- apply rows_of_date_In. split; [apply in_or_app; now right|].
           intros _. now rewrite Hd.
        -- unfold in_period. now rewrite Htime, Ht.
  - apply (NoDup_names_of_one_date after date).
    + now apply (get_students_df_keys to_datetime _ _ _ _ Hafter).
    + intros e He.
      apply (get_students_df_rows to_datetime _ _ _ _ Hafter) in He.
      destruct He as [He _]. apply rows_of_date_In in He.
      destruct He as [_ Hd].
      specialize (Hd (strftime_Ymd_truthy current_time)). congruence.
Qed.

Lemma submitted_students_are_checked_in_witness :
  exists before after,
    outcome (get_checked_in_students read_iso (strftime_Ymd eight_twenty)
               MORNING) sample_store = inr before
    /\ outcome (get_checked_in_students read_iso (strftime_Ymd eight_twenty)
                  MORNING)
               (snd (submit_checkins [("Jane Doe", true); ("Bob Roe", true)]
                       sample_roster eight_twenty eight_twenty false PyNone
                       sample_store))
       = inr after
    /\ (forall n, In n (map FullName after)
                  <-> In n (map FullName before)
                      \/ In (n, true) [("Jane Doe", true); ("Bob Roe", true)])
    /\ NoDup (map FullName after).
Proof.
  apply (submitted_students_are_checked_in read_iso
           [("Jane Doe", true); ("Bob Roe", true)] sample_roster
           eight_twenty eight_twenty false PyNone sample_store MORNING
           (mk_datetime 1900 1 1 8 20 0 0)).
  - reflexivity.
  - reflexivity.
  - reflexivity.
  - intros e [<-|[<-|[]]] _; vm_compute; discriminate.
Defined.

(** ** The count of the check-in page and the list of the current page *)

Lemma filter_partition_length {A : Type} (p : A -> bool) (l : list A) :
  List.length (filter p l) + List.length (filter (fun x => negb (p x)) l)
  = List.length l.
Proof.
  induction l as [|a r IH]; simpl; [reflexivity|].
  destruct (p a); simpl; lia.
Qed.

(** A frame that names each student once still does after a filter. *)
Lemma filtered_names_NoDup (keep : Event -> bool) (df : list Event) :
  NoDup (map FullName df) -> NoDup (map FullName (filter keep df)).
Proof.
  intros Hnd. induction df as [|e df IH]; cbn [filter map] in *;
    [constructor|].
  apply NoDup_cons_iff in Hnd. destruct Hnd as [Hfresh Hnd].
  destruct (keep e); cbn [map]; [|now apply IH].
  apply NoDup_cons_iff. split; [|now apply IH].
  intros Hin. apply Hfresh. apply in_map_iff in Hin.
  destruct Hin as (x & Hx & Hin). apply filter_In in Hin.
  apply in_map_iff. exists x. tauto.
Qed.

(** X21: when each frame names a student once, the number the check-in
    page shows, [len(checked in) - len(checked out)], is never more than
    the number of rows of [df_current]; it is that number when every
    student checked out is among those checked in, and only then. *)
Theorem n_current_students_counts
    (df_already_checkedin df_already_checkedout : list Event) :
  NoDup (map FullName df_already_checkedin) ->
  NoDup (map FullName df_already_checkedout) ->
  (n_current_students df_already_checkedin df_already_checkedout
   <= Z.of_nat (List.length (df_current df_already_checkedin
                                        df_already_checkedout)))%Z
  /\ (n_current_students df_already_checkedin df_already_checkedout
      = Z.of_nat (List.length (df_current df_already_checkedin
                                          df_already_checkedout))
      <-> incl (map FullName df_already_checkedout)
               (map FullName df_already_checkedin)).
Proof.
  intros Hin Hout. unfold n_current_students, df_current.
  set (out := fun e => isin (map FullName df_already_checkedout) (FullName e)).
  pose proof (filter_partition_length out df_already_checkedin) as Hsplit.
  change (filter (fun e => negb (isin (map FullName df_already_checkedout)
                                      (FullName e))) df_already_checkedin)
    with (filter (fun x => negb (out x)) df_already_checkedin).
  assert (Hboth : incl (map FullName (filter out df_already_checkedin))
                       (map FullName df_already_checkedout)).
  { intros n Hn. apply in_map_iff in Hn. destruct Hn as (e & <- & He).
    apply filter_In in He. destruct He as [_ He]. now apply isin_In. }
  assert (Hle : List.length (filter out df_already_checkedin)
                <= List.length df_already_checkedout).
  { rewrite <- (length_map FullName (filter out df_already_checkedin)),
      <- (length_map FullName df_already_checkedout).
    apply NoDup_incl_length; [now apply filtered_names_NoDup|exact Hboth]. }
  split; [lia|]. split.
  - intros Hsame n Hn.
    assert (Hlen : List.length (map FullName df_already_checkedout)
                   <= List.length (map FullName
                                     (filter out df_already_checkedin)))
      by (rewrite !length_map; lia).
    pose proof (NoDup_length_incl
                  (filtered_names_NoDup out df_already_checkedin Hin)
                  Hlen Hboth n Hn) as Hci.
    apply in_map_iff in Hci. destruct Hci as (e & <- & He).
    apply filter_In in He. apply in_map. tauto.
  - intros Hsub.
    assert (Hge : List.length df_already_checkedout
                  <= List.length (filter out df_already_checkedin)).
    { rewrite <- (length_map FullName (filter out df_already_checkedin)),
        <- (length_map FullName df_already_checkedout).
      apply NoDup_incl_length; [exact Hout|].
      intros n Hn. pose proof (Hsub n Hn) as Hci.
      apply in_map_iff in Hci. destruct Hci as (e & <- & He).
      apply in_map. apply filter_In. split; [exact He|].
      now apply isin_In. }
    lia.
Qed.

Lemma n_current_students_counts_witness :
  n_current_students [checkin_of "Alice"; checkin_of "Bob"]
                     [checkin_of "Alice"]
  = Z.of_nat (List.length (df_current [checkin_of "Alice"; checkin_of "Bob"]
                                      [checkin_of "Alice"])).
Proof.
  apply (n_current_students_counts [checkin_of "Alice"; checkin_of "Bob"]
                                   [checkin_of "Alice"]).
  - repeat constructor; simpl; intuition discriminate.
  - repeat constructor; simpl; intuition.
  - intros n [<-|[]]. now left.
Defined.

(** ** checkin.py: the frames cached in the session state *)

Lemma TimePeriod_eqb_refl (p : TimePeriod) : TimePeriod_eqb p p = true.
Proof. destruct p; reflexivity. Qed.

Lemma TimePeriod_eqb_neq (p q : TimePeriod) :
  p <> q -> TimePeriod_eqb p q = false.
Proof. destruct p, q; intros H; try reflexivity; now elim H. Qed.

Lemma store_frame_same (frames : TimePeriod -> option (list Event))
    (p : TimePeriod) (df : list Event) :
  store_frame frames p df p = Some df.
Proof. unfold store_frame. now rewrite TimePeriod_eqb_refl. Qed.

Lemma store_frame_other (frames : TimePeriod -> option (list Event))
    (p q : TimePeriod) (df : list Event) :
  q <> p -> store_frame frames p df q = frames q.
Proof. intros H. unfold store_frame. now rewrite TimePeriod_eqb_neq. Qed.

Lemma option_string_eqb_iff (a : option string) (b : string) :
  option_string_eqb a b = true <-> a = Some b.
Proof.
  destruct a as [x|]; cbn [option_string_eqb].
  - rewrite String.eqb_eq. split; congruence.
  - split; discriminate.
Qed.

Lemma get_checked_in_students_run (to_datetime : string -> option datetime)
    (date : string) (p : TimePeriod) (s : Store) :
  get_checked_in_students to_datetime date p s
  = (get_students_df to_datetime (sheet_checkins s) p (Some date),
     after_read (event_log checkins) s).
Proof. reflexivity. Qed.

Lemma get_checked_out_students_run (to_datetime : string -> option datetime)
    (date : string) (p : TimePeriod) (s : Store) :
  get_checked_out_students to_datetime date p s
  = (get_students_df to_datetime (sheet_checkouts s) p (Some date),
     after_read (event_log checkouts) s).
Proof. reflexivity. Qed.

Ltac page_fields :=
  cbn [negb ss_time_period ss_last_date ss_checkedin_df ss_checkedout_df].

(** What a successful run of the top of the page leaves: the date and the
    period of the clock, the two frames it gave under the period, and the
    entries of the other period as they were. *)
Lemma load_checkin_page_leaves (to_datetime : string -> option datetime)
    (ss ss1 : PageCache) (s s1 : Store) (cin cout : list Event) :
  load_checkin_page to_datetime ss s = (inr (cin, cout), ss1, s1) ->
  ss_time_period ss1 = Some (time_period (clock s))
  /\ ss_last_date ss1 = Some (strftime_Ymd (clock s))
  /\ ss_checkedin_df ss1 (time_period (clock s)) = Some cin
  /\ ss_checkedout_df ss1 (time_period (clock s)) = Some cout
  /\ (forall q, q <> time_period (clock s) ->
        ss_checkedin_df ss1 q = ss_checkedin_df ss q
        /\ ss_checkedout_df ss1 q = ss_checkedout_df ss q).
Proof.
  unfold load_checkin_page, load_checkouts; cbv zeta; page_fields.
  rewrite !get_checked_in_students_run.
  destruct (option_string_eqb (ss_last_date ss) (strftime_Ymd (clock s)))
    eqn:Hdate; page_fields.
  - apply option_string_eqb_iff in Hdate.
    destruct (ss_checkedin_df ss (time_period (clock s))) as [a|] eqn:Hin;
      [|destruct (get_students_df to_datetime (sheet_checkins s) _ _)
          as [e|a]; cbv beta iota; [discriminate|]];
      rewrite ?get_checked_out_students_run; page_fields;
      (destruct (ss_checkedout_df ss (time_period (clock s))) as [b|] eqn:Hout;
       [|destruct (get_students_df to_datetime (sheet_checkouts _) _ _)
           as [e|b]; cbv beta iota; [discriminate|]]);
      intros H; injection H as <- <- <- <-; page_fields;
      rewrite ?store_frame_same;
      repeat split; auto; now rewrite ?store_frame_other.
  - destruct (get_students_df to_datetime (sheet_checkins s) _ _)
      as [e|a]; cbv beta iota; [discriminate|].
    rewrite ?get_checked_out_students_run; page_fields.
    destruct (get_students_df to_datetime (sheet_checkouts _) _ _)
      as [e|b]; cbv beta iota; [discriminate|].
    intros H; injection H as <- <- <- <-; page_fields;
      rewrite ?store_frame_same;
      repeat split; auto; now rewrite ?store_frame_other.
Qed.

(** A run that finds the date of the clock and both frames of the period
    in the session state reads nothing. *)
Lemma load_checkin_page_hit (to_datetime : string -> option datetime)
    (ss : PageCache) (s : Store) (cin cout : list Event) :
  ss_last_date ss = Some (strftime_Ymd (clock s)) ->
  ss_checkedin_df ss (time_period (clock s)) = Some cin ->
  ss_checkedout_df ss (time_period (clock s)) = Some cout ->
  load_checkin_page to_datetime ss s
  = (inr (cin, cout),
     mk_PageCache (Some (time_period (clock s))) (ss_last_date ss)
                  (ss_checkedin_df ss) (ss_checkedout_df ss),
     s).
Proof.
  intros Hdate Hin Hout.
  unfold load_checkin_page, load_checkouts; cbv zeta; page_fields.
  rewrite (proj2 (option_string_eqb_iff _ _) Hdate). page_fields.
  rewrite Hin. page_fields. now rewrite Hout.
Qed.

(** X22: on a date the session state does not hold, the top of the
    check-in page gives what a session with nothing cached would: each log
    is read once, check-ins first, and the frames (or the exception) are
    those of [get_checked_in_students] and [get_checked_out_students] for
    the date and period of the clock; whatever was cached for the period
    plays no part. *)
Theorem new_date_ignores_the_cache (to_datetime : string -> option datetime)
    (ss : PageCache) (s : Store) :
  ss_last_date ss <> Some (strftime_Ymd (clock s)) ->
  fst (fst (load_checkin_page to_datetime ss s))
  = outcome (df_already_checkedin <-
               get_checked_in_students to_datetime (strftime_Ymd (clock s))
                                       (time_period (clock s)) ;;
             df_already_checkedout <-
               get_checked_out_students to_datetime (strftime_Ymd (clock s))
                                        (time_period (clock s)) ;;
             ret (df_already_checkedin, df_already_checkedout)) s
  /\ snd (load_checkin_page to_datetime ss s)
     = final_store (df_already_checkedin <-
                      get_checked_in_students to_datetime
                        (strftime_Ymd (clock s)) (time_period (clock s)) ;;
                    df_already_checkedout <-
                      get_checked_out_students to_datetime
                        (strftime_Ymd (clock s)) (time_period (clock s)) ;;
                    ret (df_already_checkedin, df_already_checkedout)) s.
Proof.
  intros Hnew.
  assert (Hdate : option_string_eqb (ss_last_date ss)
                    (strftime_Ymd (clock s)) = false).
  { destruct (option_string_eqb _ _) eqn:H; [|reflexivity].
    now apply option_string_eqb_iff in H. }
  unfold load_checkin_page, load_checkouts, outcome, final_store, bind, ret;
    cbv zeta; page_fields.
  rewrite Hdate. page_fields.
  rewrite !get_checked_in_students_run.
  destruct (get_students_df to_datetime (sheet_checkins s) _ _) as [e|a];
    [now split|].
  rewrite !get_checked_out_students_run.
  destruct (get_students_df to_datetime (sheet_checkouts _) _ _) as [e|b];
    now split.
Qed.

Lemma new_date_ignores_the_cache_witness :
  fst (fst (load_checkin_page read_iso session_of_the_4th sample_store))
  = outcome (df_already_checkedin <-
               get_checked_in_students read_iso
                 (strftime_Ymd (clock sample_store))
                 (time_period (clock sample_store)) ;;
             df_already_checkedout <-
               get_checked_out_students read_iso
                 (strftime_Ymd (clock sample_store))
                 (time_period (clock sample_store)) ;;
             ret (df_already_checkedin, df_already_checkedout)) sample_store
  /\ reads (snd (load_checkin_page read_iso session_of_the_4th sample_store))
     = [event_log checkouts; event_log checkins].
Proof.
  destruct (new_date_ignores_the_cache read_iso session_of_the_4th
              sample_store) as [Hframes Hstore].
  - discriminate.
  - split; [exact Hframes|]. rewrite Hstore. reflexivity.
Defined.

(** X23: once a run of the top of the page has given its two frames, every
    later run on the same date and in the same period gives the same two
    frames, reads neither log and leaves the session state as it is,
    whatever the logs hold by then: rows appended since, by this page or
    by another, do not show. *)
Theorem cached_frames_are_served_again
    (to_datetime : string -> option datetime)
    (ss ss1 : PageCache) (s s1 later : Store) (cin cout : list Event) :
  load_checkin_page to_datetime ss s = (inr (cin, cout), ss1, s1) ->
  strftime_Ymd (clock later) = strftime_Ymd (clock s) ->
  time_period (clock later) = time_period (clock s) ->
  load_checkin_page to_datetime ss1 later = (inr (cin, cout), ss1, later).
Proof.
  intros Hrun Hdate Hperiod.
  destruct (load_checkin_page_leaves _ _ _ _ _ _ _ Hrun)
    as (Hp & Hd & Hin & Hout & _).
  rewrite (load_checkin_page_hit to_datetime ss1 later cin cout);
    try (rewrite ?Hdate, ?Hperiod; assumption).
  rewrite Hperiod, <- Hp. now destruct ss1.
Qed.

Lemma cached_frames_are_served_again_witness :
  exists ss1 s1,
    load_checkin_page read_iso fresh_session sample_store
    = (inr ([jane "08:10:00"], []), ss1, s1)
    /\ load_checkin_page read_iso ss1 later_store
       = (inr ([jane "08:10:00"], []), ss1, later_store).
Proof.
  eexists. eexists. split; [reflexivity|].
  eapply (cached_frames_are_served_again read_iso fresh_session _
            sample_store _ later_store [jane "08:10:00"] []);
    reflexivity.
Defined.

(** X24: a new date refreshes the frames of the period of the clock only.
    The frames the session state holds for the other period, of whatever
    day they are, stay, and a run later on that date in the other period
    gives them as they are, without a read. *)
Theorem other_period_frames_outlive_the_date
    (to_datetime : string -> option datetime)
    (ss ss1 : PageCache) (s s1 later : Store)
    (cin cout old_in old_out : list Event) :
  load_checkin_page to_datetime ss s = (inr (cin, cout), ss1, s1) ->
  strftime_Ymd (clock later) = strftime_Ymd (clock s) ->
  time_period (clock later) <> time_period (clock s) ->
  ss_checkedin_df ss (time_period (clock later)) = Some old_in ->
  ss_checkedout_df ss (time_period (clock later)) = Some old_out ->
  fst (fst (load_checkin_page to_datetime ss1 later))
  = inr (old_in, old_out)
  /\ snd (load_checkin_page to_datetime ss1 later) = later.
Proof.
  intros Hrun Hdate Hperiod Hin Hout.
  destruct (load_checkin_page_leaves _ _ _ _ _ _ _ Hrun)
    as (_ & Hd & _ & _ & Hother).
  destruct (Hother _ Hperiod) as [Hin1 Hout1].
  rewrite (load_checkin_page_hit to_datetime ss1 later old_in old_out);
    [now split|congruence..].
Qed.

Lemma other_period_frames_outlive_the_date_witness :
  exists ss1 s1,
    load_checkin_page read_iso session_of_the_4th sample_store
    = (inr ([jane "08:10:00"], []), ss1, s1)
    /\ fst (fst (load_checkin_page read_iso ss1 afternoon_store))
       = inr ([afternoon_of_the_4th], [])
    /\ snd (load_checkin_page read_iso ss1 afternoon_store)
       = afternoon_store.
Proof.
  eexists. eexists. split; [reflexivity|].
  eapply (other_period_frames_outlive_the_date read_iso session_of_the_4th _
            sample_store _ afternoon_store [jane "08:10:00"] []
            [afternoon_of_the_4th] []).
  - reflexivity.
  - reflexivity.
  - discriminate.
  - reflexivity.
  - reflexivity.
Defined.

(** ** checkin.py: the cache after a submission *)

Lemma sort_values_descending_perm {A : Type} (leb : A -> A -> bool)
    (l : list A) :
  Permutation (sort_values_descending leb l) l.
Proof.
  unfold sort_values_descending.
  eapply Permutation_trans; [symmetry; apply Permutation_rev|].
  eapply Permutation_trans; [apply sort_values_perm|].
  symmetry. apply Permutation_rev.
Qed.

(** The names whose box is checked, in a dict keyed by name. *)
Lemma checked_names_NoDup (all_names : list (string * bool)) :
  NoDup (map fst all_names) -> NoDup (map fst (filter snd all_names)).
Proof.
  induction all_names as [|[name checked] rest IH]; intros Hkeys;
    [constructor|].
  inversion Hkeys as [|k ks Hfresh Hrest]; subst.
  destruct checked; cbn [filter snd map fst]; [|now apply IH].
  constructor; [|now apply IH].
  intros Hin. apply Hfresh. apply in_map_iff in Hin.
  destruct Hin as (x & Hx & Hin). apply in_map_iff. exists x.
  split; [exact Hx|]. apply filter_In in Hin. tauto.
Qed.

Lemma names_of_new_rows (data : list student_data) :
  map FullName (map event_of_data data) = map sd_FullName data.
Proof. rewrite map_map. reflexivity. Qed.

(** X25: a submission that appended its rows leaves the store
    [submit_checkins] leaves: the check-in log has grown by the new rows,
    which bear the date and the time of the submission, and nothing else of
    the store has changed.  In the session state the entry of the check-in
    frame of the period has become the frame the page had followed by those
    same rows, and no other entry has changed: the period, the date, the
    check-in frame of the other period and the check-out frames are as they
    were.  The students of the new frame are those of the frame the page
    had together with those whose box was checked; as [all_names] is keyed
    by name and holds no student already checked in, the frame names each
    student once when the frame the page had did. *)
Theorem cache_after_submission
    (all_names : list (string * bool)) (names : list Student)
    (submit_time current_time : datetime) (is_override : bool)
    (override_checkin_time : value) (period : TimePeriod)
    (df_already_checkedin : list Event) (ss ss1 : PageCache)
    (s s1 : Store) :
  submit_page all_names names submit_time current_time is_override
              override_checkin_time period df_already_checkedin ss s
  = (inr tt, ss1, s1) ->
  s1 = snd (submit_checkins all_names names submit_time current_time
                            is_override override_checkin_time s)
  /\ ss_time_period ss1 = ss_time_period ss
  /\ ss_last_date ss1 = ss_last_date ss
  /\ ss_checkedout_df ss1 = ss_checkedout_df ss
  /\ (forall q, q <> period -> ss_checkedin_df ss1 q = ss_checkedin_df ss q)
  /\ exists new_rows,
       s1 = mk_Store (sheet_checkins s ++ new_rows)%list (sheet_checkouts s)
                     (sheet_corrections s) (clock s) (reads s)
       /\ ss_checkedin_df ss1 period
          = Some (df_already_checkedin ++ new_rows)%list
       /\ Forall (fun e => SubmitDate e = strftime_Ymd current_time
                           /\ SubmitTime e = strftime_HMS submit_time)
                 new_rows
       /\ Permutation (map FullName new_rows)
                      (map fst (filter snd all_names))
       /\ (forall n,
             In n (map FullName (df_already_checkedin ++ new_rows)%list)
             <-> In n (map FullName df_already_checkedin)
                 \/ In (n, true) all_names)
       /\ (NoDup (map fst all_names) ->
           NoDup (map FullName df_already_checkedin) ->
           (forall n, In n (map fst all_names) ->
                      ~ In n (map FullName df_already_checkedin)) ->
           NoDup (map FullName (df_already_checkedin ++ new_rows)%list)).
Proof.
  unfold submit_page, submit_checkins.
  destruct (new_checkins_data all_names names submit_time current_time
              is_override override_checkin_time) as [e|data] eqn:Hdata;
    [discriminate|].
  destruct data as [|d0 data0]; [discriminate|].
  set (data := d0 :: data0) in *.
  destruct (new_checkins_data_spec _ _ _ _ _ _ _ Hdata) as [Hnames Hall].
  cbv zeta. intros H. injection H as <- <-.
  cbn [ss_time_period ss_checkedout_df ss_last_date ss_checkedin_df].
  repeat (split; [reflexivity|]).
  split; [intros q Hq; now apply store_frame_other|].
  set (new_rows := map event_of_data
                     (sort_values_descending
                        (fun a b => String.leb (sd_SubmitTime a)
                                               (sd_SubmitTime b)) data)).
  assert (Hperm : Permutation (map FullName new_rows)
                              (map fst (filter snd all_names))).
  { unfold new_rows. rewrite names_of_new_rows, <- Hnames.
    apply Permutation_map, sort_values_descending_perm. }
  assert (Hchecked : forall n, In n (map fst (filter snd all_names))
                               <-> In (n, true) all_names).
  { intros n. rewrite in_map_iff. split.
    - intros ([k c] & Hk & Hin). apply filter_In in Hin.
      cbn in Hk, Hin. destruct Hin as [Hin Hc]. now subst.
    - intros Hin. exists (n, true). split; [reflexivity|].
      apply filter_In. now split. }
  exists new_rows. split.
  { unfold append_data_to_sheet. cbn [snd].
    now rewrite new_checkins_read_back. }
  split; [apply store_frame_same|]. split.
  { apply Forall_forall. intros e He. unfold new_rows in He.
    apply in_map_iff in He. destruct He as (d & <- & Hd).
    apply sort_values_descending_In in Hd.
    rewrite Forall_forall in Hall. destruct (Hall d Hd) as (Ht & Hdate & _).
    split; assumption. }
  split; [exact Hperm|]. split.
  - intros n. rewrite map_app, in_app_iff, <- Hchecked.
    split; (intros [Hold|Hnew]; [now left|right]).
    + exact (Permutation_in _ Hperm Hnew).
    + exact (Permutation_in _ (Permutation_sym Hperm) Hnew).
  - intros Hkeys Hold Hfresh. rewrite map_app.
    assert (Hnd : NoDup (map FullName new_rows)).
    { apply (Permutation_NoDup (Permutation_sym Hperm)).
      now apply checked_names_NoDup. }
    clear Hnames Hdata Hall. induction (map FullName df_already_checkedin)
      as [|n olds IH]; [exact Hnd|].
    cbn [app]. inversion Hold as [|k ks Hnotin Holds]; subst.
    constructor.
    + rewrite in_app_iff. intros [Hin|Hin]; [now apply Hnotin|].
      apply (Permutation_in _ Hperm) in Hin.
      apply (Hfresh n); [|now left].
      apply in_map_iff in Hin. destruct Hin as (x & Hx & Hin).
      apply in_map_iff. exists x. apply filter_In in Hin. tauto.
    + apply IH; [exact Holds|].
      intros m Hm Hin. apply (Hfresh m Hm). now right.
Qed.

Lemma cache_after_submission_witness :
  exists ss1 s1 new_rows,
    submit_page [("Jane Doe", false); ("Bob Roe", true)] sample_roster
                eight_twenty eight_twenty false PyNone MORNING
                [jane "08:10:00"] fresh_session sample_store
    = (inr tt, ss1, s1)
    /\ sheet_checkins s1 = (two_checkins ++ new_rows)%list
    /\ ss_checkedin_df ss1 MORNING = Some ([jane "08:10:00"] ++ new_rows)%list
    /\ Permutation (map FullName new_rows) ["Bob Roe"].
Proof.
  eexists. eexists.
  destruct (cache_after_submission
              [("Jane Doe", false); ("Bob Roe", true)] sample_roster
              eight_twenty eight_twenty false PyNone MORNING
              [jane "08:10:00"] fresh_session _ sample_store _ eq_refl)
    as (_ & _ & _ & _ & _ & new_rows & Hstore & Hcached & _ & Hperm & _).
  exists new_rows. split; [reflexivity|].
  split; [now rewrite Hstore|]. split; [exact Hcached|exact Hperm].
Defined.

(** ** Empty logs, once more *)

(** X27: on empty logs the reconciler raises nothing and returns empty
    frames: [get_students] for every period and date, [df_current]
    whatever the check-outs, [get_attendance] over every valid range; and
    on a response sheet with a header and no response [get_corrections]
    returns the empty frame exactly when no column is called 'FullName'
    once renamed. *)
Theorem empty_logs_give_empty_frames
    (to_datetime : string -> option datetime) (time_period : TimePeriod)
    (date : option string) (columns : list string) (now : datetime)
    (students : option (list string)) (date_start date_end : datetime)
    (drop_duplicates : bool) (df_checkedout : list Event) :
  datetime_ltb date_end date_start = false ->
  get_students_df to_datetime [] time_period date = inr []
  /\ outcome (get_students to_datetime checkins time_period date)
             (empty_store columns now) = inr []
  /\ outcome (get_students to_datetime checkouts time_period date)
             (empty_store columns now) = inr []
  /\ df_current [] df_checkedout = []
  /\ outcome (get_attendance students (Some date_start) (Some date_end)
                             drop_duplicates)
             (empty_store columns now) = inr []
  /\ (outcome (get_corrections to_datetime students (Some date_start)
                               (Some date_end))
              (empty_store columns now) = inr []
      <-> ~ In "FullName" (map (rename column_renames) columns)).
Proof.
  intros Hrange.
  assert (Hempty : get_students_df to_datetime [] time_period date = inr [])
    by (destruct date as [[|c d]|]; reflexivity).
  split; [exact Hempty|].
  split; [unfold outcome; rewrite get_students_run; exact Hempty|].
  split; [unfold outcome; rewrite get_students_run; exact Hempty|].
  split; [reflexivity|]. split.
  - unfold outcome.
    rewrite get_attendance_run by exact Hrange. cbn [fst]. f_equal.
    unfold get_attendance_df. cbn.
    destruct students as [[|n names]|], drop_duplicates; reflexivity.
  - unfold outcome. rewrite get_corrections_run by exact Hrange. cbn [fst].
    split.
    + intros Hout.
      now destruct (get_corrections_df_inv to_datetime _ _ _ _ _ Hout)
        as (_ & _ & Hno).
    + intros Hcols.
      destruct (get_corrections_df_melted to_datetime
                  (corrections_frame (empty_store columns now))
                  students date_start date_end) as (final & Hout & Hperm);
        try reflexivity; [exact Hcols|].
      rewrite Hout. cbn in Hperm. symmetry in Hperm.
      apply Permutation_nil in Hperm.
      now subst final.
Qed.

Lemma empty_logs_give_empty_frames_witness :
  get_students_df read_iso [] MORNING (Some "2024-09-05") = inr []
  /\ outcome (get_attendance None (Some (sept 1)) (Some (sept 5)) true)
             (empty_store [] (sept 5)) = inr []
  /\ outcome (get_corrections read_iso None (Some (sept 1)) (Some (sept 5)))
             (empty_store ["Choose Student (Grade 3)"] (sept 5)) = inr []
  /\ outcome (get_corrections read_iso None (Some (sept 1)) (Some (sept 5)))
             (empty_store documented_columns (sept 5)) <> inr [].
Proof.
  pose proof (empty_logs_give_empty_frames read_iso MORNING
                (Some "2024-09-05") [] (sept 5) None (sept 1) (sept 5)
                true [] eq_refl) as (Hs & _ & _ & _ & Ha & _).
  split; [exact Hs|]. split; [exact Ha|]. split.
  - apply (empty_logs_give_empty_frames read_iso MORNING
             (Some "2024-09-05") ["Choose Student (Grade 3)"] (sept 5) None
             (sept 1) (sept 5) true [] eq_refl).
    simpl. intros [H|[]]. discriminate.
  - intros Hout.
    apply (empty_logs_give_empty_frames read_iso MORNING
             (Some "2024-09-05") documented_columns (sept 5) None
             (sept 1) (sept 5) true [] eq_refl) in Hout.
    apply Hout. simpl. now left.
Defined.
